(** * Prospera: the company-to-opportunity matching pipeline

    A shallow embedding of [src/matching/opportunity_matcher.py]
    ([OpportunityMatcher.analyze_company_profile],
    [score_opportunity_relevance], [find_matches_for_company]) together
    with the attribute set of [BusinessProfile] from
    [src/profile/business_profile.py], and the properties of the
    matching pipeline proved about it.

    Conventions of the embedding:
    - a Python [float] is a [spec_float] (IEEE 754 binary64 datum with
      signed zeros, infinities and NaN); an [int] is a [Z]; comparisons
      between the two are exact, as in CPython;
    - values produced by [json.loads] are the inductive [pyval];
    - a raised exception is the [Raise] branch of [result]; [str(e)] is
      the message carried by the exception;
    - the LLM behind [self.client.chat.completions.create] is a function
      of the call number and the prompt, so that it may answer the same
      prompt differently at different calls;
    - a character of a Python [str] is one [ascii] of a [string];
    - the calls to [logger] are not modelled: they have no effect on the
      values returned. *)

From Stdlib Require Import ZArith QArith String Ascii List Sorted Permutation SpecFloat Lia.
From stdpp Require Import base list strings gmap pretty.

Local Open Scope string_scope.
Set Warnings "-register-all".

(** ** Numbers and their comparisons *)

Module Num.

(** A Python number: [int] (and [bool], its subclass) or [float]. *)
Inductive number :=
| NInt (z : Z)
| NFloat (f : spec_float).

(** The extended rational a number denotes. *)
Inductive ext :=
| NaN
| NegInf
| Fin (q : Q)
| PosInf.

(** [m * 2 ^ e] as a rational. *)
Definition dyadic (m e : Z) : Q :=
  if (0 <=? e)%Z then inject_Z (m * 2 ^ e)
  else Qmake m (2 ^ Z.to_pos (- e))%positive.

Definition float_value (f : spec_float) : ext :=
  match f with
  | S754_zero _ => Fin 0
  | S754_infinity s => if s then NegInf else PosInf
  | S754_nan => NaN
  | S754_finite s m e => Fin (dyadic (if s then Z.neg m else Z.pos m) e)
  end.

Definition value (x : number) : ext :=
  match x with
  | NInt z => Fin (inject_Z z)
  | NFloat f => float_value f
  end.

(** Three-way comparison; [None] when one side is NaN (every ordered
    comparison with NaN is false). *)
Definition ext_compare (a b : ext) : option comparison :=
  match a, b with
  | NaN, _ | _, NaN => None
  | NegInf, NegInf => Some Eq
  | NegInf, _ => Some Lt
  | Fin _, NegInf => Some Gt
  | Fin p, Fin q => Some (Qcompare p q)
  | Fin _, PosInf => Some Lt
  | PosInf, PosInf => Some Eq
  | PosInf, _ => Some Gt
  end.

Definition compare (x y : number) : option comparison :=
  ext_compare (value x) (value y).

(** [x < y], [x > y], [x >= y], [x == y] of Python. *)
Definition lt (x y : number) : bool :=
  match compare x y with Some Lt => true | _ => false end.
Definition gt (x y : number) : bool :=
  match compare x y with Some Gt => true | _ => false end.
Definition ge (x y : number) : bool :=
  match compare x y with Some Gt | Some Eq => true | _ => false end.
Definition eq (x y : number) : bool :=
  match compare x y with Some Eq => true | _ => false end.

Definition is_nan (x : number) : bool :=
  match value x with NaN => true | _ => false end.

(** The float literals of the source. *)
Definition f0_0 : number := NFloat (S754_zero false).
Definition f1_0 : number := NFloat (S754_finite false 4503599627370496 (-52)).
Definition f0_6 : number := NFloat (S754_finite false 5404319552844595 (-53)).

(** [min(1.0, x)]: CPython keeps the first argument unless [x < 1.0]. *)
Definition min_1 (x : number) : number := if lt x f1_0 then x else f1_0.
(** [max(0.0, y)]: CPython keeps the first argument unless [y > 0.0]. *)
Definition max_0 (y : number) : number := if gt y f0_0 then y else f0_0.

(** [max(0.0, min(1.0, x))] *)
Definition clamp (x : number) : number := max_0 (min_1 x).

(** Membership in the closed interval [0.0, 1.0]. *)
Definition in_unit (x : number) : bool := ge x f0_0 && ge f1_0 x.

End Num.

Import Num.

(** ** Python values, exceptions and objects *)

(** What [json.loads] can return, and what an attribute can hold. A
    [dict] keeps its items in insertion order. *)
Inductive pyval :=
| VNone
| VBool (b : bool)
| VInt (z : Z)
| VFloat (f : spec_float)
| VStr (s : string)
| VList (l : list pyval)
| VDict (kv : list (string * pyval)).

(** [type(v).__name__] *)
Definition type_name (v : pyval) : string :=
  match v with
  | VNone => "NoneType"
  | VBool _ => "bool"
  | VInt _ => "int"
  | VFloat _ => "float"
  | VStr _ => "str"
  | VList _ => "list"
  | VDict _ => "dict"
  end.

(** The values that order against a float; [True] and [False] compare
    as the integers 1 and 0. *)
Definition as_number (v : pyval) : option number :=
  match v with
  | VBool b => Some (NInt (Z.b2z b))
  | VInt z => Some (NInt z)
  | VFloat f => Some (NFloat f)
  | _ => None
  end.

Record exn := Exn { exn_type : string; exn_msg : string }.

Definition TypeError (msg : string) : exn := Exn "TypeError" msg.
Definition AttributeError (msg : string) : exn := Exn "AttributeError" msg.

(** [str(e)] *)
Definition str_exn (e : exn) : string := exn_msg e.

(** A computation that returns or raises. *)
Inductive result (A : Type) :=
| Ok (a : A)
| Raise (e : exn).
Arguments Ok {A} a.
Arguments Raise {A} e.

Definition bind {A B : Type} (r : result A) (k : A -> result B) : result B :=
  match r with
  | Ok a => k a
  | Raise e => Raise e
  end.

Notation "x <- r ;; k" := (bind r (fun x => k))
  (at level 100, r at next level, right associativity).

(** An instance of a class: its class name and its [__dict__]. *)
Record pyobj := PyObj { cls : string; attrs : gmap string pyval }.

(** [o.name] *)
Definition getattr (o : pyobj) (name : string) : result pyval :=
  match attrs o !! name with
  | Some v => Ok v
  | None =>
      Raise (AttributeError
               ("'" +:+ cls o +:+ "' object has no attribute '" +:+ name +:+ "'"))
  end.

(** The fields the dataclass [BusinessProfile] declares. *)
Definition BusinessProfile_fields : list string :=
  [ "company_name"; "industry"; "sub_industry"; "business_size";
    "annual_revenue"; "location";
    "primary_products"; "target_markets"; "market_focus";
    "unique_selling_points";
    "main_challenges"; "growth_goals"; "target_revenue_growth";
    "focus_regions"; "competitor_companies"; "key_keywords";
    "preferred_languages";
    "created_at"; "updated_at"; "profile_completeness" ].

(** [o] is an instance built by the constructor of [BusinessProfile]:
    it has exactly the declared fields. *)
Definition is_BusinessProfile (o : pyobj) : Prop :=
  cls o = "BusinessProfile" /\
  forall name, is_Some (attrs o !! name) <-> name ∈ BusinessProfile_fields.

(** The attributes [analyze_company_profile] reads: five that are
    formatted and three that are joined. *)
Definition formatted_attributes : list string :=
  [ "company_name"; "industry"; "business_type"; "company_size"; "description" ].
Definition joined_attributes : list string :=
  [ "services"; "target_markets"; "key_challenges" ].

(** [o] has the attributes the analyzer reads, the joined ones holding
    lists of strings. *)
Definition has_profile_attributes (o : pyobj) : Prop :=
  (forall name, name ∈ formatted_attributes -> is_Some (attrs o !! name)) /\
  (forall name, name ∈ joined_attributes ->
     exists l : list string, attrs o !! name = Some (VList (map VStr l))).

(** [d.get(key, default)] on the items of a dict. *)
Fixpoint dict_lookup (key : string) (kv : list (string * pyval)) : option pyval :=
  match kv with
  | [] => None
  | (k, v) :: rest => if String.eqb k key then Some v else dict_lookup key rest
  end.

Definition dict_get (kv : list (string * pyval)) (key : string) (dflt : pyval) : pyval :=
  match dict_lookup key kv with
  | Some v => v
  | None => dflt
  end.

(** [v.get(key, default)] on any value: only a dict has the method. *)
Definition py_get (v : pyval) (key : string) (dflt : pyval) : result pyval :=
  match v with
  | VDict kv => Ok (dict_get kv key dflt)
  | _ => Raise (AttributeError ("'" +:+ type_name v +:+ "' object has no attribute 'get'"))
  end.

(** The items of [', '.join(v)] when [v] is a list: each must be a
    [str]. *)
Fixpoint join_items (i : nat) (l : list pyval) : result (list string) :=
  match l with
  | [] => Ok []
  | VStr s :: rest => ss <- join_items (S i) rest ;; Ok (s :: ss)
  | v :: _ =>
      Raise (TypeError ("sequence item " +:+ pretty i +:+ ": expected str instance, "
                          +:+ type_name v +:+ " found"))
  end.

Fixpoint chars (s : string) : list string :=
  match s with
  | EmptyString => []
  | String c rest => String c EmptyString :: chars rest
  end.

(** [sep.join(v)]: a list of strings is joined, a string is iterated
    by characters, a dict by keys; the other values are not iterable. *)
Definition str_join (sep : string) (v : pyval) : result string :=
  match v with
  | VList l => ss <- join_items 0 l ;; Ok (String.concat sep ss)
  | VStr s => Ok (String.concat sep (chars s))
  | VDict kv => Ok (String.concat sep (map fst kv))
  | _ => Raise (TypeError "can only join an iterable")
  end.

(** ** The environment of the matcher *)

(** What a chat-completion call gives back: an exception raised by the
    call or by [response.choices[0].message.content], or the content,
    which may be [None]. *)
Inductive reply :=
| Raises (e : exn)
| Content (c : option string).

(** The capabilities the matcher calls but does not define. *)
Record env := Env {
  (** [self.client.chat.completions.create]: call number, system
      message, user message *)
  oracle : nat -> string -> string -> reply;
  (** [json.loads] *)
  json_loads : string -> result pyval;
  (** [str(v)] for a value that is not a [str] *)
  py_str : pyval -> string;
  (** [datetime.now()] during call number [n] *)
  now : nat -> Z
}.

(** [f"{v}"] *)
Definition py_format (w : env) (v : pyval) : string :=
  match v with
  | VStr s => s
  | _ => py_str w v
  end.

(** ** The data classes of the matcher *)

Module Opportunity.
Record t := Make {
  id : string;
  title : string;
  description : string;
  content : string;
  source : string;
  source_url : string;
  opportunity_type : string;
  tags : list string;
  published_at : Z;
  metadata : list (string * pyval)
}.

End Opportunity.

Module Match.
Record t := Make {
  company_id : pyval;
  opportunity_id : string;
  relevance_score : number;
  reasoning : pyval;
  match_status : string;
  created_at : option Z
}.

(** [m.company_id = v] *)
Definition set_company_id (m : t) (v : pyval) : t :=
  {| company_id := v;
     opportunity_id := opportunity_id m;
     relevance_score := relevance_score m;
     reasoning := reasoning m;
     match_status := match_status m;
     created_at := created_at m |}.
End Match.

(** ** Prompt templates *)

Definition nl : string := String (ascii_of_nat 10) EmptyString.
Definition indent : string := "        ".

(** A triple-quoted f-string of the source: a newline, the lines of the
    body at the indentation of the method, and the indentation before
    the closing quotes. *)
Definition template (body : list string) : string :=
  nl +:+ String.concat nl (map (String.append indent) (body ++ [""])).

(** ** [OpportunityMatcher.analyze_company_profile] *)

Definition profile_text (w : env) (profile : pyobj) : result string :=
  company_name <- getattr profile "company_name" ;;
  industry <- getattr profile "industry" ;;
  business_type <- getattr profile "business_type" ;;
  company_size <- getattr profile "company_size" ;;
  description <- getattr profile "description" ;;
  services <- getattr profile "services" ;;
  services <- str_join ", " services ;;
  target_markets <- getattr profile "target_markets" ;;
  target_markets <- str_join ", " target_markets ;;
  key_challenges <- getattr profile "key_challenges" ;;
  key_challenges <- str_join ", " key_challenges ;;
  Ok (template
        [ "Company: " +:+ py_format w company_name;
          "Industry: " +:+ py_format w industry;
          "Business Type: " +:+ py_format w business_type;
          "Company Size: " +:+ py_format w company_size;
          "Description: " +:+ py_format w description;
          "Services: " +:+ services;
          "Target Markets: " +:+ target_markets;
          "Key Challenges: " +:+ key_challenges ]).

Definition analysis_prompt (text : string) : string :=
  template
    [ "Analyze this business profile and extract key characteristics for opportunity matching:";
      "";
      text;
      "";
      "Return JSON with:";
      "- industry_focus: primary industry category";
      "- business_stage: startup/growth/established/enterprise";
      "- target_customers: key customer segments";
      "- growth_priorities: main areas for business growth";
      "- technology_adoption: low/medium/high tech adoption level";
      "- geographic_scope: local/regional/national/international";
      "- key_capabilities: core business capabilities";
      "- partnership_interests: types of partnerships they might seek" ].

Definition analysis_system : string :=
  "You are a business analyst expert at understanding company profiles and matching them with opportunities. Respond with JSON only.".

(** [if content:] *)
Definition truthy (c : option string) : option string :=
  match c with
  | Some EmptyString | None => None
  | Some s => Some s
  end.

(** The body of the [try] of [analyze_company_profile]. *)
Definition analysis_attempt (w : env) (n : nat) (prompt : string) : result pyval :=
  match oracle w n analysis_system prompt with
  | Raises e => Raise e
  | Content c =>
      match truthy c with
      | Some s => json_loads w s
      | None =>
          Ok (VDict [("industry_focus", VStr "Unknown");
                     ("business_stage", VStr "Unknown")])
      end
  end.

(** [n] is the number of calls already made to the oracle. *)
Definition analyze_company_profile (w : env) (n : nat) (profile : pyobj)
  : result pyval :=
  text <- profile_text w profile ;;
  let prompt := analysis_prompt text in
  match analysis_attempt w n prompt with
  | Ok analysis => Ok analysis
  | Raise e =>
      industry <- getattr profile "industry" ;;
      Ok (VDict [("industry_focus", industry);
                 ("business_stage", VStr "unknown");
                 ("error", VStr (str_exn e))])
  end.

(** ** [OpportunityMatcher.score_opportunity_relevance] *)

(** [company_analysis.get(key, 'Unknown')] inside the f-string *)
Definition analysis_field (w : env) (company_analysis : pyval) (key : string)
  : result string :=
  v <- py_get company_analysis key (VStr "Unknown") ;;
  Ok (py_format w v).

(** [opportunity.content[:500] if opportunity.content else 'No content'] *)
Definition content_preview (opportunity : Opportunity.t) : string :=
  match Opportunity.content opportunity with
  | EmptyString => "No content"
  | String _ _ as c => substring 0 500 c
  end.

Definition scoring_prompt (w : env) (company_analysis : pyval)
  (opportunity : Opportunity.t) : result string :=
  industry_focus <- analysis_field w company_analysis "industry_focus" ;;
  business_stage <- analysis_field w company_analysis "business_stage" ;;
  target_customers <- analysis_field w company_analysis "target_customers" ;;
  growth_priorities <- analysis_field w company_analysis "growth_priorities" ;;
  technology_adoption <- analysis_field w company_analysis "technology_adoption" ;;
  geographic_scope <- analysis_field w company_analysis "geographic_scope" ;;
  Ok (template
        [ "Analyze the relevance of this business opportunity for the company:";
          "";
          "Company Profile:";
          "Industry Focus: " +:+ industry_focus;
          "Business Stage: " +:+ business_stage;
          "Target Customers: " +:+ target_customers;
          "Growth Priorities: " +:+ growth_priorities;
          "Technology Adoption: " +:+ technology_adoption;
          "Geographic Scope: " +:+ geographic_scope;
          "";
          "Opportunity:";
          "Title: " +:+ Opportunity.title opportunity;
          "Description: " +:+ Opportunity.description opportunity;
          "Type: " +:+ Opportunity.opportunity_type opportunity;
          "Source: " +:+ Opportunity.source opportunity;
          "Tags: " +:+ String.concat ", " (Opportunity.tags opportunity);
          "Content Preview: " +:+ content_preview opportunity;
          "";
          "Analyze relevance considering:";
          "1. Industry alignment and market fit";
          "2. Business stage appropriateness";
          "3. Geographic relevance";
          "4. Potential business impact";
          "5. Timing and urgency";
          "";
          "Return JSON with:";
          "- relevance_score: float between 0.0 and 1.0 (1.0 = highly relevant)";
          "- reasoning: detailed explanation of why this opportunity matches or doesn't match";
          "- key_match_factors: array of specific reasons for the score";
          "- actionability: how actionable this opportunity is for the company";
          "";
          "Be strict with scoring - only score above 0.7 for highly relevant opportunities." ]).

Definition scoring_system : string :=
  "You are a business opportunity analyst. Provide precise relevance scoring with detailed reasoning. Respond only with valid JSON.".

(** [max(0.0, min(1.0, raw))] on a value of any type: [raw < 1.0] is
    the first comparison made, and it raises on a value that does not
    order against a float. *)
Definition clamp_value (raw : pyval) : result number :=
  match as_number raw with
  | Some x => Ok (clamp x)
  | None =>
      Raise (TypeError ("'<' not supported between instances of '"
                          +:+ type_name raw +:+ "' and 'float'"))
  end.

(** The body of the [try] of [score_opportunity_relevance]. *)
Definition scoring_attempt (w : env) (n : nat) (prompt : string)
  (opportunity : Opportunity.t) : result Match.t :=
  match oracle w n scoring_system prompt with
  | Raises e => Raise e
  | Content c =>
      scoring <- match truthy c with
                 | Some s => json_loads w s
                 | None =>
                     Ok (VDict [("relevance_score", VFloat (S754_zero false));
                                ("reasoning", VStr "No analysis available")])
                 end ;;
      raw <- py_get scoring "relevance_score" (VFloat (S754_zero false)) ;;
      score <- clamp_value raw ;;
      reasoning <- py_get scoring "reasoning" (VStr "AI analysis completed") ;;
      Ok {| Match.company_id := VStr "placeholder";
            Match.opportunity_id := Opportunity.id opportunity;
            Match.relevance_score := score;
            Match.reasoning := reasoning;
            Match.match_status := "pending";
            Match.created_at := Some (now w n) |}
  end.

(** The [Match] built by the [except] branch. *)
Definition unavailable (w : env) (n : nat) (opportunity : Opportunity.t)
  (e : exn) : Match.t :=
  {| Match.company_id := VStr "placeholder";
     Match.opportunity_id := Opportunity.id opportunity;
     Match.relevance_score := f0_0;
     Match.reasoning := VStr ("Analysis unavailable: " +:+ str_exn e);
     Match.match_status := "pending";
     Match.created_at := Some (now w n) |}.

(** The prompt is built before the [try]: an exception there reaches
    the caller. [n] is the number of calls already made to the oracle. *)
Definition score_opportunity_relevance (w : env) (n : nat)
  (company_analysis : pyval) (opportunity : Opportunity.t) : result Match.t :=
  prompt <- scoring_prompt w company_analysis opportunity ;;
  match scoring_attempt w n prompt opportunity with
  | Ok m => Ok m
  | Raise e => Ok (unavailable w n opportunity e)
  end.

(** ** [OpportunityMatcher.find_matches_for_company] *)

(** [list.sort(key=..., reverse=True)]: a stable sort into descending
    order of the key that compares keys with [<] only. An element goes
    behind the elements of strictly greater key and before the rest of
    the elements that followed it in the input. *)
Fixpoint insert_desc {A : Type} (key : A -> number) (x : A) (l : list A) : list A :=
  match l with
  | [] => [x]
  | y :: l' => if lt (key x) (key y) then y :: insert_desc key x l' else x :: l
  end.

Definition sort_reverse {A : Type} (key : A -> number) (l : list A) : list A :=
  foldr (insert_desc key) [] l.

(** The [for] loop: [matches] is the list built so far, [n] the number
    of calls already made to the oracle. *)
Fixpoint score_loop (w : env) (n : nat) (company_analysis : pyval)
  (profile : pyobj) (min_score : number) (opportunities : list Opportunity.t)
  (matches : list Match.t) : result (list Match.t) :=
  match opportunities with
  | [] => Ok matches
  | opportunity :: rest =>
      m <- score_opportunity_relevance w n company_analysis opportunity ;;
      company_name <- getattr profile "company_name" ;;
      let m := Match.set_company_id m company_name in
      score_loop w (S n) company_analysis profile min_score rest
        (if ge (Match.relevance_score m) min_score then matches ++ [m] else matches)
  end.

Definition find_matches_for_company (w : env) (n : nat) (profile : pyobj)
  (opportunities : list Opportunity.t) (min_score : number)
  : result (list Match.t) :=
  company_analysis <- analyze_company_profile w n profile ;;
  matches <- score_loop w (S n) company_analysis profile min_score opportunities [] ;;
  Ok (sort_reverse Match.relevance_score matches).

(** The default of the parameter [min_score]. *)
Definition default_min_score : number := f0_6.

(** ** The ranking step and the per-opportunity scoring, stated apart *)

(** The Matches produced for one company over the catalogue, in the
    order of the catalogue, each stamped with the company name; the
    oracle is called once per opportunity, from call [n] on. *)
Fixpoint score_each (w : env) (n : nat) (company_analysis : pyval)
  (company_name : pyval) (opportunities : list Opportunity.t)
  : result (list Match.t) :=
  match opportunities with
  | [] => Ok []
  | opportunity :: rest =>
      m <- score_opportunity_relevance w n company_analysis opportunity ;;
      ms <- score_each w (S n) company_analysis company_name rest ;;
      Ok (Match.set_company_id m company_name :: ms)
  end.

(** Descending order of the key. *)
Definition descending {A : Type} (key : A -> number) (a b : A) : Prop :=
  ge (key a) (key b) = true.

(** The elements whose key equals [k], in the order of the list. *)
Definition with_key {A : Type} (key : A -> number) (k : number) (l : list A) : list A :=
  filter (fun a => eq (key a) k = true) l.

(** The condition of the [if] in the loop. *)
Definition keeps (min_score : number) (m : Match.t) : bool :=
  ge (Match.relevance_score m) min_score.

(** Threshold filter followed by the descending sort. *)
Definition rank (min_score : number) (ms : list Match.t) : list Match.t :=
  sort_reverse Match.relevance_score (filter (fun m => keeps min_score m = true) ms).

(** The Matches of [ms] whose score equals [k], in the order of [ms]. *)
Definition with_score (k : number) (ms : list Match.t) : list Match.t :=
  with_key Match.relevance_score k ms.

(** The fields of a company characterization. *)
Definition characterization_fields : list string :=
  [ "industry_focus"; "business_stage"; "target_customers"; "growth_priorities";
    "technology_adoption"; "geographic_scope"; "key_capabilities";
    "partnership_interests" ].

(** Every field of the characterization has a value. *)
Definition populated (analysis : pyval) : Prop :=
  exists kv, analysis = VDict kv /\
    forall key, key ∈ characterization_fields -> is_Some (dict_lookup key kv).

(** ** Concrete runs *)

Module Example.

Definition dq : string := String (ascii_of_nat 34) EmptyString.
Definition quoted (s : string) : string := dq +:+ s +:+ dq.

(** The text of a JSON object with the given members. *)
Definition object_text (members : list (string * string)) : string :=
  "{" +:+ String.concat ", " (map (fun kv => quoted (fst kv) +:+ ": " +:+ snd kv) members)
      +:+ "}".

Definition v0_8 : spec_float := S754_finite false 7205759403792794 (-53).
Definition v0_9 : spec_float := S754_finite false 8106479329266893 (-53).
Definition v1_5 : spec_float := S754_finite false 6755399441055744 (-52).
Definition v0_5 : spec_float := S754_finite false 4503599627370496 (-53).
Definition v0_75 : spec_float := S754_finite false 6755399441055744 (-53).

Definition analysis_text : string :=
  object_text [("industry_focus", quoted "technology software");
               ("business_stage", quoted "growth")].
Definition analysis_value : pyval :=
  VDict [("industry_focus", VStr "technology software");
         ("business_stage", VStr "growth")].

Definition score_text (score reason : string) : string :=
  object_text [("relevance_score", score); ("reasoning", quoted reason)].
Definition score_value (score : pyval) (reason : string) : pyval :=
  VDict [("relevance_score", score); ("reasoning", VStr reason)].

(** The JSON texts the scripted oracles answer with, and their
    values. *)
Definition parses : list (string * pyval) :=
  [ (analysis_text, analysis_value);
    (score_text "0.8" "good fit", score_value (VFloat v0_8) "good fit");
    (score_text "0.9" "strong fit", score_value (VFloat v0_9) "strong fit");
    (score_text "1.5" "overrated", score_value (VFloat v1_5) "overrated");
    (score_text "-3" "underrated", score_value (VInt (-3)) "underrated");
    (score_text "0.5" "weak fit", score_value (VFloat v0_5) "weak fit");
    (score_text "0.75" "fair fit", score_value (VFloat v0_75) "fair fit");
    (score_text "NaN" "unsure", score_value (VFloat S754_nan) "unsure");
    (score_text (quoted "NaN") "unsure", score_value (VStr "NaN") "unsure");
    (object_text [("reasoning", quoted "no score")],
     VDict [("reasoning", VStr "no score")]);
    ("[]", VList []) ].

Definition loads (s : string) : result pyval :=
  match dict_lookup s parses with
  | Some v => Ok v
  | None => Raise (Exn "JSONDecodeError" "Expecting value: line 1 column 1 (char 0)")
  end.

Definition str_of (v : pyval) : string :=
  match v with
  | VNone => "None"
  | VBool true => "True"
  | VBool false => "False"
  | VList [] => "[]"
  | VDict [] => "{}"
  | _ => "<" +:+ type_name v +:+ ">"
  end.

(** An oracle that gives its scripted replies in order. *)
Definition scripted (replies : list reply) : env :=
  {| oracle := fun n _ _ => nth n replies (Content None);
     json_loads := loads;
     py_str := str_of;
     now := fun n => (1700000000 + Z.of_nat n)%Z |}.

Definition timeout : exn := Exn "APITimeoutError" "Request timed out.".

(** An object with the eight attributes the matcher reads. *)
Definition company : pyobj :=
  PyObj "CompanyProfile"
    (list_to_map
       [ ("company_name", VStr "Acme");
         ("industry", VStr "technology software");
         ("business_type", VStr "B2B");
         ("company_size", VStr "small");
         ("description", VStr "Workflow tools");
         ("services", VList [VStr "consulting"; VStr "hosting"]);
         ("target_markets", VList [VStr "retail"]);
         ("key_challenges", VList []) ]).

(** The instance of the dataclass [BusinessProfile] that
    [BusinessProfileManager.create_profile_from_data] builds from an
    empty dictionary; the two enumeration members are shown by their
    values. *)
Definition business_profile : pyobj :=
  PyObj "BusinessProfile"
    (list_to_map
       [ ("company_name", VStr ""); ("industry", VStr "consulting");
         ("sub_industry", VStr ""); ("business_size", VStr "11-50 employees");
         ("annual_revenue", VStr "undisclosed"); ("location", VStr "");
         ("primary_products", VList []);
         ("target_markets", VList [VStr "General Market"]);
         ("market_focus", VStr "National");
         ("unique_selling_points", VList []);
         ("main_challenges", VList []); ("growth_goals", VList []);
         ("target_revenue_growth", VStr "steady_growth");
         ("focus_regions", VList []); ("competitor_companies", VList []);
         ("key_keywords", VList []); ("preferred_languages", VList [VStr "English"]);
         ("created_at", VStr "2024-01-01T00:00:00");
         ("updated_at", VStr "2024-01-01T00:00:00");
         ("profile_completeness", VFloat (S754_zero false)) ]).

Definition opportunity (name body : string) : Opportunity.t :=
  {| Opportunity.id := name;
     Opportunity.title := "Opportunity " +:+ name;
     Opportunity.description := "A lead";
     Opportunity.content := body;
     Opportunity.source := "newswire";
     Opportunity.source_url := "https://example.org/" +:+ name;
     Opportunity.opportunity_type := "news";
     Opportunity.tags := ["saas"; "retail"];
     Opportunity.published_at := 1700000000%Z;
     Opportunity.metadata := [] |}.

Definition X : Opportunity.t := opportunity "X" "first".
Definition Y : Opportunity.t := opportunity "Y" "second".
Definition Z' : Opportunity.t := opportunity "Z" "third".

(** The analysis succeeds, the scoring of [X] times out, [Y] scores 0.8
    and [Z'] scores 0.9. *)
Definition isolation : env :=
  scripted [ Content (Some analysis_text);
             Raises timeout;
             Content (Some (score_text "0.8" "good fit"));
             Content (Some (score_text "0.9" "strong fit")) ].


(** The Match the run of [isolation] gives for an opportunity scored at
    call [call]. *)
Definition scored (name : string) (score : spec_float) (reason : string)
  (call : Z) : Match.t :=
  {| Match.company_id := VStr "Acme";
     Match.opportunity_id := name;
     Match.relevance_score := NFloat score;
     Match.reasoning := VStr reason;
     Match.match_status := "pending";
     Match.created_at := Some (1700000000 + call)%Z |}.

Definition ranked : list Match.t :=
  [ scored "Z" v0_9 "strong fit" 3; scored "Y" v0_8 "good fit" 2 ].

(** The oracle rates an opportunity at 1.5. *)
Definition overrating : env :=
  scripted [ Content (Some (score_text "1.5" "overrated")) ].

Definition overrated : Match.t :=
  {| Match.company_id := VStr "placeholder";
     Match.opportunity_id := "X";
     Match.relevance_score := f1_0;
     Match.reasoning := VStr "overrated";
     Match.match_status := "pending";
     Match.created_at := Some 1700000000%Z |}.

(** The first call to the oracle times out. *)
Definition failing : env := scripted [ Raises timeout ].

(** The prompts of the run. *)
Definition company_text : string :=
  match profile_text (scripted []) company with
  | Ok text => text
  | Raise _ => ""
  end.

Definition X_prompt : string :=
  match scoring_prompt (scripted []) analysis_value X with
  | Ok prompt => prompt
  | Raise _ => ""
  end.


End Example.


(** * The profile manager and the campaign manager

    [src/profile/business_profile.py] ([BusinessProfileManager]) builds
    and stores the profiles the matcher is given;
    [src/outreach/campaign_manager.py] ([CampaignManager]) consumes the
    Matches it returns. A character of a [str] is a code point below
    256, held in one [ascii]. *)

(** ** The methods of [str] *)

Module Str.

(** [c.isspace()] *)
Definition is_space (c : ascii) : bool :=
  let n := nat_of_ascii c in
  (((9 <=? n) && (n <=? 13)) || ((28 <=? n) && (n <=? 32))
   || (n =? 133) || (n =? 160))%nat.

(** [c.lower()] for a character below 256: the capital letters are A
    to Z and the accented capitals from 192 to 222, the multiplication
    sign 215 apart. *)
Definition lower_char (c : ascii) : ascii :=
  let n := nat_of_ascii c in
  if (((65 <=? n) && (n <=? 90))
      || ((192 <=? n) && (n <=? 222) && negb (n =? 215)))%nat
  then ascii_of_nat (n + 32) else c.

(** [s.lower()], character by character. This is what [str.lower]
    does on ASCII text; beyond it [str.lower] also looks at the
    neighbours of a character and knows other alphabets, so what is
    proved about [lower] is stated for ASCII text only. *)
Fixpoint lower (s : string) : string :=
  match s with
  | EmptyString => EmptyString
  | String c rest => String (lower_char c) (lower rest)
  end.

(** [s.lstrip()] *)
Fixpoint lstrip (s : string) : string :=
  match s with
  | EmptyString => EmptyString
  | String c rest => if is_space c then lstrip rest else s
  end.

(** [s.rstrip()] *)
Fixpoint rstrip (s : string) : string :=
  match s with
  | EmptyString => EmptyString
  | String c rest =>
      match rstrip rest with
      | EmptyString => if is_space c then EmptyString else String c EmptyString
      | String _ _ as rest' => String c rest'
      end
  end.

(** [s.strip()] *)
Definition strip (s : string) : string := rstrip (lstrip s).

(** The first piece of [s.split(sep)] and the pieces after it. *)
Fixpoint split_pieces (sep : ascii) (s : string) : string * list string :=
  match s with
  | EmptyString => (EmptyString, [])
  | String c rest =>
      let (piece, pieces) := split_pieces sep rest in
      if Ascii.eqb c sep then (EmptyString, piece :: pieces)
      else (String c piece, pieces)
  end.

(** [s.split(sep)] for a separator of one character: never empty. *)
Definition split (sep : ascii) (s : string) : list string :=
  let (piece, pieces) := split_pieces sep s in piece :: pieces.

(** [s.replace(old, new)] for an [old] of one character. *)
Fixpoint replace (old : ascii) (new : string) (s : string) : string :=
  match s with
  | EmptyString => EmptyString
  | String c rest =>
      if Ascii.eqb c old then new +:+ replace old new rest
      else String c (replace old new rest)
  end.

(** [s.startswith(c)] and [s.endswith(c)] for one character. *)
Definition starts_with (c : ascii) (s : string) : bool :=
  match s with
  | EmptyString => false
  | String d _ => Ascii.eqb d c
  end.

Fixpoint ends_with (c : ascii) (s : string) : bool :=
  match s with
  | EmptyString => false
  | String d EmptyString => Ascii.eqb d c
  | String _ rest => ends_with c rest
  end.

(** [needle in s] *)
Fixpoint contains (needle s : string) : bool :=
  String.prefix needle s ||
  match s with
  | EmptyString => false
  | String _ rest => contains needle rest
  end.

(** The characters of a string. *)
Fixpoint to_list (s : string) : list ascii :=
  match s with
  | EmptyString => []
  | String c rest => c :: to_list rest
  end.

(** [c.isascii()] and [s.isascii()] *)
Definition is_ascii_char (c : ascii) : bool := (nat_of_ascii c <? 128)%nat.

Fixpoint is_ascii (s : string) : bool :=
  match s with
  | EmptyString => true
  | String c rest => is_ascii_char c && is_ascii rest
  end.

(** [c.isupper()] for an ASCII character: A to Z. *)
Definition is_capital (c : ascii) : bool :=
  let n := nat_of_ascii c in ((65 <=? n) && (n <=? 90))%nat.

End Str.

(** [os.path.join(a, b)] of [posixpath]. *)
Definition path_join (a b : string) : string :=
  if Str.starts_with "/" b then b
  else if String.eqb a "" || Str.ends_with "/" a then a +:+ b
  else a +:+ "/" +:+ b.

(** ** [BusinessProfileManager]: parsing and file names *)

Module BusinessProfileManager.

(** [self.profiles_dir] *)
Definition profiles_dir : string := "data/profiles".

(** [_parse_list_input] *)
Definition _parse_list_input (input_str : string) : list string :=
  match input_str with
  | EmptyString => []
  | String _ _ =>
      map Str.strip
        (filter (fun item => Str.strip item <> "") (Str.split "," input_str))
  end.

(** The [profile_id] that [save_profile] and [load_profile] compute
    from the company name; through [Str.lower], for ASCII names. *)
Definition profile_id (company_name : string) : string :=
  Str.replace "," "" (Str.replace " " "_" (Str.lower company_name)).

(** The [filepath] that [save_profile] writes and [load_profile]
    reads. *)
Definition profile_path (company_name : string) : string :=
  let filename := profile_id company_name +:+ "_profile.json" in
  path_join profiles_dir filename.

End BusinessProfileManager.

(** ** [CampaignManager._get_score_color] *)

Module CampaignManager.

Definition f0_9 : number := NFloat (S754_finite false 8106479329266893 (-53)).
Definition f0_8 : number := NFloat (S754_finite false 7205759403792794 (-53)).
Definition f0_7 : number := NFloat (S754_finite false 6305039478318694 (-53)).

Definition _get_score_color (score : number) : string :=
  if ge score f0_9 then "#27ae60"
  else if ge score f0_8 then "#f39c12"
  else if ge score f0_7 then "#3498db"
  else "#95a5a6".

(** The grade a badge colour stands for, from gray to green. *)
Definition grade (color : string) : nat :=
  if String.eqb color "#27ae60" then 3
  else if String.eqb color "#f39c12" then 2
  else if String.eqb color "#3498db" then 1
  else 0.

End CampaignManager.

(** ** [BusinessProfileManager]: completeness and imported profiles *)

(** [bool(v)] *)
Definition py_truthy (v : pyval) : bool :=
  match v with
  | VNone => false
  | VBool b => b
  | VInt z => negb (z =? 0)%Z
  | VFloat (S754_zero _) => false
  | VFloat _ => true
  | VStr EmptyString => false
  | VStr _ => true
  | VList [] => false
  | VList _ => true
  | VDict [] => false
  | VDict _ => true
  end.

(** [if d.get(key):] *)
Definition has_value (d : list (string * pyval)) (key : string) : bool :=
  py_truthy (dict_get d key VNone).

(** An [int] as a [float]: exact for the small counts met here. *)
Definition float_of_nat (k : nat) : spec_float :=
  binary_normalize 53 1024 (Z.of_nat k) 0 false.

(** [a / b] and [x * y] on binary64. *)
Definition float_div (x y : spec_float) : spec_float := SFdiv 53 1024 x y.
Definition float_mul (x y : spec_float) : spec_float := SFmul 53 1024 x y.

Inductive BusinessSize := MICRO | SMALL | MEDIUM | LARGE.
Inductive MarketFocus := LOCAL | NATIONAL | INTERNATIONAL | GLOBAL.

(** The [value] of a member. *)
Definition BusinessSize_value (x : BusinessSize) : string :=
  match x with
  | MICRO => "1-10 employees"
  | SMALL => "11-50 employees"
  | MEDIUM => "51-250 employees"
  | LARGE => "250+ employees"
  end.

Definition MarketFocus_value (x : MarketFocus) : string :=
  match x with
  | LOCAL => "Local/Regional"
  | NATIONAL => "National"
  | INTERNATIONAL => "International"
  | GLOBAL => "Global"
  end.

(** The dataclass, with the types its constructor is given: what
    [dict.get] returned for most fields. *)
Module BusinessProfile.
Record t := Make {
  company_name : pyval;
  industry : pyval;
  sub_industry : pyval;
  business_size : BusinessSize;
  annual_revenue : pyval;
  location : pyval;
  primary_products : pyval;
  target_markets : pyval;
  market_focus : MarketFocus;
  unique_selling_points : pyval;
  main_challenges : pyval;
  growth_goals : pyval;
  target_revenue_growth : pyval;
  focus_regions : pyval;
  competitor_companies : pyval;
  key_keywords : pyval;
  preferred_languages : pyval;
  created_at : string;
  updated_at : string;
  profile_completeness : spec_float
}.

(** The instance as an object; a member of an enumeration is shown by
    its value. *)
Definition to_object (p : t) : pyobj :=
  PyObj "BusinessProfile"
    (list_to_map
       [ ("company_name", company_name p);
         ("industry", industry p);
         ("sub_industry", sub_industry p);
         ("business_size", VStr (BusinessSize_value (business_size p)));
         ("annual_revenue", annual_revenue p);
         ("location", location p);
         ("primary_products", primary_products p);
         ("target_markets", target_markets p);
         ("market_focus", VStr (MarketFocus_value (market_focus p)));
         ("unique_selling_points", unique_selling_points p);
         ("main_challenges", main_challenges p);
         ("growth_goals", growth_goals p);
         ("target_revenue_growth", target_revenue_growth p);
         ("focus_regions", focus_regions p);
         ("competitor_companies", competitor_companies p);
         ("key_keywords", key_keywords p);
         ("preferred_languages", preferred_languages p);
         ("created_at", VStr (created_at p));
         ("updated_at", VStr (updated_at p));
         ("profile_completeness", VFloat (profile_completeness p)) ]).
End BusinessProfile.

Module ProfileImport.

(** [_calculate_completeness] *)
Definition required_fields : list string :=
  [ "company_name"; "industry"; "primary_products"; "target_markets";
    "main_challenges"; "growth_goals" ].

Definition completed_fields (responses : list (string * pyval)) : nat :=
  length (filter (fun field => has_value responses field = true) required_fields).

Definition _calculate_completeness (responses : list (string * pyval)) : spec_float :=
  float_mul
    (float_div (float_of_nat (completed_fields responses))
               (float_of_nat (length required_fields)))
    (float_of_nat 100).

(** One [if profile_data.get(key): completed_fields += 1]. *)
Definition tick (profile_data : list (string * pyval)) (key : string) (completed : nat)
  : nat :=
  if has_value profile_data key then completed + 1 else completed.

(** [_calculate_completeness_from_data] *)
Definition completed_data_fields (profile_data : list (string * pyval)) : nat :=
  let completed_fields := 0 in
  let completed_fields := tick profile_data "company_name" completed_fields in
  let completed_fields := tick profile_data "industry" completed_fields in
  let completed_fields := tick profile_data "location" completed_fields in
  let completed_fields := tick profile_data "business_size" completed_fields in
  let completed_fields := tick profile_data "description" completed_fields in
  let completed_fields := tick profile_data "website" completed_fields in
  let completed_fields := tick profile_data "primary_products" completed_fields in
  let completed_fields := tick profile_data "target_markets" completed_fields in
  let completed_fields := tick profile_data "market_focus" completed_fields in
  let completed_fields := tick profile_data "annual_revenue" completed_fields in
  let completed_fields := tick profile_data "phone" completed_fields in
  let completed_fields := tick profile_data "email" completed_fields in
  let completed_fields := tick profile_data "focus_regions" completed_fields in
  let completed_fields := tick profile_data "key_keywords" completed_fields in
  let completed_fields := tick profile_data "preferred_languages" completed_fields in
  completed_fields.

Definition _calculate_completeness_from_data (profile_data : list (string * pyval))
  : spec_float :=
  let total_fields := 15 in
  float_div (float_of_nat (completed_data_fields profile_data)) (float_of_nat total_fields).

(** What the two computations return for [k] completed fields. *)
Definition percent (k : nat) : spec_float :=
  float_mul (float_div (float_of_nat k) (float_of_nat 6)) (float_of_nat 100).
Definition fraction (k : nat) : spec_float :=
  float_div (float_of_nat k) (float_of_nat 15).

(** The keys [_calculate_completeness_from_data] looks at. *)
Definition data_fields : list string :=
  [ "company_name"; "industry"; "location"; "business_size"; "description";
    "website"; "primary_products"; "target_markets"; "market_focus";
    "annual_revenue"; "phone"; "email"; "focus_regions"; "key_keywords";
    "preferred_languages" ].

(** [hash(v)] is defined. *)
Definition hashable (v : pyval) : bool :=
  match v with
  | VList _ | VDict _ => false
  | _ => true
  end.

(** [m.get(key, default)] on a dict with string keys: the key is hashed
    first, which a list or a dict refuses. *)
Definition label_get {A : Type} (m : list (string * A)) (key : pyval) (dflt : A)
  : result A :=
  match key with
  | VList _ | VDict _ =>
      Raise (TypeError ("unhashable type: '" +:+ type_name key +:+ "'"))
  | VStr s =>
      Ok (match List.find (fun kv => String.eqb (fst kv) s) m with
          | Some kv => snd kv
          | None => dflt
          end)
  | _ => Ok dflt
  end.

Definition business_size_map : list (string * BusinessSize) :=
  [ ("startup", MICRO); ("small", SMALL); ("medium", MEDIUM); ("large", LARGE) ].

Definition market_focus_map : list (string * MarketFocus) :=
  [ ("local", LOCAL); ("regional", LOCAL); ("national", NATIONAL);
    ("international", INTERNATIONAL) ].

(** [create_profile_from_data]; [created] and [updated] are the two
    readings of [datetime.now().isoformat()]. *)
Definition create_profile_from_data (created updated : string)
  (profile_data : list (string * pyval)) : result BusinessProfile.t :=
  let get := dict_get profile_data in
  business_size <- label_get business_size_map (get "business_size" (VStr "small")) SMALL ;;
  market_focus <- label_get market_focus_map (get "market_focus" (VStr "national")) NATIONAL ;;
  Ok {| BusinessProfile.company_name := get "company_name" (VStr "");
        BusinessProfile.industry := get "industry" (VStr "consulting");
        BusinessProfile.sub_industry := get "sub_industry" (VStr "");
        BusinessProfile.business_size := business_size;
        BusinessProfile.annual_revenue := get "annual_revenue" (VStr "undisclosed");
        BusinessProfile.location := get "location" (VStr "");
        BusinessProfile.primary_products := get "primary_products" (VList []);
        BusinessProfile.target_markets :=
          get "target_markets" (VList [VStr "General Market"]);
        BusinessProfile.market_focus := market_focus;
        BusinessProfile.unique_selling_points := get "unique_selling_points" (VList []);
        BusinessProfile.main_challenges := get "main_challenges" (VList []);
        BusinessProfile.growth_goals := get "growth_goals" (VList []);
        BusinessProfile.target_revenue_growth :=
          get "target_revenue_growth" (VStr "steady_growth");
        BusinessProfile.focus_regions := get "focus_regions" (VList []);
        BusinessProfile.competitor_companies := get "competitor_companies" (VList []);
        BusinessProfile.key_keywords := get "key_keywords" (VList []);
        BusinessProfile.preferred_languages :=
          get "preferred_languages" (VList [VStr "English"]);
        BusinessProfile.created_at := created;
        BusinessProfile.updated_at := updated;
        BusinessProfile.profile_completeness :=
          _calculate_completeness_from_data profile_data |}.

End ProfileImport.

(** ** [CampaignManager.create_opportunity_digest] *)

Module CampaignDigest.

(** What the digest calls but does not define. *)
Record campaign_env := CampaignEnv {
  (** [str(v)] and the rest of the matcher's environment *)
  base : env;
  (** [format(x, '.0%')] *)
  format_percent : number -> string;
  (** [s.title()] *)
  str_title : string -> string;
  (** [datetime.now().strftime('%B %d, %Y')] *)
  today : string;
  (** the exception the interpreter raises for [d[:200]] on a dict *)
  dict_slice_error : exn
}.

(** In the templates a double quote is written as a backquote, which
    the source does not use. *)
Definition quotes (s : string) : string :=
  Str.replace "`" (String (ascii_of_nat 34) EmptyString) s.

(** The three f-strings; the two pictographs are held as their UTF-8
    bytes. *)
Definition digest_header (company_name top_count : string) : string :=
  String.concat ""
    [ quotes "
        <!DOCTYPE html>
        <html>
        <head>
            <meta charset=`utf-8`>
            <meta name=`viewport` content=`width=device-width, initial-scale=1.0`>
            <title>New Business Opportunities - ";
      company_name;
      quotes "</title>
            <style>
                body { font-family: Arial, sans-serif; line-height: 1.6; color: #333; }
                .container { max-width: 600px; margin: 0 auto; padding: 20px; }
                .header { background: linear-gradient(135deg, #667eea 0%, #764ba2 100%); 
                           color: white; padding: 30px; text-align: center; border-radius: 8px; }
                .opportunity { border: 1px solid #ddd; margin: 15px 0; padding: 20px; 
                               border-radius: 8px; background: #f9f9f9; }
                .score { background: #2ecc71; color: white; padding: 5px 10px; 
                         border-radius: 15px; font-size: 12px; display: inline-block; }
                .cta-button { background: #3498db; color: white; padding: 12px 25px; 
                              text-decoration: none; border-radius: 5px; display: inline-block; 
                              margin: 10px 0; }
                .footer { text-align: center; margin-top: 30px; padding: 20px; 
                          border-top: 1px solid #eee; font-size: 12px; color: #666; }
            </style>
        </head>
        <body>
            <div class=`container`>
                <div class=`header`>
                    <h1>🚀 New Opportunities for ";
      company_name;
      quotes "</h1>
                    <p>We found ";
      top_count;
      quotes " high-relevance business opportunities for you</p>
                </div>
                
                <div style=`padding: 20px 0;`>
                    <h2>Top Opportunities This Week</h2>
        " ].

Definition digest_block (title score_color percent source kind description preview opportunity_id : string) : string :=
  String.concat ""
    [ quotes "
                <div class=`opportunity`>
                    <div style=`display: flex; justify-content: space-between; align-items: center;`>
                        <h3 style=`margin: 0; color: #2c3e50;`>";
      title;
      quotes "</h3>
                        <span class=`score` style=`background: ";
      score_color;
      quotes ";`>
                            ";
      percent;
      quotes " Match
                        </span>
                    </div>
                    
                    <p style=`margin: 10px 0; color: #666;`>
                        <strong>Source:</strong> ";
      source;
      quotes " | 
                        <strong>Type:</strong> ";
      kind;
      quotes "
                    </p>
                    
                    <p>";
      description;
      quotes "</p>
                    
                    <div style=`background: #e8f4fd; padding: 15px; border-radius: 5px; margin: 10px 0;`>
                        <strong>Why this matches:</strong> ";
      preview;
      quotes "...
                    </div>
                    
                    <a href=`https://prospera.ai/opportunities/";
      opportunity_id;
      quotes "` 
                       class=`cta-button`>View Full Details (1 Credit)</a>
                </div>
            " ].

Definition digest_footer (total high industry today : string) : string :=
  String.concat ""
    [ quotes "
                </div>
                
                <div style=`background: #f8f9fa; padding: 20px; border-radius: 8px; margin: 20px 0;`>
                    <h3>📊 Your Opportunity Summary</h3>
                    <ul>
                        <li><strong>";
      total;
      quotes "</strong> total opportunities found</li>
                        <li><strong>";
      high;
      quotes "</strong> high-relevance matches</li>
                        <li><strong>";
      industry;
      quotes "</strong> industry focus</li>
                        <li>Updated ";
      today;
      quotes "</li>
                    </ul>
                </div>
                
                <div style=`text-align: center; margin: 30px 0;`>
                    <a href=`https://prospera.ai/dashboard` class=`cta-button` style=`font-size: 16px;`>
                        View All Opportunities
                    </a>
                </div>
                
                <div class=`footer`>
                    <p>This email was sent by Prospera AI - Your Business Intelligence Partner</p>
                    <p>
                        <a href=`https://prospera.ai/unsubscribe`>Unsubscribe</a> | 
                        <a href=`https://prospera.ai/preferences`>Email Preferences</a>
                    </p>
                </div>
            </div>
        </body>
        </html>
        " ].

(** [f"{reasoning[:200]}"] *)
Definition reasoning_preview (c : campaign_env) (reasoning : pyval) : result string :=
  match reasoning with
  | VStr s => Ok (substring 0 200 s)
  | VList l => Ok (py_str (base c) (VList (take 200 l)))
  | VDict _ => Raise (dict_slice_error c)
  | _ => Raise (TypeError ("'" +:+ type_name reasoning +:+ "' object is not subscriptable"))
  end.

(** [float(z)] raises for an [int] that rounds to 2^1024 or beyond. *)
Definition int_too_large (z : Z) : bool := (2 ^ 1024 - 2 ^ 970 <=? Z.abs z)%Z.

Definition OverflowError (msg : string) : exn := Exn "OverflowError" msg.

(** [format(score, '.0%')]: an [int] is converted to a float first. *)
Definition score_percent (c : campaign_env) (score : number) : result string :=
  match score with
  | NInt z =>
      if int_too_large z
      then Raise (OverflowError "int too large to convert to float")
      else Ok (format_percent c score)
  | NFloat _ => Ok (format_percent c score)
  end.

(** [m.relevance_score >= 0.8] *)
Definition high_relevance (m : Match.t) : bool :=
  ge (Match.relevance_score m) CampaignManager.f0_8.

(** The [for] loop over [top_matches]: [html_content] is the text built
    so far. In the f-string of a block the score is formatted before
    the reasoning is sliced. *)
Fixpoint digest_loop (c : campaign_env) (opportunities : gmap string Opportunity.t)
  (top_matches : list Match.t) (html_content : string) : result string :=
  match top_matches with
  | [] => Ok html_content
  | m :: rest =>
      match opportunities !! Match.opportunity_id m with
      | None => digest_loop c opportunities rest html_content
      | Some opportunity =>
          let score_color := CampaignManager._get_score_color (Match.relevance_score m) in
          percent <- score_percent c (Match.relevance_score m) ;;
          preview <- reasoning_preview c (Match.reasoning m) ;;
          digest_loop c opportunities rest
            (html_content +:+
             digest_block (Opportunity.title opportunity) score_color percent
               (Opportunity.source opportunity)
               (str_title c (Opportunity.opportunity_type opportunity))
               (Opportunity.description opportunity)
               preview (Match.opportunity_id m))
      end
  end.

(** [sorted(matches, key=lambda x: x.relevance_score, reverse=True)[:5]]:
    on scores none of which is NaN, the stable descending sort. *)
Definition top_five (matches : list Match.t) : list Match.t :=
  take 5 (sort_reverse Match.relevance_score matches).

(** The class defines no [_create_no_opportunities_email]. *)
Definition no_opportunities_email : exn :=
  AttributeError
    "'CampaignManager' object has no attribute '_create_no_opportunities_email'".

Definition create_opportunity_digest (c : campaign_env) (profile : pyobj)
  (matches : list Match.t) (opportunities : gmap string Opportunity.t)
  : result string :=
  match matches with
  | [] => Raise no_opportunities_email
  | _ :: _ =>
      let top_matches := top_five matches in
      company_name <- getattr profile "company_name" ;;
      let html_content :=
        digest_header (py_format (base c) company_name) (pretty (length top_matches)) in
      html_content <- digest_loop c opportunities top_matches html_content ;;
      industry <- getattr profile "industry" ;;
      Ok (html_content +:+
          digest_footer (pretty (length matches))
            (pretty (length (filter (fun m => high_relevance m = true) matches)))
            (py_format (base c) industry) (today c))
  end.

(** [send_opportunity_campaign]: the content is built, nothing is
    sent. *)
Definition send_opportunity_campaign (c : campaign_env) (profile : pyobj)
  (matches : list Match.t) (opportunities : gmap string Opportunity.t)
  : result bool :=
  html_content <- create_opportunity_digest c profile matches opportunities ;;
  Ok true.

(** The Matches of [top] that get a block: those whose opportunity the
    catalogue holds. *)
Definition shown (opportunities : gmap string Opportunity.t) (top : list Match.t)
  : list (Match.t * Opportunity.t) :=
  omap (fun m => (fun o => (m, o)) <$> opportunities !! Match.opportunity_id m) top.

(** The text of one slice that does not raise. *)
Definition preview_text (c : campaign_env) (reasoning : pyval) : string :=
  match reasoning_preview c reasoning with
  | Ok preview => preview
  | Raise _ => ""
  end.

(** The block of a Match that can be written, and its opportunity. *)
Definition block_of (c : campaign_env) (mo : Match.t * Opportunity.t) : string :=
  let (m, opportunity) := mo in
  digest_block (Opportunity.title opportunity)
    (CampaignManager._get_score_color (Match.relevance_score m))
    (format_percent c (Match.relevance_score m))
    (Opportunity.source opportunity)
    (str_title c (Opportunity.opportunity_type opportunity))
    (Opportunity.description opportunity)
    (preview_text c (Match.reasoning m)) (Match.opportunity_id m).

(** A reasoning that can be sliced: a text or a list. *)
Definition sliceable (reasoning : pyval) : Prop :=
  match reasoning with
  | VStr _ | VList _ => True
  | _ => False
  end.

(** A score that can be formatted as a percentage: a float, or an
    [int] that converts to one. *)
Definition formattable (score : number) : Prop :=
  match score with
  | NInt z => int_too_large z = false
  | NFloat _ => True
  end.

(** A Match whose block can be written. *)
Definition renders (m : Match.t) : Prop :=
  formattable (Match.relevance_score m) /\ sliceable (Match.reasoning m).

End CampaignDigest.

(** ** Sample data for the profile manager and the campaign *)

Module Sample.
Import Example CampaignDigest.

(** A campaign environment that formats the values of the runs. *)
Definition campaign : campaign_env :=
  {| base := isolation;
     format_percent := fun x =>
       if eq x (NFloat v0_9) then "90%"
       else if eq x (NFloat v0_8) then "80%" else "0%";
     str_title := fun s => if String.eqb s "news" then "News" else s;
     today := "November 14, 2023";
     dict_slice_error := TypeError "unhashable type: 'slice'" |}.

(** A catalogue that holds [Y] and [Z'] but not [X]. *)
Definition catalogue : gmap string Opportunity.t :=
  list_to_map [("Y", Y); ("Z", Z')].

(** The analysis succeeds and every scoring call times out. *)
Definition silent : env :=
  scripted [ Content (Some analysis_text);
             Raises timeout; Raises timeout; Raises timeout ].


(** A Match for [Z'] whose score is an int no float can hold, and
    whose reasoning is not a text. *)
Definition oversized : Match.t :=
  {| Match.company_id := VStr "Acme";
     Match.opportunity_id := "Z";
     Match.relevance_score := NInt (10 ^ 400);
     Match.reasoning := VNone;
     Match.match_status := "pending";
     Match.created_at := None |}.

(** Seven Matches with the scores 0.5, 0.9, 0.8, 0.75, 0.9, 0.5, 0.8. *)
Definition seven : list Match.t :=
  [ scored "A" v0_5 "weak fit" 1; scored "Z" v0_9 "strong fit" 2;
    scored "Y" v0_8 "good fit" 3; scored "D" v0_75 "fair fit" 4;
    scored "E" v0_9 "strong fit" 5; scored "F" v0_5 "weak fit" 6;
    scored "G" v0_8 "good fit" 7 ].

End Sample.

(** * Properties *)

(** ** Order facts on numbers *)

Module NumFacts.

Lemma ext_compare_antisym (a b : ext) :
  ext_compare b a = option_map CompOpp (ext_compare a b).
Proof.
  destruct a, b; simpl; try reflexivity.
  by rewrite Qcompare_antisym.
Qed.

Lemma compare_antisym (x y : number) :
  compare y x = option_map CompOpp (compare x y).
Proof. apply ext_compare_antisym. Qed.

Lemma ext_ge_trans (a b c : ext) (c1 c2 : comparison) :
  ext_compare a b = Some c1 -> c1 <> Lt ->
  ext_compare b c = Some c2 -> c2 <> Lt ->
  exists c3, ext_compare a c = Some c3 /\ c3 <> Lt.
Proof.
  destruct a as [| |p|], b as [| |q|], c as [| |r|]; simpl;
    intros H1 N1 H2 N2; simplify_eq; eauto.
  eexists; split; [reflexivity|].
  intros Hlt. apply Qlt_alt in Hlt.
  assert (q <= p)%Q by (apply Qnot_lt_le; intros ?%Qlt_alt; done).
  assert (r <= q)%Q by (apply Qnot_lt_le; intros ?%Qlt_alt; done).
  apply (Qlt_irrefl p). eapply Qlt_le_trans; [exact Hlt|].
  by eapply Qle_trans.
Qed.

Lemma ge_spec (x y : number) :
  ge x y = true <-> exists c, compare x y = Some c /\ c <> Lt.
Proof.
  unfold ge. split.
  - destruct (compare x y) as [[]|]; intros; try done; eauto.
  - intros (c & -> & Hc). by destruct c.
Qed.

Lemma ge_trans (x y z : number) :
  ge x y = true -> ge y z = true -> ge x z = true.
Proof.
  rewrite !ge_spec. intros (c1 & H1 & N1) (c2 & H2 & N2).
  eapply ext_ge_trans; eauto.
Qed.

Lemma ge_not_lt (x y : number) : ge x y = true -> lt x y = false.
Proof. unfold ge, lt. by destruct (compare x y) as [[]|]. Qed.

Lemma lt_ge (x y : number) : lt x y = true -> ge y x = true.
Proof.
  unfold ge, lt. rewrite (compare_antisym x y).
  by destruct (compare x y) as [[]|].
Qed.

Lemma compare_nan (x y : number) :
  compare x y = None <-> is_nan x = true \/ is_nan y = true.
Proof.
  unfold compare, is_nan.
  destruct (value x), (value y); simpl; split; intros; try done; auto;
    by destruct H.
Qed.

Lemma ge_not_nan (x y : number) :
  ge x y = true -> is_nan x = false /\ is_nan y = false.
Proof.
  intros (c & Hc & _)%ge_spec.
  destruct (is_nan x) eqn:Hx, (is_nan y) eqn:Hy; try done;
    assert (compare x y = None) by (apply compare_nan; auto); congruence.
Qed.

Lemma not_lt_ge (x y : number) :
  is_nan x = false -> is_nan y = false -> lt x y = false -> ge x y = true.
Proof.
  intros Hx Hy. unfold lt, ge.
  destruct (compare x y) as [[]|] eqn:Hc; try done.
  apply compare_nan in Hc as [?|?]; congruence.
Qed.

Lemma ge_refl (x : number) : is_nan x = false -> ge x x = true.
Proof.
  intros Hx. apply not_lt_ge; try done.
  unfold lt. pose proof (compare_antisym x x) as H.
  by destruct (compare x x) as [[]|].
Qed.

Lemma eq_refl_nonnan (x : number) : is_nan x = false -> eq x x = true.
Proof.
  intros Hx. unfold eq. pose proof (compare_antisym x x) as H.
  destruct (compare x x) as [[]|] eqn:Hc; try done.
  apply compare_nan in Hc as [?|?]; congruence.
Qed.

Lemma ge_antisym (x y : number) :
  ge x y = true -> ge y x = true -> eq x y = true.
Proof.
  unfold ge, eq. rewrite (compare_antisym x y).
  by destruct (compare x y) as [[]|].
Qed.

(** Equal keys order alike against a third one. *)
Lemma ext_eq_compare (a b c : ext) :
  ext_compare a b = Some Eq -> ext_compare a c = ext_compare b c.
Proof.
  destruct a as [| |p|], b as [| |q|], c as [| |r|]; simpl; intros H;
    simplify_eq; try done.
  f_equal. apply Qeq_alt in H. by rewrite H.
Qed.

Lemma eq_lt (k x y : number) :
  eq x k = true -> lt x y = true -> eq y k = false.
Proof.
  unfold eq, lt. intros Hk Hl.
  destruct (compare x k) as [[]|] eqn:Hxk; try done.
  destruct (compare x y) as [[]|] eqn:Hxy; try done.
  destruct (compare y k) as [[]|] eqn:Hyk; try done.
  pose proof (ext_eq_compare _ _ (value x) Hyk) as H.
  fold (compare y x) in H. fold (compare k x) in H.
  rewrite (compare_antisym x y), (compare_antisym x k), Hxy, Hxk in H.
  done.
Qed.

(** The value of the literal [1.0] is the rational 1. *)
Lemma compare_f1_0 (x : number) :
  compare x f1_0 = ext_compare (value x) (Fin 1).
Proof.
  unfold compare. destruct (value x); try reflexivity.
  simpl. f_equal. apply Qcompare_comp; reflexivity.
Qed.

Lemma compare_f0_0 (x : number) :
  compare x f0_0 = ext_compare (value x) (Fin 0).
Proof. reflexivity. Qed.

Lemma clamp_cases (x : number) :
  (lt x f1_0 = false /\ clamp x = f1_0) \/
  (lt x f1_0 = true /\ gt x f0_0 = false /\ clamp x = f0_0) \/
  (lt x f1_0 = true /\ gt x f0_0 = true /\ clamp x = x).
Proof.
  unfold clamp, min_1. destruct (lt x f1_0) eqn:H1.
  - unfold max_0. destruct (gt x f0_0); auto.
  - left. split; [done|]. reflexivity.
Qed.

Lemma clamp_in_unit (x : number) : in_unit (clamp x) = true.
Proof.
  destruct (clamp_cases x) as [[_ ->]|[(_ & _ & ->)|(H1 & H0 & ->)]];
    try reflexivity.
  unfold in_unit. apply andb_true_intro. split.
  - unfold gt in H0. unfold ge. by destruct (compare x f0_0) as [[]|].
  - by apply lt_ge.
Qed.

Lemma clamp_above (x : number) : gt x f1_0 = true -> clamp x = f1_0.
Proof.
  intros H. destruct (clamp_cases x) as [[_ ->]|[(H1 & _)|(H1 & _)]]; [done|..];
    unfold gt, lt in *; by destruct (compare x f1_0) as [[]|].
Qed.

Lemma clamp_below (x : number) : lt x f0_0 = true -> clamp x = f0_0.
Proof.
  intros H.
  assert (gt x f0_0 = false) as H0.
  { unfold gt, lt in *. by destruct (compare x f0_0) as [[]|]. }
  destruct (clamp_cases x) as [[H1 _]|[(_ & _ & ->)|(_ & H0' & _)]];
    [|done|congruence].
  exfalso. unfold lt in *.
  rewrite compare_f1_0 in H1. rewrite compare_f0_0 in H.
  destruct (value x) as [| |q|]; unfold ext_compare in *; try done.
  destruct (q ?= 0)%Q eqn:E0; try done. apply Qlt_alt in E0.
  assert (q < 1)%Q as E1 by (eapply Qlt_trans; [exact E0|done]).
  by rewrite (proj1 (Qlt_alt q 1) E1) in H1.
Qed.

(** An integer does not lie strictly between 0.0 and 1.0. *)
Lemma clamp_float (x : number) : exists f, clamp x = NFloat f.
Proof.
  destruct (clamp_cases x) as [[_ ->]|[(_ & _ & ->)|(H1 & H0 & ->)]];
    [by eexists..|].
  destruct x as [z|f]; [|by eexists].
  exfalso. unfold lt, gt in *.
  rewrite compare_f1_0 in H1. rewrite compare_f0_0 in H0. simpl in *.
  destruct (inject_Z z ?= 1)%Q eqn:E1; try done.
  destruct (inject_Z z ?= 0)%Q eqn:E0; try done.
  apply Qlt_alt in E1. apply Qgt_alt in E0.
  unfold Qlt in *. simpl in *. lia.
Qed.

End NumFacts.

(** ** Floats: the comparison by value and the comparison of SpecFloat *)

Module FloatFacts.
Local Open Scope Z_scope.

Lemma digits2_pos_bounds (m : positive) :
  2 ^ (Z.pos (digits2_pos m) - 1) <= Z.pos m < 2 ^ Z.pos (digits2_pos m).
Proof.
  induction m as [m IH|m IH|]; cbn [digits2_pos]; [| |by vm_compute].
  - rewrite Pos2Z.inj_succ, Z.pow_succ_r by lia.
    replace (Z.succ (Z.pos (digits2_pos m)) - 1) with (Z.succ (Z.pos (digits2_pos m) - 1)) by lia.
    rewrite Z.pow_succ_r by lia. lia.
  - rewrite Pos2Z.inj_succ, Z.pow_succ_r by lia.
    replace (Z.succ (Z.pos (digits2_pos m)) - 1) with (Z.succ (Z.pos (digits2_pos m) - 1)) by lia.
    rewrite Z.pow_succ_r by lia. lia.
Qed.

Lemma pos_pow2 (k : Z) : 0 < k -> Z.pos (2 ^ Z.to_pos k) = 2 ^ k.
Proof. intros Hk. rewrite Pos2Z.inj_pow, Z2Pos.id by lia. done. Qed.

Lemma dyadic_scaled (a e e0 : Z) :
  e0 <= e -> e0 <= 0 ->
  (dyadic a e == Qmake (a * 2 ^ (e - e0)) (Z.to_pos (2 ^ (- e0))))%Q.
Proof.
  intros He H0. unfold dyadic, Qeq.
  assert (0 < 2 ^ (- e0)) by (apply Z.pow_pos_nonneg; lia).
  destruct (Z.leb_spec 0 e); cbn [Qnum Qden inject_Z].
  - rewrite Z2Pos.id by lia.
    replace (e - e0) with (e + - e0) by lia. rewrite Z.pow_add_r by lia. lia.
  - rewrite pos_pow2, Z2Pos.id by lia.
    replace (- e0) with ((e - e0) + - e) at 1 by lia. rewrite Z.pow_add_r by lia. lia.
Qed.

Lemma dyadic_compare (a b e1 e2 e0 : Z) :
  e0 <= e1 -> e0 <= e2 -> e0 <= 0 ->
  Qcompare (dyadic a e1) (dyadic b e2) = (a * 2 ^ (e1 - e0) ?= b * 2 ^ (e2 - e0)).
Proof.
  intros H1 H2 H0.
  rewrite (Qcompare_comp _ _ (dyadic_scaled a e1 e0 H1 H0) _ _ (dyadic_scaled b e2 e0 H2 H0)).
  unfold Qcompare. cbn [Qnum Qden].
  symmetry. apply Zmult_compare_compat_r. lia.
Qed.

Lemma canonical_cases (m : positive) (e : Z) :
  canonical_mantissa 53 1024 m e = true ->
  -1074 <= e /\ Z.pos m < 2 ^ 53 /\ (-1074 < e -> 2 ^ 52 <= Z.pos m).
Proof.
  unfold canonical_mantissa, fexp, emin. intros H%Z.eqb_eq.
  pose proof (digits2_pos_bounds m) as [Hlo Hhi].
  assert (Z.pos (digits2_pos m) <= 53) as Hd by lia.
  split; [lia|]. split.
  - eapply Z.lt_le_trans; [exact Hhi|]. apply Z.pow_le_mono_r; lia.
  - intros He. assert (Z.pos (digits2_pos m) = 53) as Hd' by lia.
    rewrite Hd' in Hlo. exact Hlo.
Qed.

Lemma scaled_lt (m1 m2 : positive) (e1 e2 e0 : Z) :
  canonical_mantissa 53 1024 m1 e1 = true ->
  canonical_mantissa 53 1024 m2 e2 = true ->
  e0 <= e1 -> e1 < e2 ->
  Z.pos m1 * 2 ^ (e1 - e0) < Z.pos m2 * 2 ^ (e2 - e0).
Proof.
  intros (Hmin1 & Hhi1 & _)%canonical_cases (_ & _ & Hlo2)%canonical_cases H0 H12.
  specialize (Hlo2 ltac:(lia)).
  replace (e2 - e0) with ((e1 - e0) + (e2 - e1)) by lia.
  rewrite Z.pow_add_r by lia.
  assert (0 < 2 ^ (e1 - e0)) by (apply Z.pow_pos_nonneg; lia).
  assert (2 ^ 1 <= 2 ^ (e2 - e1)) by (apply Z.pow_le_mono_r; lia).
  change (2 ^ 1) with 2 in *. change (2 ^ 52) with 4503599627370496 in *.
  change (2 ^ 53) with 9007199254740992 in *.
  set (P := 2 ^ (e1 - e0)) in *. set (J := 2 ^ (e2 - e1)) in *.
  clearbody P J.
  assert (Z.pos m1 * P < 9007199254740992 * P) by (apply Z.mul_lt_mono_pos_r; lia).
  assert (4503599627370496 * 2 <= Z.pos m2 * J) by (apply Z.mul_le_mono_nonneg; lia).
  assert (4503599627370496 * 2 * P <= Z.pos m2 * J * P)
    by (apply Z.mul_le_mono_nonneg_r; lia).
  lia.
Qed.

Lemma positive_compare (m1 m2 : positive) (e1 e2 : Z) :
  canonical_mantissa 53 1024 m1 e1 = true ->
  canonical_mantissa 53 1024 m2 e2 = true ->
  Qcompare (dyadic (Z.pos m1) e1) (dyadic (Z.pos m2) e2) =
  match e1 ?= e2 with
  | Lt => Lt
  | Gt => Gt
  | Eq => Pos.compare_cont Eq m1 m2
  end.
Proof.
  intros C1 C2. set (e0 := Z.min (Z.min e1 e2) 0).
  rewrite (dyadic_compare _ _ _ _ e0) by lia.
  destruct (Z.compare_spec e1 e2) as [->|Hlt|Hgt].
  - rewrite <- Zmult_compare_compat_r; [done|].
    apply Z.lt_gt, Z.pow_pos_nonneg; lia.
  - apply Z.compare_lt_iff. apply scaled_lt; try done; lia.
  - apply Z.compare_gt_iff. apply scaled_lt; try done; lia.
Qed.

Lemma negative_compare (m1 m2 : positive) (e1 e2 : Z) :
  Qcompare (dyadic (Z.neg m1) e1) (dyadic (Z.neg m2) e2) =
  CompOpp (Qcompare (dyadic (Z.pos m1) e1) (dyadic (Z.pos m2) e2)).
Proof.
  set (e0 := Z.min (Z.min e1 e2) 0).
  rewrite !(dyadic_compare _ _ _ _ e0) by lia.
  rewrite <- Z.compare_antisym, <- Z.compare_opp.
  f_equal; lia.
Qed.

Lemma sign_compare (m1 m2 : positive) (e1 e2 : Z) :
  Qcompare (dyadic (Z.neg m1) e1) (dyadic (Z.pos m2) e2) = Lt.
Proof.
  set (e0 := Z.min (Z.min e1 e2) 0).
  rewrite (dyadic_compare _ _ _ _ e0) by lia.
  apply Z.compare_lt_iff.
  assert (0 < 2 ^ (e1 - e0)) by (apply Z.pow_pos_nonneg; lia).
  assert (0 < 2 ^ (e2 - e0)) by (apply Z.pow_pos_nonneg; lia).
  nia.
Qed.

Lemma zero_compare (a e : Z) : Qcompare 0 (dyadic a e) = (0 ?= a).
Proof.
  change 0%Q with (dyadic 0 0). set (e0 := Z.min e 0).
  rewrite (dyadic_compare _ _ _ _ e0) by lia.
  rewrite Z.mul_0_l.
  assert (2 ^ (e - e0) > 0) by (apply Z.lt_gt, Z.pow_pos_nonneg; lia).
  by rewrite (Zmult_compare_compat_r 0 a (2 ^ (e - e0))), Z.mul_0_l.
Qed.

(** On binary64 data the comparison by value is the comparison of
    [SpecFloat]. *)
Lemma compare_SFcompare (f1 f2 : spec_float) :
  valid_binary 53 1024 f1 = true -> valid_binary 53 1024 f2 = true ->
  compare (NFloat f1) (NFloat f2) = SFcompare f1 f2.
Proof.
  unfold compare. cbn [value].
  destruct f1 as [s1|s1| |s1 m1 e1], f2 as [s2|s2| |s2 m2 e2];
    cbn [float_value valid_binary SFcompare]; intros V1 V2;
    try done; try (by destruct s1, s2); try (by destruct s1); try (by destruct s2).
  - cbn [ext_compare]. rewrite zero_compare. by destruct s2.
  - cbn [ext_compare]. rewrite <- Qcompare_antisym, zero_compare. by destruct s1.
  - apply andb_prop in V1 as [C1 _]. apply andb_prop in V2 as [C2 _].
    cbn [ext_compare]. f_equal. destruct s1, s2.
    + rewrite negative_compare, positive_compare by done.
      by destruct (e1 ?= e2).
    + apply sign_compare.
    + rewrite <- Qcompare_antisym, sign_compare. done.
    + by apply positive_compare.
Qed.


(** The float literals of the source and of the concrete runs are
    binary64 data. *)
Lemma literals_binary64 :
  Forall (fun f => valid_binary 53 1024 f = true)
    [ S754_zero false;
      S754_finite false 4503599627370496 (-52);
      S754_finite false 5404319552844595 (-53);
      Example.v0_8; Example.v0_9; Example.v1_5; Example.v0_5; Example.v0_75 ].
Proof. repeat constructor. Qed.

End FloatFacts.

(** ** The sort *)

Module SortFacts.
Import NumFacts.

Section Sorting.
Context {A : Type} (key : A -> number).

Lemma insert_desc_perm (x : A) (l : list A) :
  insert_desc key x l ≡ₚ x :: l.
Proof.
  induction l as [|y l IH]; simpl; [done|].
  destruct (lt (key x) (key y)); [|done].
  rewrite IH. apply Permutation_swap.
Qed.

Lemma sort_reverse_perm (l : list A) : sort_reverse key l ≡ₚ l.
Proof.
  induction l as [|x l IH]; simpl; [done|].
  by rewrite insert_desc_perm, IH.
Qed.

Lemma insert_desc_sorted (x : A) (l : list A) :
  is_nan (key x) = false ->
  Forall (fun a => is_nan (key a) = false) l ->
  StronglySorted (descending key) l ->
  StronglySorted (descending key) (insert_desc key x l).
Proof.
  intros Hx Hl Hs. induction Hs as [|y l Hs IH Hy]; simpl.
  - repeat constructor.
  - apply Forall_cons in Hl as [Hny Hl].
    destruct (lt (key x) (key y)) eqn:Hlt.
    + constructor; [by apply IH|].
      rewrite insert_desc_perm. constructor; [|done].
      by apply lt_ge.
    + assert (descending key x y) as Hxy by by apply not_lt_ge.
      constructor; [by constructor|].
      constructor; [done|].
      eapply Forall_impl; [exact Hy|].
      intros z Hz. unfold descending in *. by eapply ge_trans.
Qed.

Lemma sort_reverse_sorted (l : list A) :
  Forall (fun a => is_nan (key a) = false) l ->
  StronglySorted (descending key) (sort_reverse key l).
Proof.
  induction 1 as [|x l Hx Hl IH]; simpl; [constructor|].
  apply insert_desc_sorted; [done| |done].
  by rewrite sort_reverse_perm.
Qed.

(** Sorting a list that is in descending order leaves it as it is. *)
Lemma sort_reverse_id (l : list A) :
  StronglySorted (descending key) l -> sort_reverse key l = l.
Proof.
  induction 1 as [|x l Hs IH Hx]; simpl; [done|].
  rewrite IH. destruct l as [|y l']; simpl; [done|].
  apply Forall_cons in Hx as [Hxy _].
  by rewrite (ge_not_lt _ _ Hxy).
Qed.

Lemma with_key_insert (k : number) (x : A) (l : list A) :
  with_key key k (insert_desc key x l) = with_key key k (x :: l).
Proof.
  unfold with_key. induction l as [|y l IH]; simpl; [done|].
  destruct (lt (key x) (key y)) eqn:Hlt; [|done].
  rewrite (filter_cons _ y), IH, !(filter_cons _ x), (filter_cons _ y).
  destruct (decide (eq (key x) k = true)) as [Hx|Hx]; [|done].
  rewrite (eq_lt _ _ _ Hx Hlt). by destruct (decide (false = true)).
Qed.

(** The sort is stable: elements of equal key keep their order. *)
Lemma sort_reverse_stable (k : number) (l : list A) :
  with_key key k (sort_reverse key l) = with_key key k l.
Proof.
  induction l as [|x l IH]; simpl; [done|].
  rewrite with_key_insert. unfold with_key in *.
  by rewrite !(filter_cons _ x), IH.
Qed.

Lemma with_key_self (a : A) (l : list A) :
  is_nan (key a) = false ->
  with_key key (key a) (a :: l) = a :: with_key key (key a) l.
Proof.
  intros Ha. unfold with_key. rewrite filter_cons.
  destruct (decide _) as [|Hn]; [done|].
  by rewrite eq_refl_nonnan in Hn.
Qed.

Lemma with_key_head (a : A) (l1 l2 : list A) :
  is_nan (key a) = false ->
  with_key key (key a) (a :: l1) = with_key key (key a) l2 -> a ∈ l2.
Proof.
  intros Ha H. rewrite with_key_self in H by done.
  assert (a ∈ with_key key (key a) l2) as Hin by (rewrite <- H; left).
  unfold with_key in Hin. by apply list_elem_of_filter in Hin as [_ ?].
Qed.

Lemma sorted_head_ge (a b : A) (l : list A) :
  is_nan (key b) = false ->
  StronglySorted (descending key) (b :: l) -> a ∈ b :: l ->
  ge (key b) (key a) = true.
Proof.
  intros Hb Hs [->|Hin]%elem_of_cons; [by apply ge_refl|].
  apply StronglySorted_inv in Hs as [_ Hall].
  by apply (proj1 (Forall_forall _ _) Hall).
Qed.

(** A list in descending order is determined by its elements of each
    key: whatever stable sort the interpreter runs, it returns the
    list of [sort_reverse]. *)
Lemma sorted_stable_unique (l1 l2 : list A) :
  Forall (fun a => is_nan (key a) = false) l1 ->
  Forall (fun a => is_nan (key a) = false) l2 ->
  StronglySorted (descending key) l1 ->
  StronglySorted (descending key) l2 ->
  (forall k, with_key key k l1 = with_key key k l2) ->
  l1 = l2.
Proof.
  revert l2. induction l1 as [|a t1 IH]; intros [|b t2] N1 N2 S1 S2 Hk; [done|..].
  - apply Forall_cons in N2 as [Hb _].
    specialize (Hk (key b)). by rewrite with_key_self in Hk.
  - apply Forall_cons in N1 as [Ha _].
    specialize (Hk (key a)). by rewrite with_key_self in Hk.
  - pose proof N1 as N1'. pose proof N2 as N2'.
    apply Forall_cons in N1' as [Ha N1']. apply Forall_cons in N2' as [Hb N2'].
    assert (a ∈ b :: t2) as Hab by (eapply with_key_head; [done|apply Hk]).
    assert (b ∈ a :: t1) as Hba by (eapply with_key_head; [done|symmetry; apply Hk]).
    assert (eq (key b) (key a) = true) as Heq.
    { apply ge_antisym; by eapply sorted_head_ge. }
    assert (a = b) as <-.
    { pose proof (Hk (key a)) as H. rewrite with_key_self in H by done.
      unfold with_key in H. rewrite filter_cons in H.
      destruct (decide _); [|done]. by simplify_eq. }
    f_equal. apply IH; try done.
    + by apply StronglySorted_inv in S1 as [? _].
    + by apply StronglySorted_inv in S2 as [? _].
    + intros k. specialize (Hk k). unfold with_key in *.
      rewrite !(filter_cons _ a) in Hk.
      destruct (decide _); by simplify_eq.
Qed.

Lemma sort_reverse_unique (l l' : list A) :
  Forall (fun a => is_nan (key a) = false) l ->
  l' ≡ₚ l ->
  StronglySorted (descending key) l' ->
  (forall k, with_key key k l' = with_key key k l) ->
  l' = sort_reverse key l.
Proof.
  intros Hn Hp Hs Hk. apply sorted_stable_unique; try done.
  - by rewrite Hp.
  - by rewrite sort_reverse_perm.
  - by apply sort_reverse_sorted.
  - intros k. by rewrite sort_reverse_stable.
Qed.

End Sorting.

End SortFacts.

(** ** The scorer and the loop *)

Module MatcherFacts.
Import NumFacts SortFacts.

Lemma bind_Ok {A B : Type} (r : result A) (k : A -> result B) (b : B) :
  (x <- r ;; k x) = Ok b <-> exists a, r = Ok a /\ k a = Ok b.
Proof.
  destruct r as [a|e]; simpl; split.
  - eauto.
  - by intros (a' & [= ->] & ?).
  - done.
  - by intros (a' & ? & _).
Qed.

Lemma in_unit_not_nan (x : number) : in_unit x = true -> is_nan x = false.
Proof.
  unfold in_unit. intros [H _]%andb_prop. by apply ge_not_nan in H as [? _].
Qed.

Lemma clamp_value_unit (raw : pyval) (x : number) :
  clamp_value raw = Ok x -> in_unit x = true.
Proof.
  unfold clamp_value. destruct (as_number raw); [|done].
  intros [= <-]. apply clamp_in_unit.
Qed.

(** What the [try] body returns, when it returns. *)
Lemma scoring_attempt_Ok (w : env) (n : nat) (prompt : string)
  (o : Opportunity.t) (m : Match.t) :
  scoring_attempt w n prompt o = Ok m ->
  Match.company_id m = VStr "placeholder" /\
  Match.opportunity_id m = Opportunity.id o /\
  in_unit (Match.relevance_score m) = true.
Proof.
  unfold scoring_attempt. destruct (oracle w n scoring_system prompt); [done|].
  intros (scoring & _ & (raw & _ & (score & Hc & (reasoning & _ & [= <-])%bind_Ok)
    %bind_Ok)%bind_Ok)%bind_Ok.
  simpl. repeat split. by eapply clamp_value_unit.
Qed.

Lemma unavailable_fields (w : env) (n : nat) (o : Opportunity.t) (e : exn) :
  Match.company_id (unavailable w n o e) = VStr "placeholder" /\
  Match.opportunity_id (unavailable w n o e) = Opportunity.id o /\
  in_unit (Match.relevance_score (unavailable w n o e)) = true.
Proof. repeat split. Qed.

(** The two ways [score_opportunity_relevance] returns. *)
Lemma score_inv (w : env) (n : nat) (analysis : pyval) (o : Opportunity.t)
  (m : Match.t) :
  score_opportunity_relevance w n analysis o = Ok m ->
  exists prompt, scoring_prompt w analysis o = Ok prompt /\
    (scoring_attempt w n prompt o = Ok m \/
     exists e, scoring_attempt w n prompt o = Raise e /\ m = unavailable w n o e).
Proof.
  unfold score_opportunity_relevance. intros (prompt & Hp & H)%bind_Ok.
  exists prompt. split; [done|].
  destruct (scoring_attempt w n prompt o) as [m'|e]; simplify_eq; eauto.
Qed.

Lemma score_fields (w : env) (n : nat) (analysis : pyval) (o : Opportunity.t)
  (m : Match.t) :
  score_opportunity_relevance w n analysis o = Ok m ->
  Match.company_id m = VStr "placeholder" /\
  Match.opportunity_id m = Opportunity.id o /\
  in_unit (Match.relevance_score m) = true.
Proof.
  intros (prompt & _ & [H|(e & _ & ->)])%score_inv.
  - by eapply scoring_attempt_Ok.
  - apply unavailable_fields.
Qed.

(** The prompt can be built from any dict. *)
Lemma scoring_prompt_dict (w : env) (kv : list (string * pyval)) (o : Opportunity.t) :
  exists prompt, scoring_prompt w (VDict kv) o = Ok prompt.
Proof. unfold scoring_prompt, analysis_field. simpl. eauto. Qed.

(** With a dict for the analysis the scorer returns, whatever the
    oracle does. *)
Lemma score_total (w : env) (n : nat) (kv : list (string * pyval)) (o : Opportunity.t) :
  exists m, score_opportunity_relevance w n (VDict kv) o = Ok m.
Proof.
  unfold score_opportunity_relevance.
  destruct (scoring_prompt_dict w kv o) as [prompt ->]. simpl.
  destruct (scoring_attempt w n prompt o); eauto.
Qed.

(** The loop is the scoring of each opportunity followed by the
    filter. *)
Lemma score_loop_each (w : env) (analysis : pyval) (profile : pyobj)
  (name : pyval) (min_score : number) (opps : list Opportunity.t) :
  getattr profile "company_name" = Ok name ->
  forall (n : nat) (acc : list Match.t),
    score_loop w n analysis profile min_score opps acc =
    (sc <- score_each w n analysis name opps ;;
     Ok (acc ++ filter (fun m => keeps min_score m = true) sc)%list).
Proof.
  intros Hname. induction opps as [|o rest IH]; intros n acc; simpl.
  - by rewrite app_nil_r.
  - destruct (score_opportunity_relevance w n analysis o) as [m|e]; simpl; [|done].
    rewrite Hname. simpl. rewrite IH.
    destruct (score_each w (S n) analysis name rest) as [sc|e]; simpl; [|done].
    rewrite filter_cons. case_decide as Hd; unfold keeps in Hd; simpl in Hd.
    + rewrite Hd. by rewrite <- app_assoc.
    + apply not_true_is_false in Hd. by rewrite Hd.
Qed.

Lemma profile_text_company_name (w : env) (profile : pyobj) (text : string) :
  profile_text w profile = Ok text ->
  exists name, getattr profile "company_name" = Ok name.
Proof. unfold profile_text. intros (name & H & _)%bind_Ok. eauto. Qed.

Lemma analyze_company_name (w : env) (n : nat) (profile : pyobj) (analysis : pyval) :
  analyze_company_profile w n profile = Ok analysis ->
  exists name, getattr profile "company_name" = Ok name.
Proof.
  unfold analyze_company_profile. intros (text & H & _)%bind_Ok.
  by eapply profile_text_company_name.
Qed.

(** [find_matches_for_company] ranks the Matches of [score_each]. *)
Lemma find_matches_spec (w : env) (n : nat) (profile : pyobj)
  (opps : list Opportunity.t) (min_score : number) (ms : list Match.t) :
  find_matches_for_company w n profile opps min_score = Ok ms <->
  exists analysis name sc,
    analyze_company_profile w n profile = Ok analysis /\
    getattr profile "company_name" = Ok name /\
    score_each w (S n) analysis name opps = Ok sc /\
    ms = rank min_score sc.
Proof.
  unfold find_matches_for_company. rewrite bind_Ok. split.
  - intros (analysis & Ha & (matches & Hl & [= <-])%bind_Ok).
    destruct (analyze_company_name _ _ _ _ Ha) as [name Hn].
    rewrite (score_loop_each _ _ _ name) in Hl by done.
    apply bind_Ok in Hl as (sc & Hsc & [= <-]).
    by exists analysis, name, sc.
  - intros (analysis & name & sc & Ha & Hn & Hsc & ->).
    exists analysis. split; [done|].
    rewrite (score_loop_each _ _ _ name) by done. by rewrite Hsc.
Qed.

(** The Match at each position of [score_each] is the scoring of the
    opportunity at that position, made at the call of that number. *)
Lemma score_each_lookup (w : env) (analysis name : pyval)
  (opps : list Opportunity.t) :
  forall (n : nat) (sc : list Match.t),
    score_each w n analysis name opps = Ok sc ->
    length sc = length opps /\
    forall (i : nat) (o : Opportunity.t), opps !! i = Some o ->
      exists m0, score_opportunity_relevance w (n + i) analysis o = Ok m0 /\
                 sc !! i = Some (Match.set_company_id m0 name).
Proof.
  induction opps as [|o rest IH]; intros n sc; simpl.
  - intros [= <-]. done.
  - intros (m & Hm & (ms & Hms & [= <-])%bind_Ok)%bind_Ok.
    destruct (IH _ _ Hms) as [Hlen Hi]. split; [simpl; congruence|].
    intros [|i] o'; simpl.
    + intros [= <-]. exists m. by rewrite Nat.add_0_r.
    + intros Ho. destruct (Hi _ _ Ho) as (m0 & H0 & Hl).
      exists m0. by rewrite Nat.add_succ_r.
Qed.

Lemma score_each_elem (w : env) (analysis name : pyval)
  (opps : list Opportunity.t) (n : nat) (sc : list Match.t) (m : Match.t) :
  score_each w n analysis name opps = Ok sc -> m ∈ sc ->
  exists (i : nat) (o : Opportunity.t) (m0 : Match.t),
    opps !! i = Some o /\
    score_opportunity_relevance w (n + i) analysis o = Ok m0 /\
    m = Match.set_company_id m0 name.
Proof.
  intros Hsc (i & Hi)%list_elem_of_lookup.
  destruct (score_each_lookup _ _ _ _ _ _ Hsc) as [Hlen Hall].
  destruct (opps !! i) as [o|] eqn:Ho.
  - destruct (Hall _ _ Ho) as (m0 & H0 & Hl). exists i, o, m0.
    repeat split; try done. congruence.
  - apply lookup_ge_None in Ho. apply lookup_lt_Some in Hi. lia.
Qed.

Lemma score_each_unit (w : env) (analysis name : pyval)
  (opps : list Opportunity.t) (n : nat) (sc : list Match.t) :
  score_each w n analysis name opps = Ok sc ->
  Forall (fun m => in_unit (Match.relevance_score m) = true) sc.
Proof.
  intros Hsc. apply Forall_forall. intros m Hm.
  destruct (score_each_elem _ _ _ _ _ _ _ Hsc Hm) as (i & o & m0 & _ & H0 & ->).
  simpl. by apply score_fields in H0 as (_ & _ & ?).
Qed.

(** With a dict for the analysis, every opportunity is scored. *)
Lemma score_each_total (w : env) (kv : list (string * pyval)) (name : pyval)
  (opps : list Opportunity.t) :
  forall n, exists sc, score_each w n (VDict kv) name opps = Ok sc.
Proof.
  induction opps as [|o rest IH]; intros n; simpl; [eauto|].
  destruct (score_total w n kv o) as [m ->].
  destruct (IH (S n)) as [sc ->]. simpl. eauto.
Qed.

(** *** The ranking step *)

Lemma rank_elem (min_score : number) (ms : list Match.t) (m : Match.t) :
  m ∈ rank min_score ms <-> m ∈ ms /\ keeps min_score m = true.
Proof.
  unfold rank. rewrite sort_reverse_perm, list_elem_of_filter. tauto.
Qed.

Lemma keeps_not_nan (min_score : number) (m : Match.t) :
  keeps min_score m = true -> is_nan (Match.relevance_score m) = false.
Proof. unfold keeps. by intros [? _]%ge_not_nan. Qed.

Lemma rank_sorted (min_score : number) (ms : list Match.t) :
  StronglySorted (descending Match.relevance_score) (rank min_score ms).
Proof.
  unfold rank. apply sort_reverse_sorted.
  apply Forall_forall. intros m [Hk _]%list_elem_of_filter.
  by eapply keeps_not_nan.
Qed.

Lemma rank_stable (min_score k : number) (ms : list Match.t) :
  with_score k (rank min_score ms) =
  with_score k (filter (fun m => keeps min_score m = true) ms).
Proof. unfold with_score, rank. apply sort_reverse_stable. Qed.

Lemma rank_fixed (min_score : number) (ms : list Match.t) :
  StronglySorted (descending Match.relevance_score) ms ->
  Forall (fun m => keeps min_score m = true) ms ->
  rank min_score ms = ms.
Proof.
  intros Hs Hk. unfold rank.
  assert (filter (fun m => keeps min_score m = true) ms = ms) as ->.
  { induction Hk as [|m ms Hm Hk IH]; [done|].
    rewrite filter_cons. destruct (decide _); [|done].
    f_equal. apply IH. by apply StronglySorted_inv in Hs as [? _]. }
  by apply sort_reverse_id.
Qed.

Lemma rank_idempotent (min_score : number) (ms : list Match.t) :
  rank min_score (rank min_score ms) = rank min_score ms.
Proof.
  apply rank_fixed; [apply rank_sorted|].
  apply Forall_forall. by intros m [_ ?]%rank_elem.
Qed.

(** Descending order, read on positions. *)
Lemma sorted_lookup {A : Type} (key : A -> number) (l : list A) :
  StronglySorted (descending key) l ->
  forall (i j : nat) (a b : A),
    i < j -> l !! i = Some a -> l !! j = Some b -> ge (key a) (key b) = true.
Proof.
  induction 1 as [|x l Hs IH Hx]; intros i j a b Hij Ha Hb; [done|].
  destruct j as [|j]; [lia|]. simpl in Hb.
  destruct i as [|i]; simpl in Ha.
  - simplify_eq. apply (proj1 (Forall_forall _ _) Hx).
    by eapply list_elem_of_lookup_2.
  - eapply IH; [|done..]. lia.
Qed.

End MatcherFacts.

(** ** The relevance scorer *)

Module ScorerFacts.
Import NumFacts MatcherFacts.

Lemma truthy_Some (s : string) : s <> "" -> truthy (Some s) = Some s.
Proof. by destruct s. Qed.

(** The [try] body on a reply that parses to a dict. *)
Lemma scoring_attempt_dict (w : env) (n : nat) (prompt s : string)
  (o : Opportunity.t) (kv : list (string * pyval)) :
  oracle w n scoring_system prompt = Content (Some s) -> s <> "" ->
  json_loads w s = Ok (VDict kv) ->
  scoring_attempt w n prompt o =
  (score <- clamp_value (dict_get kv "relevance_score" (VFloat (S754_zero false))) ;;
   Ok {| Match.company_id := VStr "placeholder";
         Match.opportunity_id := Opportunity.id o;
         Match.relevance_score := score;
         Match.reasoning := dict_get kv "reasoning" (VStr "AI analysis completed");
         Match.match_status := "pending";
         Match.created_at := Some (now w n) |}).
Proof.
  intros Ho Hs Hj. unfold scoring_attempt.
  rewrite Ho, (truthy_Some _ Hs), Hj. simpl.
  by destruct (clamp_value _).
Qed.

(** The score of the Match when the reply parses to a dict whose
    [relevance_score], or the default [0.0] when it has none, is a
    number. *)
Lemma score_of_dict (w : env) (n : nat) (analysis : pyval) (prompt s : string)
  (o : Opportunity.t) (kv : list (string * pyval)) (x : number) :
  scoring_prompt w analysis o = Ok prompt ->
  oracle w n scoring_system prompt = Content (Some s) -> s <> "" ->
  json_loads w s = Ok (VDict kv) ->
  as_number (dict_get kv "relevance_score" (VFloat (S754_zero false))) = Some x ->
  score_opportunity_relevance w n analysis o =
  Ok {| Match.company_id := VStr "placeholder";
        Match.opportunity_id := Opportunity.id o;
        Match.relevance_score := clamp x;
        Match.reasoning := dict_get kv "reasoning" (VStr "AI analysis completed");
        Match.match_status := "pending";
        Match.created_at := Some (now w n) |}.
Proof.
  intros Hp Ho Hs Hj Hx. unfold score_opportunity_relevance. rewrite Hp. simpl.
  rewrite (scoring_attempt_dict _ _ _ _ _ _ Ho Hs Hj).
  unfold clamp_value. by rewrite Hx.
Qed.

(** The [except] branch. *)
Lemma score_of_failure (w : env) (n : nat) (analysis : pyval) (prompt : string)
  (o : Opportunity.t) (e : exn) :
  scoring_prompt w analysis o = Ok prompt ->
  scoring_attempt w n prompt o = Raise e ->
  score_opportunity_relevance w n analysis o = Ok (unavailable w n o e).
Proof.
  intros Hp Ha. unfold score_opportunity_relevance. by rewrite Hp; simpl; rewrite Ha.
Qed.

(** C1: from a dict as characterization the scorer returns a Match
    whatever the oracle answers, and the Match that
    [score_opportunity_relevance] returns has its [relevance_score] in
    [0.0, 1.0]. When the answer parses to a dict, the score is
    [max(0.0, min(1.0, raw))] of the number found under
    [relevance_score]; a dict without that key gives 0.0; a number above
    1.0, such as 1.5, gives 1.0 and a number below 0.0, such as -3,
    gives 0.0. *)
Theorem C1_relevance_score_in_unit_interval (w : env) (n : nat)
  (analysis : pyval) (o : Opportunity.t) :
  (forall kv, analysis = VDict kv ->
     exists m, score_opportunity_relevance w n analysis o = Ok m) /\
  (forall m : Match.t,
     score_opportunity_relevance w n analysis o = Ok m ->
     in_unit (Match.relevance_score m) = true /\
     (forall (prompt s : string) (kv : list (string * pyval)),
        scoring_prompt w analysis o = Ok prompt ->
        oracle w n scoring_system prompt = Content (Some s) -> s <> "" ->
        json_loads w s = Ok (VDict kv) ->
        (dict_lookup "relevance_score" kv = None -> Match.relevance_score m = f0_0) /\
        (forall (raw : pyval) (x : number),
           dict_lookup "relevance_score" kv = Some raw -> as_number raw = Some x ->
           Match.relevance_score m = clamp x /\
           (gt x f1_0 = true -> Match.relevance_score m = f1_0) /\
           (lt x f0_0 = true -> Match.relevance_score m = f0_0)))) /\
  clamp (NFloat Example.v1_5) = f1_0 /\
  clamp (NInt (-3)) = f0_0.
Proof.
  split; [intros kv ->; apply score_total|].
  split; [|by split].
  intros m Hm. split; [by apply score_fields in Hm as (_ & _ & ?)|].
  intros prompt s kv Hp Ho Hs Hj. split.
  - intros Hnone.
    rewrite (score_of_dict _ _ _ _ _ _ kv f0_0 Hp Ho Hs Hj) in Hm.
    + by simplify_eq.
    + unfold dict_get. by rewrite Hnone.
  - intros raw x Hraw Hx.
    rewrite (score_of_dict _ _ _ _ _ _ kv x Hp Ho Hs Hj) in Hm.
    + simplify_eq. simpl. split; [done|]. split.
      * apply clamp_above.
      * apply clamp_below.
    + unfold dict_get. by rewrite Hraw.
Qed.

(** C4, as the code has it: from a dict as characterization the
    prompt is always built and the oracle called; when that call
    raises, when [json.loads] raises on its content, when the content
    parses to something that is not a dict, or when the
    [relevance_score] of the dict does not order against a float,
    [score_opportunity_relevance] does not raise: it returns a Match of
    score 0.0 whose reasoning is the text Analysis unavailable: followed
    by the message of the exception. When the content of the reply is
    null or empty, [json.loads] is not called: the Match returned has
    score 0.0 too, and the reasoning No analysis available. *)
Theorem C4_failed_scoring_gives_zero_score (w : env) (n : nat)
  (analysis : pyval) (o : Opportunity.t) :
  (forall kv, analysis = VDict kv ->
     exists prompt, scoring_prompt w analysis o = Ok prompt) /\
  (forall (prompt : string) (e : exn),
     scoring_prompt w analysis o = Ok prompt ->
     (oracle w n scoring_system prompt = Raises e \/
      (exists s, oracle w n scoring_system prompt = Content (Some s) /\ s <> "" /\
         (json_loads w s = Raise e \/
          (exists v, json_loads w s = Ok v /\ (forall d, v <> VDict d) /\
             e = AttributeError
                   ("'" +:+ type_name v +:+ "' object has no attribute 'get'")) \/
          (exists d raw, json_loads w s = Ok (VDict d) /\
             dict_lookup "relevance_score" d = Some raw /\ as_number raw = None /\
             e = TypeError ("'<' not supported between instances of '"
                              +:+ type_name raw +:+ "' and 'float'"))))) ->
     score_opportunity_relevance w n analysis o =
     Ok {| Match.company_id := VStr "placeholder";
           Match.opportunity_id := Opportunity.id o;
           Match.relevance_score := f0_0;
           Match.reasoning := VStr ("Analysis unavailable: " +:+ str_exn e);
           Match.match_status := "pending";
           Match.created_at := Some (now w n) |}) /\
  (forall (prompt : string) (c : option string),
     scoring_prompt w analysis o = Ok prompt ->
     oracle w n scoring_system prompt = Content c ->
     c = None \/ c = Some "" ->
     score_opportunity_relevance w n analysis o =
     Ok {| Match.company_id := VStr "placeholder";
           Match.opportunity_id := Opportunity.id o;
           Match.relevance_score := f0_0;
           Match.reasoning := VStr "No analysis available";
           Match.match_status := "pending";
           Match.created_at := Some (now w n) |}).
Proof.
  split; [intros kv ->; apply scoring_prompt_dict|]. split.
  - intros prompt e Hp Hcause. apply (score_of_failure _ _ _ _ _ _ Hp).
    unfold scoring_attempt.
    destruct Hcause as [->|(s & -> & Hs & Hcause)]; [done|].
    rewrite (truthy_Some _ Hs).
    destruct Hcause as [->|[(v & -> & Hv & ->)|(d & raw & -> & Hraw & Hnum & ->)]].
    + done.
    + simpl. destruct v; try done. by destruct (Hv kv).
    + simpl. unfold dict_get. rewrite Hraw. unfold clamp_value. by rewrite Hnum.
  - intros prompt c Hp Ho Hc. unfold score_opportunity_relevance.
    rewrite Hp. cbn [bind]. unfold scoring_attempt. rewrite Ho.
    by destruct Hc as [->| ->].
Qed.

End ScorerFacts.

(** ** The scoring prompt *)

Module PromptFacts.

Lemma append_nil (b : string) : "" +:+ b = b.
Proof. reflexivity. Qed.

Lemma append_cons (x : ascii) (a b : string) :
  String x a +:+ b = String x (a +:+ b).
Proof. reflexivity. Qed.

Lemma append_assoc (a b c : string) : (a +:+ b) +:+ c = a +:+ (b +:+ c).
Proof.
  induction a as [|x a IH]; [done|]. by rewrite !append_cons, IH.
Qed.




Lemma concat_cons (sep x : string) (l : list string) :
  l <> [] -> String.concat sep (x :: l) = x +:+ sep +:+ String.concat sep l.
Proof. by destruct l. Qed.







End PromptFacts.

(** ** The profile analyzer *)

Module AnalyzerFacts.
Import MatcherFacts ScorerFacts.

Lemma profile_text_industry (w : env) (profile : pyobj) (text : string) :
  profile_text w profile = Ok text ->
  exists industry, getattr profile "industry" = Ok industry.
Proof.
  unfold profile_text. intros (name & _ & (industry & H & _)%bind_Ok)%bind_Ok.
  eauto.
Qed.

(** When the [try] body raises, the [except] branch answers. *)
Lemma analyze_fallback (w : env) (n : nat) (profile : pyobj) (text : string)
  (industry : pyval) (e : exn) :
  profile_text w profile = Ok text ->
  getattr profile "industry" = Ok industry ->
  analysis_attempt w n (analysis_prompt text) = Raise e ->
  analyze_company_profile w n profile =
  Ok (VDict [("industry_focus", industry);
             ("business_stage", VStr "unknown");
             ("error", VStr (str_exn e))]).
Proof.
  intros Ht Hi Ha. unfold analyze_company_profile.
  rewrite Ht. simpl. by rewrite Ha, Hi.
Qed.

Lemma analyze_success (w : env) (n : nat) (profile : pyobj) (text : string)
  (v : pyval) :
  profile_text w profile = Ok text ->
  analysis_attempt w n (analysis_prompt text) = Ok v ->
  analyze_company_profile w n profile = Ok v.
Proof.
  intros Ht Ha. unfold analyze_company_profile. rewrite Ht. simpl. by rewrite Ha.
Qed.

(** C6, as the code has it: when the prompt is built, [analyze_company_profile]
    returns a dict of exactly [industry_focus] (the industry of the
    profile), [business_stage] and [error] when the oracle call or
    [json.loads] raises, a dict of exactly [industry_focus] and
    [business_stage] when the content is empty, and the parsed value
    unchanged otherwise; a field absent from the dict is read as Unknown
    by the scorer. *)
Theorem C6_characterization_fields_by_path (w : env) (n : nat)
  (profile : pyobj) (text : string) :
  profile_text w profile = Ok text ->
  exists industry, getattr profile "industry" = Ok industry /\
    (forall e, oracle w n analysis_system (analysis_prompt text) = Raises e ->
       analyze_company_profile w n profile =
       Ok (VDict [("industry_focus", industry);
                  ("business_stage", VStr "unknown");
                  ("error", VStr (str_exn e))])) /\
    (forall s e,
       oracle w n analysis_system (analysis_prompt text) = Content (Some s) ->
       s <> "" -> json_loads w s = Raise e ->
       analyze_company_profile w n profile =
       Ok (VDict [("industry_focus", industry);
                  ("business_stage", VStr "unknown");
                  ("error", VStr (str_exn e))])) /\
    (forall c, oracle w n analysis_system (analysis_prompt text) = Content c ->
       c = None \/ c = Some "" ->
       analyze_company_profile w n profile =
       Ok (VDict [("industry_focus", VStr "Unknown");
                  ("business_stage", VStr "Unknown")])) /\
    (forall s v,
       oracle w n analysis_system (analysis_prompt text) = Content (Some s) ->
       s <> "" -> json_loads w s = Ok v ->
       analyze_company_profile w n profile = Ok v) /\
    (forall kv key, dict_lookup key kv = None ->
       analysis_field w (VDict kv) key = Ok "Unknown").
Proof.
  intros Ht. destruct (profile_text_industry _ _ _ Ht) as [industry Hi].
  exists industry. split; [done|]. repeat split.
  - intros e Ho. apply (analyze_fallback _ _ _ _ _ _ Ht Hi).
    unfold analysis_attempt. by rewrite Ho.
  - intros s e Ho Hs Hj. apply (analyze_fallback _ _ _ _ _ _ Ht Hi).
    unfold analysis_attempt. by rewrite Ho, (truthy_Some _ Hs).
  - intros c Ho Hc. apply (analyze_success _ _ _ _ _ Ht).
    unfold analysis_attempt. rewrite Ho. by destruct Hc as [->| ->].
  - intros s v Ho Hs Hj. apply (analyze_success _ _ _ _ _ Ht).
    unfold analysis_attempt. by rewrite Ho, (truthy_Some _ Hs).
  - intros kv key Hk. unfold analysis_field. simpl. unfold dict_get.
    by rewrite Hk.
Qed.

Lemma join_items_strings (l : list string) (i : nat) :
  join_items i (map VStr l) = Ok l.
Proof.
  revert i. induction l as [|s l IH]; intros i; simpl; [done|].
  by rewrite IH.
Qed.

Lemma getattr_formatted (o : pyobj) (name : string) :
  has_profile_attributes o -> name ∈ formatted_attributes ->
  exists v, getattr o name = Ok v.
Proof.
  intros [H _] Hin. destruct (H name Hin) as [v Hv]. exists v.
  unfold getattr. by rewrite Hv.
Qed.

Lemma getattr_joined (o : pyobj) (name : string) :
  has_profile_attributes o -> name ∈ joined_attributes ->
  exists l, getattr o name = Ok (VList (map VStr l)) /\
            str_join ", " (VList (map VStr l)) = Ok (String.concat ", " l).
Proof.
  intros [_ H] Hin. destruct (H name Hin) as [l Hl]. exists l. split.
  - unfold getattr. by rewrite Hl.
  - unfold str_join. by rewrite join_items_strings.
Qed.

(** On an object that has the attributes read, with empty strings and
    empty lists allowed, the prompt is built and the analyzer returns
    whatever the oracle does. *)
Lemma analyze_returns (w : env) (n : nat) (o : pyobj) :
  has_profile_attributes o ->
  exists analysis, analyze_company_profile w n o = Ok analysis.
Proof.
  intros Ho.
  assert (exists text, profile_text w o = Ok text) as [text Ht].
  { unfold profile_text.
    destruct (getattr_formatted o "company_name" Ho) as [v1 ->];
      [apply (bool_decide_unpack _); by vm_compute|].
    destruct (getattr_formatted o "industry" Ho) as [v2 ->];
      [apply (bool_decide_unpack _); by vm_compute|].
    destruct (getattr_formatted o "business_type" Ho) as [v3 ->];
      [apply (bool_decide_unpack _); by vm_compute|].
    destruct (getattr_formatted o "company_size" Ho) as [v4 ->];
      [apply (bool_decide_unpack _); by vm_compute|].
    destruct (getattr_formatted o "description" Ho) as [v5 ->];
      [apply (bool_decide_unpack _); by vm_compute|].
    cbn [bind].
    destruct (getattr_joined o "services" Ho) as (l1 & -> & Hj1);
      [apply (bool_decide_unpack _); by vm_compute|].
    cbn [bind]. rewrite Hj1. cbn [bind].
    destruct (getattr_joined o "target_markets" Ho) as (l2 & -> & Hj2);
      [apply (bool_decide_unpack _); by vm_compute|].
    cbn [bind]. rewrite Hj2. cbn [bind].
    destruct (getattr_joined o "key_challenges" Ho) as (l3 & -> & Hj3);
      [apply (bool_decide_unpack _); by vm_compute|].
    cbn [bind]. rewrite Hj3. cbn [bind]. eauto. }
  destruct (profile_text_industry _ _ _ Ht) as [industry Hi].
  destruct (analysis_attempt w n (analysis_prompt text)) as [v|e] eqn:Ha.
  - exists v. by apply (analyze_success _ _ _ text).
  - eexists. by apply (analyze_fallback _ _ _ text industry e).
Qed.

(** When [json.loads] gives the analysis oracle's content back as a
    dict, which is what the request for a JSON object asks of the
    oracle, the analysis of such an object is a dict. *)
Lemma analyze_returns_dict (w : env) (n : nat) (o : pyobj) :
  has_profile_attributes o ->
  (forall prompt s v,
     oracle w n analysis_system prompt = Content (Some s) ->
     json_loads w s = Ok v -> exists kv, v = VDict kv) ->
  exists kv, analyze_company_profile w n o = Ok (VDict kv).
Proof.
  intros Ho Hobj. destruct (analyze_returns w n o Ho) as [analysis Ha].
  cut (exists kv, analysis = VDict kv).
  { intros [kv ->]. eauto. }
  revert Ha. unfold analyze_company_profile.
  intros (text & Ht & Ha)%bind_Ok.
  destruct (analysis_attempt w n (analysis_prompt text)) as [v|e] eqn:Hatt.
  - simplify_eq. unfold analysis_attempt in Hatt.
    destruct (oracle w n analysis_system (analysis_prompt text))
      as [e|c] eqn:Hor; [done|].
    destruct c as [[|c s]|]; simpl in Hatt; simplify_eq; eauto.
  - apply bind_Ok in Ha as (industry & _ & [= <-]). eauto.
Qed.

(** ... and the pipeline returns a ranked list, whatever the scoring
    oracle does. *)
Lemma find_matches_returns (w : env) (n : nat) (o : pyobj)
  (opps : list Opportunity.t) (min_score : number) :
  has_profile_attributes o ->
  (forall prompt s v,
     oracle w n analysis_system prompt = Content (Some s) ->
     json_loads w s = Ok v -> exists kv, v = VDict kv) ->
  exists ms, find_matches_for_company w n o opps min_score = Ok ms.
Proof.
  intros Ho Hobj. destruct (analyze_returns_dict w n o Ho Hobj) as [kv Ha].
  destruct (analyze_company_name _ _ _ _ Ha) as [name Hn].
  destruct (score_each_total w kv name opps (S n)) as [sc Hsc].
  exists (rank min_score sc). apply find_matches_spec.
  by exists (VDict kv), name, sc.
Qed.

Lemma BusinessProfile_has (o : pyobj) (name : string) :
  is_BusinessProfile o -> name ∈ BusinessProfile_fields ->
  exists v, getattr o name = Ok v.
Proof.
  intros [_ H] Hin. apply H in Hin as [v Hv]. exists v.
  unfold getattr. by rewrite Hv.
Qed.

Lemma BusinessProfile_lacks (o : pyobj) (name : string) :
  is_BusinessProfile o -> name ∉ BusinessProfile_fields ->
  getattr o name =
  Raise (AttributeError
           ("'BusinessProfile' object has no attribute '" +:+ name +:+ "'")).
Proof.
  intros [Hc H] Hin. unfold getattr.
  destruct (attrs o !! name) as [v|] eqn:Hv.
  - destruct Hin. apply H. by exists v.
  - by rewrite Hc.
Qed.

(** The matcher reads [business_type], which the dataclass does not
    declare: the analysis of an instance raises before the oracle is
    called. *)
Lemma analyze_BusinessProfile (w : env) (n : nat) (o : pyobj) :
  is_BusinessProfile o ->
  analyze_company_profile w n o =
  Raise (AttributeError "'BusinessProfile' object has no attribute 'business_type'").
Proof.
  intros Hbp. unfold analyze_company_profile, profile_text.
  destruct (BusinessProfile_has o "company_name" Hbp) as [v1 ->].
  { apply (bool_decide_unpack _). by vm_compute. }
  destruct (BusinessProfile_has o "industry" Hbp) as [v2 ->].
  { apply (bool_decide_unpack _). by vm_compute. }
  rewrite (BusinessProfile_lacks o "business_type" Hbp).
  - reflexivity.
  - apply (bool_decide_unpack _). by vm_compute.
Qed.

Lemma business_profile_is_BusinessProfile :
  is_BusinessProfile Example.business_profile.
Proof.
  split; [done|]. intros name. unfold Example.business_profile.
  cbn [attrs]. rewrite <- elem_of_dom, dom_list_to_map_L, elem_of_list_to_set.
  reflexivity.
Qed.

(** C7: on an instance of [BusinessProfile], the declared type of the
    parameter, [analyze_company_profile] raises an [AttributeError]
    whatever the oracle would answer, and so does
    [find_matches_for_company]. *)
Theorem C7_analysis_raises_on_BusinessProfile :
  is_BusinessProfile Example.business_profile /\
  (forall (w : env) (n : nat),
     analyze_company_profile w n Example.business_profile =
     Raise (AttributeError "'BusinessProfile' object has no attribute 'business_type'")) /\
  (forall (w : env) (n : nat) (opps : list Opportunity.t) (min_score : number),
     find_matches_for_company w n Example.business_profile opps min_score =
     Raise (AttributeError "'BusinessProfile' object has no attribute 'business_type'")).
Proof.
  pose proof business_profile_is_BusinessProfile as Hbp.
  split; [done|]. split.
  - intros w n. by apply analyze_BusinessProfile.
  - intros w n opps min_score. unfold find_matches_for_company.
    by rewrite analyze_BusinessProfile.
Qed.

End AnalyzerFacts.

(** ** The pipeline *)

Module PipelineFacts.
Import NumFacts SortFacts MatcherFacts ScorerFacts.

(** C2: every Match in the list that [find_matches_for_company]
    returns has a score that reaches [min_score], and is the Match that
    [score_opportunity_relevance] gave for one of the opportunities of
    the input, stamped with the company name. *)
Theorem C2_returned_matches_reach_threshold (w : env) (n : nat)
  (profile : pyobj) (opps : list Opportunity.t) (min_score : number)
  (ms : list Match.t) :
  find_matches_for_company w n profile opps min_score = Ok ms ->
  exists analysis name sc,
    analyze_company_profile w n profile = Ok analysis /\
    getattr profile "company_name" = Ok name /\
    score_each w (S n) analysis name opps = Ok sc /\
    forall m, m ∈ ms ->
      ge (Match.relevance_score m) min_score = true /\
      m ∈ sc /\
      exists (i : nat) (o : Opportunity.t) (m0 : Match.t),
        opps !! i = Some o /\
        score_opportunity_relevance w (S n + i) analysis o = Ok m0 /\
        m = Match.set_company_id m0 name.
Proof.
  intros (analysis & name & sc & Ha & Hn & Hsc & ->)%find_matches_spec.
  exists analysis, name, sc. split; [done|]. split; [done|]. split; [done|].
  intros m [Hin Hk]%rank_elem. split; [done|]. split; [done|].
  by eapply score_each_elem.
Qed.

(** C3: the list that [find_matches_for_company] returns is in
    descending order of [relevance_score], and for every score the
    Matches of that score are in the order in which the scoring of the
    input produced them. *)
Theorem C3_returned_matches_sorted_stable (w : env) (n : nat)
  (profile : pyobj) (opps : list Opportunity.t) (min_score : number)
  (ms : list Match.t) :
  find_matches_for_company w n profile opps min_score = Ok ms ->
  (forall (i j : nat) (a b : Match.t),
     i < j -> ms !! i = Some a -> ms !! j = Some b ->
     ge (Match.relevance_score a) (Match.relevance_score b) = true) /\
  exists analysis name sc,
    analyze_company_profile w n profile = Ok analysis /\
    getattr profile "company_name" = Ok name /\
    score_each w (S n) analysis name opps = Ok sc /\
    forall k, with_score k ms =
              with_score k (filter (fun m => keeps min_score m = true) sc).
Proof.
  intros (analysis & name & sc & Ha & Hn & Hsc & ->)%find_matches_spec.
  split.
  - apply sorted_lookup, rank_sorted.
  - exists analysis, name, sc. repeat split; try done.
    intros k. apply rank_stable.
Qed.

(** C5, as the code has it: when the analysis is a dict, [find_matches_for_company]
    returns whatever the oracle does at each scoring call; the Match of
    an opportunity is in the returned list exactly when its score
    reaches [min_score]; the Match of an opportunity whose oracle call
    raised has score 0.0 and the reasoning of the [except] branch, and
    is in the list exactly when [min_score <= 0.0], which the default
    0.6 is not; the Match of an opportunity whose reply carries a number
    has that number clamped as its score. *)
Theorem C5_failed_scoring_kept_only_under_zero_threshold (w : env) (n : nat)
  (profile : pyobj) (opps : list Opportunity.t) (min_score : number)
  (kv : list (string * pyval)) :
  analyze_company_profile w n profile = Ok (VDict kv) ->
  ge f0_0 default_min_score = false /\
  exists name ms,
    getattr profile "company_name" = Ok name /\
    find_matches_for_company w n profile opps min_score = Ok ms /\
    forall (i : nat) (o : Opportunity.t), opps !! i = Some o ->
      exists prompt m0,
        scoring_prompt w (VDict kv) o = Ok prompt /\
        score_opportunity_relevance w (S n + i) (VDict kv) o = Ok m0 /\
        (Match.set_company_id m0 name ∈ ms <->
         ge (Match.relevance_score m0) min_score = true) /\
        (forall e, oracle w (S n + i) scoring_system prompt = Raises e ->
           m0 = unavailable w (S n + i) o e /\
           (Match.set_company_id m0 name ∈ ms <-> ge f0_0 min_score = true)) /\
        (forall s d x,
           oracle w (S n + i) scoring_system prompt = Content (Some s) ->
           s <> "" -> json_loads w s = Ok (VDict d) ->
           as_number (dict_get d "relevance_score" (VFloat (S754_zero false))) = Some x ->
           Match.relevance_score m0 = clamp x /\
           (gt x f0_0 = true -> lt x f1_0 = true -> Match.relevance_score m0 = x)).
Proof.
  intros Ha. split; [done|].
  destruct (analyze_company_name _ _ _ _ Ha) as [name Hn].
  destruct (score_each_total w kv name opps (S n)) as [sc Hsc].
  exists name, (rank min_score sc). split; [done|]. split.
  { apply find_matches_spec. by exists (VDict kv), name, sc. }
  intros i o Ho.
  destruct (score_each_lookup _ _ _ _ _ _ Hsc) as [_ Hall].
  destruct (Hall _ _ Ho) as (m0 & Hm0 & Hi).
  destruct (scoring_prompt_dict w kv o) as [prompt Hp].
  exists prompt, m0. split; [done|]. split; [done|].
  assert (Match.set_company_id m0 name ∈ rank min_score sc <->
          ge (Match.relevance_score m0) min_score = true) as Hiff.
  { rewrite rank_elem. unfold keeps. simpl. split; [tauto|].
    intros Hge. split; [|done]. by eapply list_elem_of_lookup_2. }
  split; [done|]. split.
  - intros e He.
    assert (m0 = unavailable w (S n + i) o e) as ->.
    { rewrite (score_of_failure _ _ _ _ _ e Hp) in Hm0; [by simplify_eq|].
      unfold scoring_attempt. by rewrite He. }
    done.
  - intros s d x Hs Hne Hj Hx.
    rewrite (score_of_dict _ _ _ _ _ _ d x Hp Hs Hne Hj Hx) in Hm0.
    simplify_eq. simpl. split; [done|].
    intros H0 H1. unfold clamp, min_1, max_0. by rewrite H1, H0.
Qed.

(** C8: ranking the output of the ranking step again, with the same
    threshold, gives the same list; the list that
    [find_matches_for_company] returns is such an output. *)
Theorem C8_ranking_idempotent (min_score : number) (ms : list Match.t) :
  rank min_score (rank min_score ms) = rank min_score ms /\
  (forall (w : env) (n : nat) (profile : pyobj) (opps : list Opportunity.t)
          (out : list Match.t),
     find_matches_for_company w n profile opps min_score = Ok out ->
     (exists sc, out = rank min_score sc) /\ rank min_score out = out).
Proof.
  split; [apply rank_idempotent|].
  intros w n profile opps out
    (analysis & name & sc & _ & _ & _ & ->)%find_matches_spec.
  split; [by exists sc|]. apply rank_idempotent.
Qed.

(** C10: every Match in the list that [find_matches_for_company]
    returns carries the [company_name] of the profile as its
    [company_id], in place of the placeholder the scorer wrote, and the
    id of the opportunity it was scored against, whether the scorer
    returned from its [try] body or from its [except] branch. *)
Theorem C10_company_and_opportunity_ids (w : env) (n : nat)
  (profile : pyobj) (opps : list Opportunity.t) (min_score : number)
  (ms : list Match.t) :
  find_matches_for_company w n profile opps min_score = Ok ms ->
  exists analysis name,
    analyze_company_profile w n profile = Ok analysis /\
    getattr profile "company_name" = Ok name /\
    forall m, m ∈ ms ->
      Match.company_id m = name /\
      exists (i : nat) (o : Opportunity.t) (m0 : Match.t) (prompt : string),
        opps !! i = Some o /\
        scoring_prompt w analysis o = Ok prompt /\
        score_opportunity_relevance w (S n + i) analysis o = Ok m0 /\
        (scoring_attempt w (S n + i) prompt o = Ok m0 \/
         exists e, scoring_attempt w (S n + i) prompt o = Raise e /\
                   m0 = unavailable w (S n + i) o e) /\
        Match.company_id m0 = VStr "placeholder" /\
        m = Match.set_company_id m0 name /\
        Match.opportunity_id m = Opportunity.id o.
Proof.
  intros (analysis & name & sc & Ha & Hn & Hsc & ->)%find_matches_spec.
  exists analysis, name. split; [done|]. split; [done|].
  intros m [Hin _]%rank_elem.
  destruct (score_each_elem _ _ _ _ _ _ _ Hsc Hin) as (i & o & m0 & Ho & Hm0 & ->).
  split; [done|].
  destruct (score_inv _ _ _ _ _ Hm0) as (prompt & Hp & Hpath).
  destruct (score_fields _ _ _ _ _ Hm0) as (Hc & Hid & _).
  exists i, o, m0, prompt. by repeat split.
Qed.

End PipelineFacts.

(** ** Concrete runs of the properties *)

Module Runs.
Import Example.

(** The scorer on single replies. *)

Example underrated_run :
  score_opportunity_relevance
    (scripted [Content (Some (score_text "-3" "underrated"))]) 0 analysis_value X =
  Ok {| Match.company_id := VStr "placeholder";
        Match.opportunity_id := "X";
        Match.relevance_score := f0_0;
        Match.reasoning := VStr "underrated";
        Match.match_status := "pending";
        Match.created_at := Some 1700000000%Z |}.
Proof. by vm_compute. Qed.

Example missing_score_run :
  score_opportunity_relevance
    (scripted [Content (Some (object_text [("reasoning", quoted "no score")]))])
    0 analysis_value X =
  Ok {| Match.company_id := VStr "placeholder";
        Match.opportunity_id := "X";
        Match.relevance_score := f0_0;
        Match.reasoning := VStr "no score";
        Match.match_status := "pending";
        Match.created_at := Some 1700000000%Z |}.
Proof. by vm_compute. Qed.

(** A float NaN is not below 1.0, so [min] keeps 1.0. *)
Example nan_score_run :
  score_opportunity_relevance
    (scripted [Content (Some (score_text "NaN" "unsure"))]) 0 analysis_value X =
  Ok {| Match.company_id := VStr "placeholder";
        Match.opportunity_id := "X";
        Match.relevance_score := f1_0;
        Match.reasoning := VStr "unsure";
        Match.match_status := "pending";
        Match.created_at := Some 1700000000%Z |}.
Proof. by vm_compute. Qed.

Example string_score_run :
  score_opportunity_relevance
    (scripted [Content (Some (score_text (quoted "NaN") "unsure"))]) 0 analysis_value X =
  Ok {| Match.company_id := VStr "placeholder";
        Match.opportunity_id := "X";
        Match.relevance_score := f0_0;
        Match.reasoning :=
          VStr "Analysis unavailable: '<' not supported between instances of 'str' and 'float'";
        Match.match_status := "pending";
        Match.created_at := Some 1700000000%Z |}.
Proof. by vm_compute. Qed.

Example list_reply_run :
  score_opportunity_relevance (scripted [Content (Some "[]")]) 0 analysis_value X =
  Ok {| Match.company_id := VStr "placeholder";
        Match.opportunity_id := "X";
        Match.relevance_score := f0_0;
        Match.reasoning :=
          VStr "Analysis unavailable: 'list' object has no attribute 'get'";
        Match.match_status := "pending";
        Match.created_at := Some 1700000000%Z |}.
Proof. by vm_compute. Qed.

Example unparseable_run :
  score_opportunity_relevance (scripted [Content (Some "not json")]) 0 analysis_value X =
  Ok {| Match.company_id := VStr "placeholder";
        Match.opportunity_id := "X";
        Match.relevance_score := f0_0;
        Match.reasoning :=
          VStr "Analysis unavailable: Expecting value: line 1 column 1 (char 0)";
        Match.match_status := "pending";
        Match.created_at := Some 1700000000%Z |}.
Proof. by vm_compute. Qed.

Example empty_content_run :
  score_opportunity_relevance (scripted [Content None]) 0 analysis_value X =
  Ok {| Match.company_id := VStr "placeholder";
        Match.opportunity_id := "X";
        Match.relevance_score := f0_0;
        Match.reasoning := VStr "No analysis available";
        Match.match_status := "pending";
        Match.created_at := Some 1700000000%Z |}.
Proof. by vm_compute. Qed.

(** An analysis that is not a dict: the prompt cannot be built and the
    exception reaches the caller. *)
Example list_analysis_run :
  score_opportunity_relevance failing 0 (VList []) X =
  Raise (AttributeError "'list' object has no attribute 'get'").
Proof. by vm_compute. Qed.

(** The pipeline: three opportunities scored 0.9, 0.5 and 0.75 against
    the default threshold; no opportunity at all; every score under the
    threshold. *)

Example three_scores_run :
  find_matches_for_company
    (scripted [ Content (Some analysis_text);
                Content (Some (score_text "0.9" "strong fit"));
                Content (Some (score_text "0.5" "weak fit"));
                Content (Some (score_text "0.75" "fair fit")) ])
    0 company [X; Y; Z'] default_min_score =
  Ok [ scored "X" v0_9 "strong fit" 1; scored "Z" v0_75 "fair fit" 3 ].
Proof. by vm_compute. Qed.

Example no_opportunity_run :
  find_matches_for_company isolation 0 company [] default_min_score = Ok [].
Proof. by vm_compute. Qed.

Example all_below_run :
  find_matches_for_company
    (scripted [ Content (Some analysis_text);
                Content (Some (score_text "0.5" "weak fit"));
                Content (Some (score_text "-3" "underrated"));
                Content None ])
    0 company [X; Y; Z'] default_min_score = Ok [].
Proof. by vm_compute. Qed.

(** Equal scores keep the order of the input. *)
Example equal_scores_run :
  find_matches_for_company
    (scripted [ Content (Some analysis_text);
                Content (Some (score_text "0.8" "good fit"));
                Content (Some (score_text "0.9" "strong fit"));
                Content (Some (score_text "0.8" "good fit")) ])
    0 company [X; Y; Z'] default_min_score =
  Ok [ scored "Y" v0_9 "strong fit" 2; scored "X" v0_8 "good fit" 1;
       scored "Z" v0_8 "good fit" 3 ].
Proof. by vm_compute. Qed.

(** The analyzer on an object that has the attributes it reads. *)
Example analysis_run :
  analyze_company_profile isolation 0 company = Ok analysis_value.
Proof. by vm_compute. Qed.

Example empty_analysis_run :
  analyze_company_profile (scripted [Content (Some "")]) 0 company =
  Ok (VDict [("industry_focus", VStr "Unknown"); ("business_stage", VStr "Unknown")]).
Proof. by vm_compute. Qed.

Lemma C1_witness :
  score_opportunity_relevance overrating 0 analysis_value X = Ok overrated /\
  in_unit (Match.relevance_score overrated) = true.
Proof.
  assert (score_opportunity_relevance overrating 0 analysis_value X = Ok overrated)
    as H by (by vm_compute).
  split; [exact H|].
  exact (proj1 (proj1 (proj2 (ScorerFacts.C1_relevance_score_in_unit_interval
                                overrating 0 analysis_value X))
                  overrated H)).
Defined.

Lemma C2_witness :
  find_matches_for_company isolation 0 company [X; Y; Z'] default_min_score
    = Ok ranked /\
  forall m, m ∈ ranked -> ge (Match.relevance_score m) default_min_score = true.
Proof.
  assert (find_matches_for_company isolation 0 company [X; Y; Z'] default_min_score
          = Ok ranked) as H by (by vm_compute).
  split; [exact H|].
  destruct (PipelineFacts.C2_returned_matches_reach_threshold
              isolation 0 company [X; Y; Z'] default_min_score ranked H)
    as (analysis & name & sc & _ & _ & _ & Hall).
  intros m Hm. exact (proj1 (Hall m Hm)).
Defined.

Lemma C3_witness :
  find_matches_for_company isolation 0 company [X; Y; Z'] default_min_score
    = Ok ranked /\
  forall (i j : nat) (a b : Match.t),
    i < j -> ranked !! i = Some a -> ranked !! j = Some b ->
    ge (Match.relevance_score a) (Match.relevance_score b) = true.
Proof.
  assert (find_matches_for_company isolation 0 company [X; Y; Z'] default_min_score
          = Ok ranked) as H by (by vm_compute).
  split; [exact H|].
  exact (proj1 (PipelineFacts.C3_returned_matches_sorted_stable
                  isolation 0 company [X; Y; Z'] default_min_score ranked H)).
Defined.

Lemma C4_witness :
  scoring_prompt failing analysis_value X = Ok X_prompt /\
  oracle failing 0 scoring_system X_prompt = Raises timeout /\
  score_opportunity_relevance failing 0 analysis_value X =
  Ok {| Match.company_id := VStr "placeholder";
        Match.opportunity_id := "X";
        Match.relevance_score := f0_0;
        Match.reasoning := VStr "Analysis unavailable: Request timed out.";
        Match.match_status := "pending";
        Match.created_at := Some 1700000000%Z |}.
Proof.
  assert (scoring_prompt failing analysis_value X = Ok X_prompt)
    as Hp by (by vm_compute).
  assert (oracle failing 0 scoring_system X_prompt = Raises timeout)
    as Ho by reflexivity.
  split; [exact Hp|]. split; [exact Ho|].
  exact (proj1 (proj2 (ScorerFacts.C4_failed_scoring_gives_zero_score
                         failing 0 analysis_value X))
           X_prompt timeout Hp (or_introl Ho)).
Defined.

(** C4 as stated fails: the reply is the empty text, which [json.loads]
    rejects; the Match returned has score 0.0, but its reasoning is not
    of the form Analysis unavailable: followed by a cause. *)
Lemma C4_empty_reply_reasoning :
  oracle (scripted [Content (Some "")]) 0 scoring_system X_prompt =
    Content (Some "") /\
  (exists e, json_loads (scripted [Content (Some "")]) "" = Raise e) /\
  exists m,
    score_opportunity_relevance (scripted [Content (Some "")]) 0 analysis_value X
      = Ok m /\
    Match.relevance_score m = f0_0 /\
    Match.reasoning m = VStr "No analysis available" /\
    forall cause, Match.reasoning m <> VStr ("Analysis unavailable: " +:+ cause).
Proof.
  split; [reflexivity|]. split; [by eexists|].
  eexists. split; [by vm_compute|]. split; [reflexivity|]. split; [reflexivity|].
  intros cause H. simpl in H. injection H as H. discriminate H.
Qed.

(** C5 as stated fails: the scoring of [X] raises, [Y] and [Z'] score
    0.8 and 0.9, and with the default threshold the returned list holds
    no Match for [X]. *)
Lemma C5_failed_opportunity_omitted :
  exists ms,
    find_matches_for_company isolation 0 company [X; Y; Z'] default_min_score
      = Ok ms /\
    oracle isolation 1 scoring_system X_prompt = Raises timeout /\
    ~ exists m, m ∈ ms /\ Match.opportunity_id m = Opportunity.id X.
Proof.
  exists ranked. split; [by vm_compute|]. split; [reflexivity|].
  intros (m & Hm & Hid). unfold ranked in Hm.
  apply elem_of_cons in Hm as [->|Hm]; [done|].
  apply elem_of_cons in Hm as [->|Hm]; [done|].
  by apply elem_of_nil in Hm.
Qed.

Lemma C5_witness :
  analyze_company_profile isolation 0 company = Ok analysis_value /\
  exists name ms,
    getattr company "company_name" = Ok name /\
    find_matches_for_company isolation 0 company [X; Y; Z'] default_min_score
      = Ok ms.
Proof.
  assert (analyze_company_profile isolation 0 company = Ok analysis_value)
    as H by (by vm_compute).
  split; [exact H|].
  destruct (PipelineFacts.C5_failed_scoring_kept_only_under_zero_threshold
              isolation 0 company [X; Y; Z'] default_min_score _ H)
    as (_ & name & ms & Hn & Hf & _).
  exists name, ms. split; [exact Hn|exact Hf].
Defined.

(** C6 as stated fails: when the oracle call raises, the dict returned
    has no [target_customers]. *)
Lemma C6_fallback_not_populated :
  exists analysis,
    analyze_company_profile failing 0 company = Ok analysis /\
    ~ populated analysis.
Proof.
  eexists. split; [by vm_compute|].
  intros (kv & Heq & H). injection Heq as <-.
  destruct (H "target_customers") as [v Hv].
  - apply (bool_decide_unpack _). by vm_compute.
  - by vm_compute in Hv.
Qed.

Lemma C6_witness :
  profile_text failing company = Ok company_text /\
  analyze_company_profile failing 0 company =
  Ok (VDict [("industry_focus", VStr "technology software");
             ("business_stage", VStr "unknown");
             ("error", VStr "Request timed out.")]).
Proof.
  assert (profile_text failing company = Ok company_text) as H by (by vm_compute).
  split; [exact H|].
  destruct (AnalyzerFacts.C6_characterization_fields_by_path failing 0 company
              company_text H) as (industry & Hi & Hraise & _).
  assert (industry = VStr "technology software") as ->.
  { vm_compute in Hi. by injection Hi. }
  exact (Hraise timeout eq_refl).
Defined.

Lemma C8_witness :
  find_matches_for_company isolation 0 company [X; Y; Z'] default_min_score
    = Ok ranked /\
  rank default_min_score ranked = ranked.
Proof.
  assert (find_matches_for_company isolation 0 company [X; Y; Z'] default_min_score
          = Ok ranked) as H by (by vm_compute).
  split; [exact H|].
  exact (proj2 (proj2 (PipelineFacts.C8_ranking_idempotent default_min_score [])
                  isolation 0 company [X; Y; Z'] ranked H)).
Defined.


Lemma C10_witness :
  find_matches_for_company isolation 0 company [X; Y; Z'] default_min_score
    = Ok ranked /\
  forall m, m ∈ ranked -> Match.company_id m = VStr "Acme".
Proof.
  assert (find_matches_for_company isolation 0 company [X; Y; Z'] default_min_score
          = Ok ranked) as H by (by vm_compute).
  split; [exact H|].
  destruct (PipelineFacts.C10_company_and_opportunity_ids
              isolation 0 company [X; Y; Z'] default_min_score ranked H)
    as (analysis & name & _ & Hn & Hall).
  assert (name = VStr "Acme") as ->.
  { vm_compute in Hn. by injection Hn. }
  intros m Hm. exact (proj1 (Hall m Hm)).
Defined.

End Runs.


(** ** The methods of [str] *)

Module StrFacts.
Import PromptFacts.

Lemma lower_char_idemp (c : ascii) :
  Str.lower_char (Str.lower_char c) = Str.lower_char c.
Proof. destruct c as [[] [] [] [] [] [] [] []]; reflexivity. Qed.

Lemma lower_char_space (c : ascii) :
  Str.lower_char c = " "%char <-> c = " "%char.
Proof.
  split; [|by intros ->].
  destruct c as [[] [] [] [] [] [] [] []]; vm_compute; congruence.
Qed.

Lemma lower_char_comma (c : ascii) :
  Str.lower_char c = ","%char <-> c = ","%char.
Proof.
  split; [|by intros ->].
  destruct c as [[] [] [] [] [] [] [] []]; vm_compute; congruence.
Qed.

Lemma lower_char_ascii (c : ascii) :
  Str.is_ascii_char c = true ->
  Str.is_ascii_char (Str.lower_char c) = true /\
  Str.is_capital (Str.lower_char c) = false.
Proof. destruct c as [[] [] [] [] [] [] [] []]; vm_compute; by intros. Qed.

Lemma lower_char_small (c : ascii) :
  Str.is_ascii_char c = true -> Str.is_capital c = false -> Str.lower_char c = c.
Proof. destruct c as [[] [] [] [] [] [] [] []]; vm_compute; by intros. Qed.

Lemma to_list_app (a b : string) :
  Str.to_list (a +:+ b) = (Str.to_list a ++ Str.to_list b)%list.
Proof.
  induction a as [|c a IH]; [done|]. rewrite append_cons. simpl. by rewrite IH.
Qed.

(** *** [split] *)

Lemma split_pieces_app (sep : ascii) (a b : string) :
  Str.split_pieces sep (a +:+ String sep b) =
  (fst (Str.split_pieces sep a),
   (snd (Str.split_pieces sep a) ++ Str.split sep b)%list).
Proof.
  induction a as [|c a IH].
  - rewrite append_nil. simpl. unfold Str.split.
    destruct (Str.split_pieces sep b). by rewrite Ascii.eqb_refl.
  - rewrite append_cons. simpl. rewrite IH.
    destruct (Str.split_pieces sep a) as [p ps]. simpl.
    by destruct (Ascii.eqb c sep).
Qed.

Lemma split_app (sep : ascii) (a b : string) :
  Str.split sep (a +:+ String sep b) = (Str.split sep a ++ Str.split sep b)%list.
Proof.
  unfold Str.split at 1 2. rewrite split_pieces_app.
  by destruct (Str.split_pieces sep a).
Qed.

Lemma split_no_sep (sep : ascii) (s : string) :
  sep ∉ Str.to_list s -> Str.split sep s = [s].
Proof.
  unfold Str.split. induction s as [|c s IH]; simpl; [done|].
  intros Hn. apply not_elem_of_cons in Hn as [Hc Hs].
  specialize (IH Hs). destruct (Str.split_pieces sep s) as [p ps].
  destruct (Ascii.eqb_spec c sep) as [->|_]; [done|]. by simplify_eq.
Qed.

Lemma split_pieces_no_sep (sep : ascii) (s piece : string) :
  piece ∈ Str.split sep s -> sep ∉ Str.to_list piece.
Proof.
  unfold Str.split. revert piece. induction s as [|c s IH]; simpl; intros piece.
  - intros ->%list_elem_of_singleton. by apply not_elem_of_nil.
  - destruct (Str.split_pieces sep s) as [p ps].
    destruct (Ascii.eqb_spec c sep) as [->|Hc].
    + intros [->|Hin]%elem_of_cons; [by apply not_elem_of_nil|]. by apply IH.
    + intros [->|Hin]%elem_of_cons.
      * simpl. apply not_elem_of_cons. split; [done|]. apply IH. by left.
      * apply IH. by right.
Qed.

(** *** [strip] *)

Lemma lstrip_sub (c : ascii) (s : string) :
  c ∈ Str.to_list (Str.lstrip s) -> c ∈ Str.to_list s.
Proof.
  induction s as [|d s IH]; simpl; [done|].
  destruct (Str.is_space d); [|done]. intros H. right. by apply IH.
Qed.

Lemma rstrip_sub (c : ascii) (s : string) :
  c ∈ Str.to_list (Str.rstrip s) -> c ∈ Str.to_list s.
Proof.
  induction s as [|d s IH]; simpl; [done|].
  destruct (Str.rstrip s) as [|e r].
  - destruct (Str.is_space d); simpl; [by intros ?%elem_of_nil|].
    intros ->%list_elem_of_singleton. by left.
  - simpl. intros [->|H]%elem_of_cons; [by left|]. right. by apply IH.
Qed.

Lemma strip_sub (c : ascii) (s : string) :
  c ∈ Str.to_list (Str.strip s) -> c ∈ Str.to_list s.
Proof. intros H. by apply lstrip_sub, rstrip_sub. Qed.

Lemma lstrip_idemp (s : string) : Str.lstrip (Str.lstrip s) = Str.lstrip s.
Proof.
  induction s as [|c s IH]; simpl; [done|].
  destruct (Str.is_space c) eqn:Hc; [done|]. simpl. by rewrite Hc.
Qed.

Lemma rstrip_idemp (s : string) : Str.rstrip (Str.rstrip s) = Str.rstrip s.
Proof.
  induction s as [|c s IH]; simpl; [done|].
  destruct (Str.rstrip s) as [|e r] eqn:Hr.
  - destruct (Str.is_space c) eqn:Hc; simpl; [done|]. by rewrite Hc.
  - simpl. simpl in IH. by rewrite IH.
Qed.

(** Stripping the right end keeps a first character that is not a
    space. *)
Lemma lstrip_rstrip (s : string) :
  Str.lstrip s = s -> Str.lstrip (Str.rstrip s) = Str.rstrip s.
Proof.
  destruct s as [|c s]; [done|]. simpl.
  destruct (Str.is_space c) eqn:Hc.
  - intros H. exfalso.
    assert (String.length (Str.lstrip s) <= String.length s) as Hlen.
    { clear. induction s as [|d s IH]; simpl; [lia|].
      destruct (Str.is_space d); simpl; lia. }
    rewrite H in Hlen. simpl in Hlen. lia.
  - intros _. destruct (Str.rstrip s); simpl; by rewrite Hc.
Qed.

Lemma strip_idemp (s : string) : Str.strip (Str.strip s) = Str.strip s.
Proof.
  unfold Str.strip.
  rewrite (lstrip_rstrip (Str.lstrip s)) by apply lstrip_idemp.
  apply rstrip_idemp.
Qed.

Lemma strip_space_cons (c : ascii) (s : string) :
  Str.is_space c = true -> Str.strip (String c s) = Str.strip s.
Proof. intros Hc. unfold Str.strip. simpl. by rewrite Hc. Qed.

End StrFacts.

(** ** The profile manager: list input and file names *)

Module ProfileFacts.
Import PromptFacts StrFacts BusinessProfileManager.

(** The guard for the empty string changes nothing: the one piece of an
    empty string is blank, and dropped. *)
Lemma parse_unguarded (s : string) :
  _parse_list_input s =
  map Str.strip (filter (fun item => Str.strip item <> "") (Str.split "," s)).
Proof. by destruct s. Qed.

Lemma parse_app (a b : string) :
  _parse_list_input (a +:+ String "," b) =
  (_parse_list_input a ++ _parse_list_input b)%list.
Proof. by rewrite !parse_unguarded, split_app, filter_app, map_app. Qed.

Lemma parse_space (s : string) :
  _parse_list_input (String " " s) = _parse_list_input s.
Proof.
  rewrite !parse_unguarded. unfold Str.split. simpl.
  destruct (Str.split_pieces "," s) as [p ps]. simpl.
  rewrite !filter_cons, (strip_space_cons " " p) by done.
  by destruct (decide (Str.strip p <> "")).
Qed.

Lemma parse_single (item : string) :
  item <> "" -> Str.strip item = item -> ","%char ∉ Str.to_list item ->
  _parse_list_input item = [item].
Proof.
  intros Hne Hs Hc. rewrite parse_unguarded, split_no_sep by done.
  rewrite filter_cons, Hs. destruct (decide (item <> "")); [|done].
  simpl. by rewrite Hs.
Qed.

(** X1: every item that [_parse_list_input] returns is non-empty, has
    no white space at either end and holds no comma. *)
Theorem parsed_items_clean (s item : string) :
  item ∈ _parse_list_input s ->
  item <> "" /\ Str.strip item = item /\ ","%char ∉ Str.to_list item.
Proof.
  rewrite parse_unguarded. intros (piece & -> & Hin)%list_elem_of_fmap.
  apply list_elem_of_filter in Hin as [Hne Hin].
  split; [done|]. split; [apply strip_idemp|].
  intros Hc%strip_sub. by apply (split_pieces_no_sep _ _ _ Hin).
Qed.

(** X2: joining clean items with a comma and a space and parsing the
    text gives the items back. *)
Theorem parse_join_round_trip (items : list string) :
  Forall (fun item => item <> "" /\ Str.strip item = item /\
                      ","%char ∉ Str.to_list item) items ->
  _parse_list_input (String.concat ", " items) = items.
Proof.
  induction 1 as [|item items (Hne & Hs & Hc) Hall IH]; [done|].
  destruct items as [|next items].
  - by apply parse_single.
  - rewrite concat_cons by done.
    change (", " +:+ String.concat ", " (next :: items))
      with (String "," (String " " (String.concat ", " (next :: items)))).
    rewrite parse_app, parse_space, IH. by rewrite parse_single.
Qed.

(** X3: the items of two texts put together with a comma are the items
    of the first followed by the items of the second; a text of commas
    and white space only has no item. *)
Theorem parse_concatenation (a b : string) :
  _parse_list_input (a +:+ "," +:+ b) =
  (_parse_list_input a ++ _parse_list_input b)%list /\
  (Forall (fun c => c = ","%char \/ Str.is_space c = true) (Str.to_list a) ->
   _parse_list_input a = []).
Proof.
  split; [change ("," +:+ b) with (String "," b); apply parse_app|].
  induction a as [|c a IH]; [done|]. cbn [Str.to_list].
  intros [Hc Ha]%Forall_cons. specialize (IH Ha).
  destruct Hc as [->|Hc].
  - change (String "," a) with ("" +:+ String "," a). by rewrite parse_app, IH.
  - rewrite parse_unguarded in *. unfold Str.split in *. simpl.
    destruct (Str.split_pieces "," a) as [p ps].
    destruct (Ascii.eqb_spec c ","%char) as [->|_].
    + rewrite filter_cons. by destruct (decide _).
    + rewrite filter_cons in *. rewrite (strip_space_cons c p Hc).
      by destruct (decide (Str.strip p <> "")).
Qed.

(** *** [profile_id] *)

Lemma lower_replace_space (s : string) :
  Str.lower (Str.replace " " "_" s) = Str.replace " " "_" (Str.lower s).
Proof.
  induction s as [|c s IH]; simpl; [done|].
  destruct (Ascii.eqb_spec c " "%char) as [->|Hc].
  - rewrite append_cons, append_nil. simpl. by rewrite IH.
  - destruct (Ascii.eqb_spec (Str.lower_char c) " "%char) as [H|_];
      [by apply (proj1 (lower_char_space c)) in H|]. simpl. by rewrite IH.
Qed.

Lemma lower_replace_comma (s : string) :
  Str.lower (Str.replace "," "" s) = Str.replace "," "" (Str.lower s).
Proof.
  induction s as [|c s IH]; simpl; [done|].
  destruct (Ascii.eqb_spec c ","%char) as [->|Hc].
  - by rewrite !append_nil.
  - destruct (Ascii.eqb_spec (Str.lower_char c) ","%char) as [H|_];
      [by apply (proj1 (lower_char_comma c)) in H|]. simpl. by rewrite IH.
Qed.

Lemma lower_idemp (s : string) : Str.lower (Str.lower s) = Str.lower s.
Proof.
  induction s as [|c s IH]; simpl; [done|]. by rewrite lower_char_idemp, IH.
Qed.

Lemma replace_space_idemp (s : string) :
  Str.replace " " "_" (Str.replace " " "_" s) = Str.replace " " "_" s.
Proof.
  induction s as [|c s IH]; simpl; [done|].
  destruct (Ascii.eqb_spec c " "%char) as [->|Hc].
  - rewrite append_cons, append_nil. simpl. by rewrite IH.
  - simpl. destruct (Ascii.eqb_spec c " "%char); [done|]. by rewrite IH.
Qed.

Lemma replace_comma_idemp (s : string) :
  Str.replace "," "" (Str.replace "," "" s) = Str.replace "," "" s.
Proof.
  induction s as [|c s IH]; simpl; [done|].
  destruct (Ascii.eqb_spec c ","%char) as [->|Hc].
  - by rewrite !append_nil.
  - simpl. destruct (Ascii.eqb_spec c ","%char); [done|]. by rewrite IH.
Qed.

Lemma replace_space_comma (s : string) :
  Str.replace " " "_" (Str.replace "," "" s) =
  Str.replace "," "" (Str.replace " " "_" s).
Proof.
  induction s as [|c s IH]; simpl; [done|].
  destruct (Ascii.eqb_spec c ","%char) as [->|Hc].
  - by rewrite !append_nil.
  - destruct (Ascii.eqb_spec c " "%char) as [->|Hs].
    + rewrite !append_cons, !append_nil. simpl. by rewrite IH.
    + simpl. destruct (Ascii.eqb_spec c " "%char); [done|].
      destruct (Ascii.eqb_spec c ","%char); [done|]. by rewrite IH.
Qed.

Lemma is_ascii_lower (s : string) :
  Str.is_ascii s = true -> Str.is_ascii (Str.lower s) = true.
Proof.
  induction s as [|c s IH]; simpl; [done|].
  intros [Hc Hs]%andb_prop. apply andb_true_intro.
  split; [by apply lower_char_ascii|by apply IH].
Qed.

Lemma is_ascii_replace (old : ascii) (new s : string) :
  Str.is_ascii new = true -> Str.is_ascii s = true ->
  Str.is_ascii (Str.replace old new s) = true.
Proof.
  intros Hnew. induction s as [|c s IH]; simpl; [done|].
  intros [Hc Hs]%andb_prop. destruct (Ascii.eqb c old).
  - specialize (IH Hs). revert IH. generalize (Str.replace old new s).
    intros rest Hrest. induction new as [|d new IHn]; [done|].
    rewrite append_cons. simpl in *. apply andb_prop in Hnew as [Hd Hnew].
    apply andb_true_intro. split; [done|by apply IHn].
  - simpl. apply andb_true_intro. split; [done|by apply IH].
Qed.

Lemma is_ascii_profile_id (company_name : string) :
  Str.is_ascii company_name = true ->
  Str.is_ascii (profile_id company_name) = true.
Proof.
  intros H. unfold profile_id.
  apply is_ascii_replace; [done|]. apply is_ascii_replace; [done|].
  by apply is_ascii_lower.
Qed.

Lemma is_ascii_elem (s : string) (c : ascii) :
  Str.is_ascii s = true -> c ∈ Str.to_list s -> Str.is_ascii_char c = true.
Proof.
  induction s as [|d s IH]; simpl.
  - by intros _ ?%elem_of_nil.
  - intros [Hd Hs]%andb_prop [->|Hin]%elem_of_cons; [done|by apply IH].
Qed.

Lemma profile_id_lowered (company_name : string) (c : ascii) :
  c ∈ Str.to_list (profile_id company_name) ->
  c <> " "%char /\ c <> ","%char /\ Str.lower_char c = c.
Proof.
  unfold profile_id. induction company_name as [|d s IH]; simpl.
  - by intros ?%elem_of_nil.
  - destruct (Ascii.eqb_spec (Str.lower_char d) " "%char) as [Hd|Hd].
    + rewrite append_cons, append_nil. simpl.
      intros [->|H]%elem_of_cons; [by vm_compute|by apply IH].
    + simpl. destruct (Ascii.eqb_spec (Str.lower_char d) ","%char) as [Hd'|Hd'].
      * rewrite append_nil. apply IH.
      * simpl. intros [->|H]%elem_of_cons; [|by apply IH].
        split; [done|]. split; [done|]. apply lower_char_idemp.
Qed.

(** X4: the [profile_id] of an ASCII name is ASCII and holds no space,
    no comma and no capital letter. *)
Theorem profile_id_characters (company_name : string) (c : ascii) :
  Str.is_ascii company_name = true ->
  c ∈ Str.to_list (profile_id company_name) ->
  c <> " "%char /\ c <> ","%char /\
  Str.is_capital c = false /\ Str.is_ascii_char c = true.
Proof.
  intros Hascii Hin.
  destruct (profile_id_lowered company_name c Hin) as (Hs & Hc & Hl).
  pose proof (is_ascii_elem _ c (is_ascii_profile_id _ Hascii) Hin) as Ha.
  split; [done|]. split; [done|]. split; [|done].
  rewrite <- Hl. by apply lower_char_ascii.
Qed.

(** X5: among ASCII names, those that differ only by the case of
    their letters, by commas, or by spaces written as underscores have
    the same [profile_id], so [save_profile] and [load_profile] use one
    file for them; a [profile_id] is ASCII and is its own
    [profile_id]. *)
Theorem profile_id_collisions (company_name : string) :
  Str.is_ascii company_name = true ->
  Str.is_ascii (profile_id company_name) = true /\
  profile_id (Str.lower company_name) = profile_id company_name /\
  profile_id (Str.replace "," "" company_name) = profile_id company_name /\
  profile_id (Str.replace " " "_" company_name) = profile_id company_name /\
  profile_id (profile_id company_name) = profile_id company_name /\
  (forall other, Str.is_ascii other = true ->
     profile_id other = profile_id company_name ->
     profile_path other = profile_path company_name).
Proof.
  intros Hascii. split; [by apply is_ascii_profile_id|].
  unfold profile_path, profile_id. repeat split.
  - by rewrite lower_idemp.
  - by rewrite lower_replace_comma, replace_space_comma, replace_comma_idemp.
  - by rewrite lower_replace_space, replace_space_idemp.
  - rewrite lower_replace_comma, lower_replace_space, lower_idemp.
    rewrite replace_space_comma, replace_space_idemp, replace_comma_idemp. done.
  - by intros other _ ->.
Qed.

Lemma profile_id_fixed (s : string) :
  Str.is_ascii s = true ->
  Forall (fun c => c <> " "%char /\ c <> ","%char /\ Str.is_capital c = false)
    (Str.to_list s) ->
  profile_id s = s.
Proof.
  unfold profile_id. induction s as [|c s IH]; simpl; [done|].
  intros [Ha Has]%andb_prop [(Hs & Hc & Hl) Hall]%Forall_cons.
  rewrite (lower_char_small c Ha Hl).
  destruct (Ascii.eqb_spec c " "%char); [done|]. simpl.
  destruct (Ascii.eqb_spec c ","%char); [done|]. by rewrite IH.
Qed.

(** X6: an ASCII name without space, comma or capital letter is its
    own [profile_id], whatever else it holds: dots and slashes are
    kept. The path of its file is the text [data/profiles/], the name
    and [_profile.json]; when the name starts with a slash the path is
    the name followed by [_profile.json], without the directory. *)
Theorem profile_path_unsanitised (s : string) :
  Str.is_ascii s = true ->
  Forall (fun c => c <> " "%char /\ c <> ","%char /\ Str.is_capital c = false)
    (Str.to_list s) ->
  profile_id s = s /\
  (Str.starts_with "/" s = true -> profile_path s = s +:+ "_profile.json") /\
  (Str.starts_with "/" s = false ->
   profile_path s = "data/profiles/" +:+ s +:+ "_profile.json").
Proof.
  intros Ha Hs. pose proof (profile_id_fixed s Ha Hs) as Hid.
  split; [done|]. unfold profile_path, path_join. rewrite Hid.
  destruct s as [|c s]; simpl.
  - split; [done|]. by intros _.
  - rewrite append_cons. simpl. destruct (Ascii.eqb c "/"); split; done.
Qed.

End ProfileFacts.

(** ** More on the matcher *)

Module RankFacts.
Import NumFacts SortFacts MatcherFacts ScorerFacts.

Section Sorting.
Context {A : Type} (key : A -> number).

Lemma insert_desc_front (x : A) (l : list A) :
  Forall (fun y => lt (key x) (key y) = false) l -> insert_desc key x l = x :: l.
Proof. destruct 1 as [|y l Hy _]; simpl; [done|]. by rewrite Hy. Qed.

(** Filtering a list in descending order commutes with an insertion. *)
Lemma filter_insert_desc (P : A -> Prop) `{!forall a, Decision (P a)}
  (x : A) (l : list A) :
  is_nan (key x) = false ->
  Forall (fun a => is_nan (key a) = false) l ->
  StronglySorted (descending key) l ->
  filter P (insert_desc key x l) =
  if decide (P x) then insert_desc key x (filter P l) else filter P l.
Proof.
  intros Hx Hn Hs. induction Hs as [|y l Hs IH Hy]; simpl.
  - rewrite filter_cons. by destruct (decide (P x)).
  - apply Forall_cons in Hn as [Hny Hn].
    destruct (lt (key x) (key y)) eqn:Hlt.
    + rewrite !(filter_cons _ y), IH by done.
      destruct (decide (P x)), (decide (P y)); simpl; try done. by rewrite Hlt.
    + rewrite (filter_cons _ x). destruct (decide (P x)); [|done].
      symmetry. apply insert_desc_front.
      assert (ge (key x) (key y) = true) as Hxy by by apply not_lt_ge.
      apply Forall_forall. intros z [_ Hz]%list_elem_of_filter.
      apply elem_of_cons in Hz as [->|Hz]; [done|].
      apply ge_not_lt. eapply ge_trans; [exact Hxy|].
      by apply (proj1 (Forall_forall _ _) Hy).
Qed.

(** Filtering commutes with the sort. *)
Lemma filter_sort_reverse (P : A -> Prop) `{!forall a, Decision (P a)}
  (l : list A) :
  Forall (fun a => is_nan (key a) = false) l ->
  filter P (sort_reverse key l) = sort_reverse key (filter P l).
Proof.
  induction 1 as [|x l Hx Hl IH]; simpl; [done|].
  rewrite filter_insert_desc; try done.
  - rewrite filter_cons, IH. by destruct (decide (P x)).
  - by rewrite sort_reverse_perm.
  - by apply sort_reverse_sorted.
Qed.

Lemma filter_none (P : A -> Prop) `{!forall a, Decision (P a)} (l : list A) :
  Forall (fun a => ~ P a) l -> filter P l = [].
Proof.
  induction 1 as [|x l Hx _ IH]; [done|].
  rewrite filter_cons. by destruct (decide (P x)).
Qed.

End Sorting.

(** In a list in descending order of score, the Matches that reach a
    threshold come first. *)
Lemma keeps_prefix (t : number) (l : list Match.t) :
  StronglySorted (descending Match.relevance_score) l ->
  filter (fun m => keeps t m = true) l `prefix_of` l.
Proof.
  induction 1 as [|x l Hs IH Hx]; [done|].
  rewrite filter_cons. destruct (decide (keeps t x = true)) as [Hk|Hk].
  - by apply prefix_cons.
  - assert (filter (fun m => keeps t m = true) l = []) as ->; [|apply prefix_nil].
    apply filter_none, Forall_forall. intros y Hy Hky. unfold keeps in *. apply Hk.
    eapply ge_trans; [|exact Hky]. by apply (proj1 (Forall_forall _ _) Hx).
Qed.

Lemma keeps_mono (t1 t2 : number) (m : Match.t) :
  ge t2 t1 = true -> keeps t2 m = true -> keeps t1 m = true.
Proof. unfold keeps. intros H12 H2. by eapply ge_trans. Qed.

Lemma rank_higher (t1 t2 : number) (ms : list Match.t) :
  ge t2 t1 = true ->
  rank t2 ms = filter (fun m => keeps t2 m = true) (rank t1 ms).
Proof.
  intros H12. unfold rank. rewrite filter_sort_reverse.
  - f_equal. symmetry. apply list_filter_filter_l.
    intros m Hk. by eapply keeps_mono.
  - apply Forall_forall. intros m [Hk _]%list_elem_of_filter. by eapply keeps_not_nan.
Qed.

(** X8: with the same answers of the oracle, a higher threshold gives
    a prefix of the list a lower threshold gives: the Matches of the
    longer list that reach the higher threshold. *)
Theorem higher_threshold_prefix (w : env) (n : nat) (profile : pyobj)
  (opps : list Opportunity.t) (t1 t2 : number) (l1 : list Match.t) :
  find_matches_for_company w n profile opps t1 = Ok l1 ->
  ge t2 t1 = true ->
  exists l2,
    find_matches_for_company w n profile opps t2 = Ok l2 /\
    l2 `prefix_of` l1 /\
    l2 = filter (fun m => keeps t2 m = true) l1.
Proof.
  intros (analysis & name & sc & Ha & Hn & Hsc & ->)%find_matches_spec H12.
  exists (rank t2 sc). split; [|split].
  - apply find_matches_spec. by exists analysis, name, sc.
  - rewrite (rank_higher t1 t2) by done. apply keeps_prefix, rank_sorted.
  - by apply rank_higher.
Qed.

(** X9: the returned list is a rearrangement of exactly the scored
    Matches that reach the threshold, one scoring per opportunity:
    nothing is added, lost or repeated, and the list is no longer than
    the list of opportunities. *)
Theorem returned_matches_are_the_kept_ones (w : env) (n : nat)
  (profile : pyobj) (opps : list Opportunity.t) (min_score : number)
  (ms : list Match.t) :
  find_matches_for_company w n profile opps min_score = Ok ms ->
  exists analysis name sc,
    analyze_company_profile w n profile = Ok analysis /\
    getattr profile "company_name" = Ok name /\
    score_each w (S n) analysis name opps = Ok sc /\
    length sc = length opps /\
    ms ≡ₚ filter (fun m => keeps min_score m = true) sc /\
    length ms <= length opps.
Proof.
  intros (analysis & name & sc & Ha & Hn & Hsc & ->)%find_matches_spec.
  exists analysis, name, sc.
  destruct (score_each_lookup _ _ _ _ _ _ Hsc) as [Hlen _].
  split; [done|]. split; [done|]. split; [done|]. split; [done|].
  assert (rank min_score sc ≡ₚ filter (fun m => keeps min_score m = true) sc) as Hp
    by apply sort_reverse_perm.
  split; [done|]. rewrite Hp, <- Hlen. apply length_filter.
Qed.


(** X11: the score of a reply whose [relevance_score] is NaN, [true]
    or a number that is at least 1 is exactly 1.0; [false], a zero of
    either sign or a negative number gives 0.0; a number strictly
    between 0 and 1 is kept as it is; whatever the number, the score is
    a float. *)
Theorem score_of_number (w : env) (n : nat) (analysis : pyval)
  (prompt s : string) (o : Opportunity.t) (kv : list (string * pyval))
  (raw : pyval) (x : number) (m : Match.t) :
  scoring_prompt w analysis o = Ok prompt ->
  oracle w n scoring_system prompt = Content (Some s) -> s <> "" ->
  json_loads w s = Ok (VDict kv) ->
  dict_lookup "relevance_score" kv = Some raw -> as_number raw = Some x ->
  score_opportunity_relevance w n analysis o = Ok m ->
  (is_nan x = true \/ ge x f1_0 = true -> Match.relevance_score m = f1_0) /\
  (ge f0_0 x = true -> Match.relevance_score m = f0_0) /\
  (gt x f0_0 = true -> lt x f1_0 = true -> Match.relevance_score m = x) /\
  (exists f, Match.relevance_score m = NFloat f) /\
  as_number (VFloat S754_nan) = Some (NFloat S754_nan) /\
  is_nan (NFloat S754_nan) = true /\
  (forall b, as_number (VBool b) = Some (NInt (Z.b2z b))) /\
  ge (NInt 1) f1_0 = true /\ ge f0_0 (NInt 0) = true /\
  ge f0_0 (NFloat (S754_zero true)) = true.
Proof.
  intros Hp Ho Hs Hj Hraw Hx Hm.
  rewrite (score_of_dict _ _ _ _ _ _ kv x Hp Ho Hs Hj) in Hm;
    [|unfold dict_get; by rewrite Hraw].
  simplify_eq. simpl.
  split; [|split; [|split; [|split; [apply clamp_float|by repeat split]]]].
  - intros Hhigh.
    destruct (clamp_cases x) as [[_ ->]|[(H1 & _)|(H1 & _)]]; [done|exfalso..];
      (destruct Hhigh as [Hn|Hg];
       [ unfold lt in H1;
         assert (compare x f1_0 = None) as Hc by (apply compare_nan; auto);
         by rewrite Hc in H1
       | by rewrite (ge_not_lt _ _ Hg) in H1 ]).
  - intros Hlow.
    assert (gt x f0_0 = false) as H0.
    { unfold gt, ge in *. rewrite (compare_antisym x f0_0) in Hlow.
      by destruct (compare x f0_0) as [[]|]. }
    destruct (clamp_cases x) as [[H1 _]|[(_ & _ & ->)|(_ & H0' & _)]];
      [|done|congruence].
    exfalso. unfold lt, ge in *.
    rewrite compare_f1_0 in H1. rewrite (compare_antisym x f0_0), compare_f0_0 in Hlow.
    destruct (value x) as [| |q|]; unfold ext_compare in *; simpl in Hlow; try done.
    destruct (q ?= 0)%Q eqn:E0; try done.
    + apply Qeq_alt in E0.
      assert (q < 1)%Q as E1 by (rewrite E0; done).
      by rewrite (proj1 (Qlt_alt q 1) E1) in H1.
    + assert (q < 1)%Q as E1 by (eapply Qlt_trans; [exact E0|done]).
      by rewrite (proj1 (Qlt_alt q 1) E1) in H1.
  - intros H0 H1. unfold clamp, min_1, max_0. by rewrite H1, H0.
Qed.

End RankFacts.


(** ** Completeness and imported profiles *)

Module ImportFacts.
Import NumFacts MatcherFacts AnalyzerFacts ProfileImport.

Lemma filter_all_length {A : Type} (P : A -> Prop) `{!forall a, Decision (P a)}
  (l : list A) :
  length (filter P l) = length l <-> Forall P l.
Proof.
  induction l as [|x l IH]; [done|].
  rewrite filter_cons. pose proof (length_filter P l) as Hle.
  destruct (decide (P x)) as [Hx|Hx]; simpl.
  - rewrite Forall_cons. split.
    + intros [= Hl]. split; [done|]. by apply IH.
    + intros [_ Hl]. f_equal. by apply IH.
  - split; [lia|]. by intros [? _]%Forall_cons.
Qed.

Lemma filter_none_length {A : Type} (P : A -> Prop) `{!forall a, Decision (P a)}
  (l : list A) :
  length (filter P l) = 0 <-> Forall (fun a => ~ P a) l.
Proof.
  induction l as [|x l IH]; [done|].
  rewrite filter_cons, Forall_cons. destruct (decide (P x)); simpl.
  - split; [done|]. by intros [? _].
  - rewrite IH. tauto.
Qed.

Lemma completed_fields_bound (responses : list (string * pyval)) :
  completed_fields responses <= 6.
Proof. apply (length_filter _ required_fields). Qed.

Lemma completeness_percent (responses : list (string * pyval)) :
  _calculate_completeness responses = percent (completed_fields responses).
Proof. reflexivity. Qed.

(** The fifteen [if]s count the keys of [data_fields] that have a
    value. *)
Lemma ticks_count (d : list (string * pyval)) (l : list string) (c : nat) :
  foldl (fun completed key => tick d key completed) c l =
  c + length (filter (fun key => has_value d key = true) l).
Proof.
  revert c. induction l as [|key l IH]; intros c; simpl; [lia|].
  rewrite IH, filter_cons. unfold tick.
  destruct (has_value d key); simpl.
  - destruct (decide (true = true)); [simpl; lia|done].
  - by destruct (decide (false = true)).
Qed.

Lemma completed_data_fields_count (d : list (string * pyval)) :
  completed_data_fields d =
  length (filter (fun key => has_value d key = true) data_fields).
Proof.
  change (completed_data_fields d)
    with (foldl (fun completed key => tick d key completed) 0 data_fields).
  by rewrite ticks_count.
Qed.

Lemma completed_data_fields_bound (d : list (string * pyval)) :
  completed_data_fields d <= 15.
Proof. rewrite completed_data_fields_count. apply (length_filter _ data_fields). Qed.

(** The values of [percent] and [fraction], checked one by one. *)
Lemma percent_table :
  forallb (fun i =>
    ge (NFloat (percent i)) f0_0 && ge (NFloat (float_of_nat 100)) (NFloat (percent i))
    && forallb (fun j => if (i <? j)%nat
                         then lt (NFloat (percent i)) (NFloat (percent j)) else true)
         (seq 0 7))
    (seq 0 7) = true.
Proof. by vm_compute. Qed.

Lemma fraction_table :
  forallb (fun i =>
    ge (NFloat (fraction i)) f0_0 && ge f1_0 (NFloat (fraction i))
    && forallb (fun j => if (i <? j)%nat
                         then lt (NFloat (fraction i)) (NFloat (fraction j)) else true)
         (seq 0 16)
    && forallb (fun j => lt (NFloat (fraction i)) (NFloat (percent (S j)))) (seq 0 6))
    (seq 0 16) = true.
Proof. by vm_compute. Qed.

Lemma percent_facts (i j : nat) :
  i <= 6 -> j <= 6 ->
  ge (NFloat (percent i)) f0_0 = true /\
  ge (NFloat (float_of_nat 100)) (NFloat (percent i)) = true /\
  (i < j -> lt (NFloat (percent i)) (NFloat (percent j)) = true).
Proof.
  intros Hi Hj. pose proof percent_table as H.
  rewrite forallb_forall in H. specialize (H i).
  destruct (andb_prop _ _ (H ltac:(apply in_seq; lia))) as [[H0 H100]%andb_prop Hm].
  split; [done|]. split; [done|]. intros Hij.
  rewrite forallb_forall in Hm. specialize (Hm j ltac:(apply in_seq; lia)).
  by rewrite (proj2 (Nat.ltb_lt i j) Hij) in Hm.
Qed.

Lemma fraction_facts (i j : nat) :
  i <= 15 -> j <= 15 ->
  ge (NFloat (fraction i)) f0_0 = true /\
  ge f1_0 (NFloat (fraction i)) = true /\
  (i < j -> lt (NFloat (fraction i)) (NFloat (fraction j)) = true) /\
  (forall k, 0 < k <= 6 -> lt (NFloat (fraction i)) (NFloat (percent k)) = true).
Proof.
  intros Hi Hj. pose proof fraction_table as H.
  rewrite forallb_forall in H. specialize (H i).
  destruct (andb_prop _ _ (H ltac:(apply in_seq; lia)))
    as [[[H0 H1]%andb_prop Hm]%andb_prop Hp].
  split; [done|]. split; [done|]. split.
  - intros Hij. rewrite forallb_forall in Hm.
    specialize (Hm j ltac:(apply in_seq; lia)).
    by rewrite (proj2 (Nat.ltb_lt i j) Hij) in Hm.
  - intros [|k] Hk; [lia|]. rewrite forallb_forall in Hp.
    apply Hp, in_seq. lia.
Qed.

Lemma lt_irrefl (x : number) : lt x x = false.
Proof.
  unfold lt. pose proof (compare_antisym x x) as H.
  by destruct (compare x x) as [[]|].
Qed.

(** X12: the completeness of wizard answers is a percentage between
    0.0 and 100.0; it is 100.0 exactly when each of the six required
    fields has a value, 0.0 exactly when none has, and grows strictly
    with the number of fields that have one. *)
Theorem wizard_completeness_percentage (responses responses' : list (string * pyval)) :
  ge (NFloat (_calculate_completeness responses)) f0_0 = true /\
  ge (NFloat (float_of_nat 100)) (NFloat (_calculate_completeness responses)) = true /\
  (_calculate_completeness responses = float_of_nat 100 <->
   forall field, field ∈ required_fields -> has_value responses field = true) /\
  (_calculate_completeness responses = S754_zero false <->
   forall field, field ∈ required_fields -> has_value responses field = false) /\
  (completed_fields responses' < completed_fields responses ->
   lt (NFloat (_calculate_completeness responses'))
      (NFloat (_calculate_completeness responses)) = true).
Proof.
  rewrite !completeness_percent.
  pose proof (completed_fields_bound responses) as Hb.
  pose proof (completed_fields_bound responses') as Hb'.
  destruct (percent_facts (completed_fields responses) 6 Hb ltac:(lia))
    as (H0 & H100 & Hlt6).
  destruct (percent_facts 0 (completed_fields responses) ltac:(lia) Hb)
    as (_ & _ & Hlt0).
  split; [done|]. split; [done|]. split; [|split].
  - rewrite <- Forall_forall.
    rewrite <- (filter_all_length (fun field => has_value responses field = true)).
    fold (completed_fields responses). change (length required_fields) with 6.
    split; [|by intros ->].
    intros Heq. destruct (decide (completed_fields responses = 6)) as [|Hne]; [done|].
    specialize (Hlt6 ltac:(lia)). rewrite Heq in Hlt6.
    change (percent 6) with (float_of_nat 100) in Hlt6. by rewrite lt_irrefl in Hlt6.
  - transitivity (completed_fields responses = 0).
    + split; [|by intros ->].
      intros Heq. destruct (decide (completed_fields responses = 0)) as [|Hne]; [done|].
      specialize (Hlt0 ltac:(lia)). rewrite Heq in Hlt0. done.
    + unfold completed_fields. rewrite filter_none_length, Forall_forall.
      split; intros H field Hin; specialize (H field Hin);
        by destruct (has_value responses field).
  - intros Hlt.
    by apply (percent_facts (completed_fields responses') (completed_fields responses)).
Qed.

(** X13: the completeness of imported data is a fraction between 0.0
    and 1.0; it is 1.0 exactly when each of the fifteen keys looked at
    has a value, and grows strictly with the number of keys that have
    one. *)
Theorem data_completeness_fraction (d d' : list (string * pyval)) :
  ge (NFloat (_calculate_completeness_from_data d)) f0_0 = true /\
  ge f1_0 (NFloat (_calculate_completeness_from_data d)) = true /\
  (_calculate_completeness_from_data d = float_of_nat 1 <->
   forall key, key ∈ data_fields -> has_value d key = true) /\
  (completed_data_fields d' < completed_data_fields d ->
   lt (NFloat (_calculate_completeness_from_data d'))
      (NFloat (_calculate_completeness_from_data d)) = true).
Proof.
  change (_calculate_completeness_from_data d) with (fraction (completed_data_fields d)).
  change (_calculate_completeness_from_data d') with (fraction (completed_data_fields d')).
  pose proof (completed_data_fields_bound d) as Hb.
  pose proof (completed_data_fields_bound d') as Hb'.
  destruct (fraction_facts (completed_data_fields d) 15 Hb ltac:(lia))
    as (H0 & H1 & Hlt15 & _).
  split; [done|]. split; [done|]. split.
  - rewrite <- Forall_forall.
    rewrite <- (filter_all_length (fun key => has_value d key = true)).
    rewrite <- completed_data_fields_count. change (length data_fields) with 15.
    split; [|by intros ->].
    intros Heq. destruct (decide (completed_data_fields d = 15)) as [|Hne]; [done|].
    specialize (Hlt15 ltac:(lia)). rewrite Heq in Hlt15.
    change (fraction 15) with (float_of_nat 1) in Hlt15. by rewrite lt_irrefl in Hlt15.
  - intros Hlt.
    by apply (fraction_facts (completed_data_fields d') (completed_data_fields d)).
Qed.

(** X14: the two computations fill the same field in different units:
    the completeness of wizard answers with at least one required field
    is greater than the completeness of any imported data, complete or
    not. *)
Theorem completeness_units_differ (responses d : list (string * pyval))
  (field : string) :
  field ∈ required_fields -> has_value responses field = true ->
  lt (NFloat (_calculate_completeness_from_data d))
     (NFloat (_calculate_completeness responses)) = true.
Proof.
  intros Hin Hv.
  change (_calculate_completeness_from_data d) with (fraction (completed_data_fields d)).
  rewrite completeness_percent.
  pose proof (completed_data_fields_bound d) as Hb.
  pose proof (completed_fields_bound responses) as Hb'.
  apply (fraction_facts (completed_data_fields d) 0 Hb ltac:(lia)).
  split; [|done].
  assert (completed_fields responses <> 0); [|lia].
  unfold completed_fields. rewrite filter_none_length, Forall_forall.
  intros H. by apply (H field Hin).
Qed.

End ImportFacts.

(** The profile that [create_profile_from_data] returns. *)

Module ImportedProfileFacts.
Import NumFacts MatcherFacts AnalyzerFacts ProfileImport ImportFacts.

Lemma to_object_is_BusinessProfile (p : BusinessProfile.t) :
  is_BusinessProfile (BusinessProfile.to_object p).
Proof.
  split; [done|]. intros name. unfold BusinessProfile.to_object.
  cbn [attrs]. rewrite <- elem_of_dom, dom_list_to_map_L, elem_of_list_to_set.
  reflexivity.
Qed.

Lemma label_get_Ok {A : Type} (m : list (string * A)) (key : pyval) (dflt : A) :
  hashable key = true -> exists x, label_get m key dflt = Ok x.
Proof. destruct key; simpl; intros; try done; eauto. Qed.

Lemma label_get_Raise {A : Type} (m : list (string * A)) (key : pyval) (dflt : A) :
  hashable key = false ->
  label_get m key dflt = Raise (TypeError ("unhashable type: '" +:+ type_name key +:+ "'")).
Proof. by destruct key. Qed.

Lemma label_get_range {A : Type} (m : list (string * A)) (key : pyval) (dflt x : A) :
  label_get m key dflt = Ok x -> x = dflt \/ x ∈ map snd m.
Proof.
  destruct key; simpl; intros; simplify_eq; auto.
  destruct (List.find _ m) as [kv|] eqn:Hf; [|by left].
  right. apply find_some in Hf as [Hin _].
  apply list_elem_of_fmap. exists kv. split; [done|]. by apply list_elem_of_In.
Qed.

Lemma label_get_unknown {A : Type} (m : list (string * A)) (key : pyval) (dflt x : A) :
  label_get m key dflt = Ok x ->
  (forall label, key = VStr label -> label ∉ map fst m) -> x = dflt.
Proof.
  destruct key as [| | | |label| |]; cbn [label_get]; intros Hx Hunknown;
    simplify_eq; try done.
  destruct (List.find _ m) as [kv|] eqn:Hfind; [|done].
  apply find_some in Hfind as [Hin Heq]. apply String.eqb_eq in Heq.
  destruct (Hunknown label eq_refl). subst label.
  apply list_elem_of_fmap. exists kv. split; [done|]. by apply list_elem_of_In.
Qed.

(** X15: [create_profile_from_data] returns a profile for every
    dictionary, unless the value under [business_size] or
    [market_focus] is a list or a dict, which cannot be hashed; a label
    that is not a key of the tables, or not a string, silently gives
    SMALL or NATIONAL, and no imported profile has the focus GLOBAL.
    The completeness it stores is a fraction between 0.0 and 1.0. *)
Theorem import_accepts_unknown_labels (created updated : string)
  (d : list (string * pyval)) :
  let size := dict_get d "business_size" (VStr "small") in
  let focus := dict_get d "market_focus" (VStr "national") in
  ((exists p, create_profile_from_data created updated d = Ok p) <->
   hashable size = true /\ hashable focus = true) /\
  (forall p, create_profile_from_data created updated d = Ok p ->
     BusinessProfile.market_focus p <> GLOBAL /\
     ((forall label, size = VStr label -> label ∉ map fst business_size_map) ->
      BusinessProfile.business_size p = SMALL) /\
     ((forall label, focus = VStr label -> label ∉ map fst market_focus_map) ->
      BusinessProfile.market_focus p = NATIONAL) /\
     ge (NFloat (BusinessProfile.profile_completeness p)) f0_0 = true /\
     ge f1_0 (NFloat (BusinessProfile.profile_completeness p)) = true).
Proof.
  intros size focus. unfold create_profile_from_data. fold size focus. split.
  - split.
    + intros [p (bs & Hbs & (mf & Hmf & _)%bind_Ok)%bind_Ok].
      destruct (hashable size) eqn:Hs;
        [|by rewrite (label_get_Raise _ _ _ Hs) in Hbs].
      destruct (hashable focus) eqn:Hf;
        [done|by rewrite (label_get_Raise _ _ _ Hf) in Hmf].
    + intros [Hs Hf].
      destruct (label_get_Ok business_size_map size SMALL Hs) as [bs ->].
      destruct (label_get_Ok market_focus_map focus NATIONAL Hf) as [mf ->].
      simpl. eauto.
  - intros p (bs & Hbs & (mf & Hmf & [= <-])%bind_Ok)%bind_Ok. simpl.
    split; [|split; [|split]].
    + apply label_get_range in Hmf as [->|Hin]; [done|].
      intros ->. apply list_elem_of_In in Hin. simpl in Hin.
      intuition congruence.
    + intros Hunknown. by apply (label_get_unknown _ _ _ _ Hbs).
    + intros Hunknown. by apply (label_get_unknown _ _ _ _ Hmf).
    + pose proof (fraction_facts (completed_data_fields d) 15
                    (completed_data_fields_bound d) ltac:(lia)) as (H0 & H1 & _).
      split; [exact H0|exact H1].
Qed.

(** X16: every instance of the [BusinessProfile] dataclass, so each
    profile that [create_profile_from_data] returns, lacks the
    attribute [business_type]: given to the matcher, it makes
    [analyze_company_profile] and [find_matches_for_company] raise an
    [AttributeError], whatever the oracle would answer. *)
Theorem dataclass_profile_fails_matching (p : BusinessProfile.t) :
  is_BusinessProfile (BusinessProfile.to_object p) /\
  (forall (w : env) (n : nat),
     analyze_company_profile w n (BusinessProfile.to_object p) =
     Raise (AttributeError "'BusinessProfile' object has no attribute 'business_type'")) /\
  (forall (w : env) (n : nat) (opps : list Opportunity.t) (min_score : number),
     find_matches_for_company w n (BusinessProfile.to_object p) opps min_score =
     Raise (AttributeError "'BusinessProfile' object has no attribute 'business_type'")).
Proof.
  pose proof (to_object_is_BusinessProfile p) as Hbp.
  split; [done|]. split.
  - intros w n. by apply analyze_BusinessProfile.
  - intros w n opps min_score. unfold find_matches_for_company.
    by rewrite analyze_BusinessProfile.
Qed.

End ImportedProfileFacts.

(** ** The opportunity digest *)

Module CampaignFacts.
Import NumFacts SortFacts MatcherFacts ScorerFacts PromptFacts.
Import CampaignManager CampaignDigest.

Local Opaque digest_header digest_block digest_footer.

Lemma append_empty (s : string) : s +:+ "" = s.
Proof. induction s as [|x s IH]; [done|]. by rewrite append_cons, IH. Qed.

Lemma concat_blocks (x : string) (l : list string) :
  String.concat "" (x :: l) = x +:+ String.concat "" l.
Proof. destruct l; [|done]. cbn [String.concat]. by rewrite append_empty. Qed.

(** *** The badge colour *)

Lemma color_cases (score : number) :
  (ge score f0_9 = true /\ _get_score_color score = "#27ae60") \/
  (ge score f0_9 = false /\ ge score f0_8 = true /\
   _get_score_color score = "#f39c12") \/
  (ge score f0_8 = false /\ ge score f0_7 = true /\
   _get_score_color score = "#3498db") \/
  (ge score f0_7 = false /\ _get_score_color score = "#95a5a6").
Proof.
  unfold _get_score_color.
  destruct (ge score f0_9) eqn:H9; [by left|].
  destruct (ge score f0_8) eqn:H8; [by right; left|].
  destruct (ge score f0_7) eqn:H7; [by right; right; left|].
  by right; right; right.
Qed.

Lemma thresholds_ordered : ge f0_9 f0_8 = true /\ ge f0_8 f0_7 = true.
Proof. by vm_compute. Qed.

(** X7: the badge colour grows with the score: of two scores the
    greater never gets the lower of the grades gray, blue, orange,
    green. *)
Theorem score_color_monotone (a b : number) :
  ge a b = true -> grade (_get_score_color b) <= grade (_get_score_color a).
Proof.
  intros Hab. destruct thresholds_ordered as [H98 H87].
  assert (forall t, ge b t = true -> ge a t = true) as Hup
    by (intros t; by apply ge_trans).
  destruct (color_cases b) as [[Hb ->]|[(_ & Hb & ->)|[(_ & Hb & ->)|[_ ->]]]];
    destruct (color_cases a) as [[Ha ->]|[(Ha' & Ha & ->)|[(Ha' & Ha & ->)|[Ha' ->]]]];
    try (vm_compute; lia);
    try (apply Hup in Hb);
    try (pose proof (ge_trans _ _ _ Hb H98));
    try (pose proof (ge_trans _ _ _ Hb H87));
    try (pose proof (ge_trans _ _ _ (ge_trans _ _ _ Hb H98) H87));
    congruence.
Qed.

(** X17: a Match counts as a high-relevance match in the summary
    exactly when its badge is green or orange, and a score that is not
    a number gets the gray badge. *)
Theorem high_relevance_badge (m : Match.t) :
  (high_relevance m = true <->
   _get_score_color (Match.relevance_score m) = "#27ae60" \/
   _get_score_color (Match.relevance_score m) = "#f39c12") /\
  (is_nan (Match.relevance_score m) = true ->
   high_relevance m = false /\
   _get_score_color (Match.relevance_score m) = "#95a5a6").
Proof.
  unfold high_relevance. destruct thresholds_ordered as [H98 H87]. split.
  - destruct (color_cases (Match.relevance_score m))
      as [[H ->]|[(_ & H & ->)|[(H & _ & ->)|[H ->]]]].
    + rewrite (ge_trans _ _ _ H H98). split; auto.
    + rewrite H. split; auto.
    + rewrite H. split; [done|]. by intros [|].
    + split; [|by intros [|]]. intros H8.
      by rewrite (ge_trans _ _ _ H8 H87) in H.
  - intros Hnan.
    assert (forall t, ge (Match.relevance_score m) t = false) as Hno.
    { intros t. destruct (ge _ t) eqn:Hge; [|done].
      apply ge_not_nan in Hge as [? _]. congruence. }
    split; [apply Hno|]. unfold _get_score_color. by rewrite !Hno.
Qed.

(** *** The five Matches of the digest *)

Lemma sorted_app_inv {A : Type} (R : A -> A -> Prop) (l1 l2 : list A) :
  StronglySorted R (l1 ++ l2)%list ->
  StronglySorted R l1 /\
  forall a b, a ∈ l1 -> b ∈ l2 -> R a b.
Proof.
  induction l1 as [|x l1 IH]; simpl; intros Hs.
  - split; [constructor|]. intros a b Ha. by apply elem_of_nil in Ha.
  - apply StronglySorted_inv in Hs as [Hs Hx]. destruct (IH Hs) as [Hs1 Hab].
    apply Forall_app in Hx as [Hx1 Hx2]. split; [by constructor|].
    intros a b [->|Ha]%elem_of_cons Hb.
    + by eapply Forall_forall in Hx2.
    + by apply Hab.
Qed.

(** X18: the digest lists the best five: the Matches it takes are
    five of the given ones, or all when there are fewer, in descending
    order of score, and none of those left out has a greater score than
    one taken. *)
Theorem digest_takes_best_five (matches : list Match.t) :
  Forall (fun m => is_nan (Match.relevance_score m) = false) matches ->
  exists rest,
    (top_five matches ++ rest)%list ≡ₚ matches /\
    length (top_five matches) = min 5 (length matches) /\
    StronglySorted (descending Match.relevance_score) (top_five matches) /\
    forall a b, a ∈ top_five matches -> b ∈ rest ->
      ge (Match.relevance_score a) (Match.relevance_score b) = true.
Proof.
  intros Hnan. exists (drop 5 (sort_reverse Match.relevance_score matches)).
  unfold top_five.
  pose proof (sort_reverse_sorted Match.relevance_score matches Hnan) as Hs.
  rewrite <- (take_drop 5 (sort_reverse Match.relevance_score matches)) in Hs.
  apply sorted_app_inv in Hs as [Hs Hab].
  split; [by rewrite take_drop, sort_reverse_perm|].
  split; [by rewrite length_take, (Permutation_length (sort_reverse_perm _ matches))|].
  split; [done|]. apply Hab.
Qed.

(** *** The blocks *)

Lemma reasoning_preview_sliceable (c : campaign_env) (r : pyval) :
  sliceable r -> reasoning_preview c r = Ok (preview_text c r).
Proof. by destruct r. Qed.

Lemma reasoning_preview_unsliceable (c : campaign_env) (r : pyval) :
  ~ sliceable r -> exists e, reasoning_preview c r = Raise e.
Proof. destruct r; simpl; intros; try done; eauto. Qed.

Lemma score_percent_formattable (c : campaign_env) (score : number) :
  formattable score -> score_percent c score = Ok (format_percent c score).
Proof. destruct score as [z|f]; simpl; [|done]. by intros ->. Qed.

Lemma score_percent_unformattable (c : campaign_env) (score : number) :
  ~ formattable score -> exists e, score_percent c score = Raise e.
Proof.
  destruct score as [z|f]; simpl; [|done].
  destruct (int_too_large z); [eauto|done].
Qed.

Lemma renders_dec (m : Match.t) : renders m \/ ~ renders m.
Proof.
  unfold renders, formattable, sliceable.
  destruct (Match.relevance_score m) as [z|f]; [destruct (int_too_large z)|];
    destruct (Match.reasoning m);
    first [left; by split | right; by intros [? ?]].
Qed.

Lemma shown_cons (opportunities : gmap string Opportunity.t) (m : Match.t)
  (rest : list Match.t) :
  shown opportunities (m :: rest) =
  match opportunities !! Match.opportunity_id m with
  | Some o => (m, o) :: shown opportunities rest
  | None => shown opportunities rest
  end.
Proof.
  unfold shown. cbn [omap list_omap].
  by destruct (opportunities !! Match.opportunity_id m).
Qed.

(** The loop either appends the blocks of the Matches shown, or raises
    at the first of them whose score cannot be formatted or whose
    reasoning cannot be sliced. *)
Lemma digest_loop_cases (c : campaign_env) (opportunities : gmap string Opportunity.t)
  (top : list Match.t) :
  forall html,
    (Forall (fun mo => renders mo.1) (shown opportunities top) /\
     digest_loop c opportunities top html =
     Ok (html +:+ String.concat "" (map (block_of c) (shown opportunities top)))) \/
    (~ Forall (fun mo => renders mo.1) (shown opportunities top) /\
     exists e, digest_loop c opportunities top html = Raise e).
Proof.
  induction top as [|m rest IH]; intros html.
  - left. split; [constructor|]. cbn. by rewrite append_empty.
  - rewrite shown_cons. cbn [digest_loop].
    destruct (opportunities !! Match.opportunity_id m) as [o|]; [|apply IH].
    destruct (renders_dec m) as [[Hf Hr]|Hno].
    + rewrite (score_percent_formattable c _ Hf). cbn [bind].
      rewrite (reasoning_preview_sliceable c _ Hr). cbn [bind].
      match goal with |- context [digest_loop _ _ _ ?h] =>
        destruct (IH h) as [[Hall ->]|[Hno [e ->]]] end.
      * left. split; [by constructor|].
        cbn [map]. rewrite concat_blocks, append_assoc. reflexivity.
      * right. split; [|eauto]. intros Hall. apply Hno.
        by apply Forall_cons in Hall as [_ ?].
    + right. split; [by intros [? _]%Forall_cons|].
      assert (formattable (Match.relevance_score m) \/
              ~ formattable (Match.relevance_score m)) as [Hf|Hf].
      { unfold formattable. destruct (Match.relevance_score m) as [z|f]; [|tauto].
        destruct (int_too_large z); [right|left]; done. }
      * rewrite (score_percent_formattable c _ Hf). cbn [bind].
        destruct (reasoning_preview_unsliceable c (Match.reasoning m)) as [e ->];
          [|simpl; eauto].
        intros Hr. apply Hno. by split.
      * destruct (score_percent_unformattable c _ Hf) as [e ->]. simpl. eauto.
Qed.

Lemma shown_elem (opportunities : gmap string Opportunity.t) (top : list Match.t)
  (m : Match.t) (o : Opportunity.t) :
  (m, o) ∈ shown opportunities top <->
  m ∈ top /\ opportunities !! Match.opportunity_id m = Some o.
Proof.
  unfold shown. rewrite list_elem_of_omap. split.
  - intros (m' & Hin & Hm).
    destruct (opportunities !! Match.opportunity_id m') as [o'|] eqn:Ho; [|done].
    simpl in Hm. by simplify_eq.
  - intros [Hin Ho]. exists m. split; [done|]. by rewrite Ho.
Qed.

Lemma shown_sublist (opportunities : gmap string Opportunity.t) (top : list Match.t) :
  (shown opportunities top).*1 `sublist_of` top.
Proof.
  induction top as [|m rest IH]; [done|]. rewrite shown_cons.
  destruct (opportunities !! Match.opportunity_id m).
  - by apply sublist_skip.
  - by apply sublist_cons.
Qed.

Lemma shown_all (opportunities : gmap string Opportunity.t) (top : list Match.t) :
  length (shown opportunities top) = length top <->
  forall m, m ∈ top -> is_Some (opportunities !! Match.opportunity_id m).
Proof.
  induction top as [|m rest IH].
  - split; [|done]. intros _ m Hm. by apply elem_of_nil in Hm.
  - rewrite shown_cons.
    pose proof (sublist_length _ _ (shown_sublist opportunities rest)) as Hle.
    rewrite length_fmap in Hle.
    destruct (opportunities !! Match.opportunity_id m) as [o|] eqn:Ho; simpl.
    + split.
      * intros Hlen m' [->|Hin]%elem_of_cons; [by rewrite Ho|].
        apply IH; [lia|done].
      * intros Hall. f_equal. apply IH. intros m' Hin. apply Hall. by right.
    + split; [lia|]. intros Hall.
      destruct (Hall m) as [o Ho']; [by left|]. congruence.
Qed.

(** X19: what the digest is made of. For a list of Matches that is
    not empty, with no NaN for a score, and a profile with a company
    name and an industry, the digest is returned exactly when every
    Match shown has a score that can be formatted (a float, or an int
    that converts to one) and a reasoning that is a text or a list; it
    is then the header, one block for each of the top five Matches
    whose opportunity the catalogue holds, in their order, and the
    footer; the header counts the top Matches, shown or not. *)
Theorem digest_contents (c : campaign_env) (profile : pyobj)
  (matches : list Match.t) (opportunities : gmap string Opportunity.t)
  (name industry : pyval) :
  matches <> [] ->
  Forall (fun m => is_nan (Match.relevance_score m) = false) matches ->
  getattr profile "company_name" = Ok name ->
  getattr profile "industry" = Ok industry ->
  let top := top_five matches in
  let blocks := shown opportunities top in
  let written := Forall (fun mo => renders mo.1) blocks in
  ((exists html, create_opportunity_digest c profile matches opportunities = Ok html) <->
   written) /\
  (written ->
   create_opportunity_digest c profile matches opportunities =
   Ok (digest_header (py_format (base c) name) (pretty (length top)) +:+
       String.concat "" (map (block_of c) blocks) +:+
       digest_footer (pretty (length matches))
         (pretty (length (filter (fun m => high_relevance m = true) matches)))
         (py_format (base c) industry) (today c)) /\
   send_opportunity_campaign c profile matches opportunities = Ok true) /\
  blocks.*1 `sublist_of` top /\
  (forall m o, (m, o) ∈ blocks <->
     m ∈ top /\ opportunities !! Match.opportunity_id m = Some o) /\
  (length blocks = length top <->
   forall m, m ∈ top -> is_Some (opportunities !! Match.opportunity_id m)).
Proof.
  intros Hne _ Hname Hind top blocks written.
  assert (create_opportunity_digest c profile matches opportunities =
          (html <- digest_loop c opportunities top
                     (digest_header (py_format (base c) name) (pretty (length top))) ;;
           Ok (html +:+
               digest_footer (pretty (length matches))
                 (pretty (length (filter (fun m => high_relevance m = true) matches)))
                 (py_format (base c) industry) (today c)))) as Hdigest.
  { unfold create_opportunity_digest. destruct matches as [|m ms]; [done|].
    fold top. rewrite Hname. cbn [bind].
    destruct (digest_loop _ _ _ _); [|done]. cbn [bind]. by rewrite Hind. }
  unfold send_opportunity_campaign. rewrite Hdigest.
  split; [|split; [|split; [|split]]].
  - destruct (digest_loop_cases c opportunities top
                (digest_header (py_format (base c) name) (pretty (length top))))
      as [[Hall ->]|[Hno [e ->]]]; simpl.
    + split; [done|eauto].
    + split; [by intros [? ?]|done].
  - intros Hall.
    destruct (digest_loop_cases c opportunities top
                (digest_header (py_format (base c) name) (pretty (length top))))
      as [[_ ->]|[Hno _]]; [|done].
    cbn [bind]. by rewrite append_assoc.
  - apply shown_sublist.
  - apply shown_elem.
  - apply shown_all.
Qed.

(** *** The digest of what the matcher returns *)

(** X20: on a list that [find_matches_for_company] returned, the
    digest takes the first five as they stand; when the threshold was
    at least 0.7 none of the badges is gray, and when it was at least
    0.8 the summary counts every Match as a high-relevance match. *)
Theorem digest_of_returned_matches (w : env) (n : nat) (profile : pyobj)
  (opps : list Opportunity.t) (min_score : number) (ms : list Match.t) :
  find_matches_for_company w n profile opps min_score = Ok ms ->
  top_five ms = take 5 ms /\
  (ge min_score f0_7 = true ->
   forall m, m ∈ ms -> _get_score_color (Match.relevance_score m) <> "#95a5a6") /\
  (ge min_score f0_8 = true ->
   filter (fun m => high_relevance m = true) ms = ms).
Proof.
  intros (analysis & name & sc & _ & _ & _ & ->)%find_matches_spec.
  split; [|split].
  - unfold top_five. by rewrite (sort_reverse_id _ _ (rank_sorted min_score sc)).
  - intros Hmin m [_ Hk]%rank_elem. unfold keeps in Hk.
    pose proof (ge_trans _ _ _ Hk Hmin) as H7.
    destruct (color_cases (Match.relevance_score m))
      as [[_ ->]|[(_ & _ & ->)|[(_ & _ & ->)|[H _]]]]; try done.
    congruence.
  - intros Hmin.
    assert (Forall (fun m => high_relevance m = true) (rank min_score sc)) as Hall.
    { apply Forall_forall. intros m [_ Hk]%rank_elem. unfold keeps in Hk.
      unfold high_relevance. by eapply ge_trans. }
    induction Hall as [|m l Hm _ IH]; [done|].
    rewrite filter_cons. destruct (decide _); [|done]. by f_equal.
Qed.

(** X21: when the analysis is a dict, every scoring call to the oracle
    raises and the threshold is above 0.0, [find_matches_for_company]
    returns the empty list, and the campaign for that list raises an
    [AttributeError]: the digest calls a method that the class does not
    define. *)
Theorem campaign_without_matches_raises (c : campaign_env) (w : env) (n : nat)
  (profile : pyobj) (opps : list Opportunity.t) (min_score : number)
  (kv : list (string * pyval)) (catalogue : gmap string Opportunity.t) :
  analyze_company_profile w n profile = Ok (VDict kv) ->
  ge f0_0 min_score = false ->
  (forall i o prompt, opps !! i = Some o ->
     scoring_prompt w (VDict kv) o = Ok prompt ->
     exists e, oracle w (S n + i) scoring_system prompt = Raises e) ->
  find_matches_for_company w n profile opps min_score = Ok [] /\
  create_opportunity_digest c profile [] catalogue = Raise no_opportunities_email /\
  send_opportunity_campaign c profile [] catalogue = Raise no_opportunities_email.
Proof.
  intros Ha Hmin Hfail. split; [|done].
  destruct (analyze_company_name _ _ _ _ Ha) as [name Hn].
  destruct (score_each_total w kv name opps (S n)) as [sc Hsc].
  apply find_matches_spec. exists (VDict kv), name, sc.
  split; [done|]. split; [done|]. split; [done|].
  unfold rank.
  assert (filter (fun m => keeps min_score m = true) sc = []) as ->; [|done].
  apply RankFacts.filter_none. apply Forall_forall. intros m Hm.
  destruct (score_each_elem _ _ _ _ _ _ _ Hsc Hm) as (i & o & m0 & Ho & Hm0 & ->).
  destruct (score_inv _ _ _ _ _ Hm0) as (prompt & Hp & Hcases).
  destruct (Hfail i o prompt Ho Hp) as [e He].
  assert (scoring_attempt w (S n + i) prompt o = Raise e) as Hraise
    by (unfold scoring_attempt; by rewrite He).
  destruct Hcases as [Hok|(e' & _ & ->)]; [congruence|].
  unfold keeps. simpl. by rewrite Hmin.
Qed.

End CampaignFacts.

(** ** Runs of the profile manager and the campaign *)

Module SampleRuns.
Import Example Sample.
Import BusinessProfileManager ProfileImport CampaignManager CampaignDigest.

Ltac decided := apply (bool_decide_unpack _); by vm_compute.

Example parse_run :
  _parse_list_input " saas , ,retail tools," = ["saas"; "retail tools"].
Proof. by vm_compute. Qed.

Example profile_path_run :
  profile_path "Acme, Inc" = "data/profiles/acme_inc_profile.json".
Proof. by vm_compute. Qed.

Example imported_empty_run :
  (p <- create_profile_from_data "2024-01-01T00:00:00" "2024-01-01T00:00:00" [] ;;
   Ok (BusinessProfile.to_object p)) =
  Ok business_profile.
Proof. by vm_compute. Qed.

Example digest_seven_run :
  (shown catalogue (top_five seven)).*1 =
  [ scored "Z" v0_9 "strong fit" 2; scored "Y" v0_8 "good fit" 3 ].
Proof. by vm_compute. Qed.

(** The score is formatted before the reasoning is sliced. *)
Example oversized_run :
  create_opportunity_digest campaign company [oversized] catalogue =
  Raise (OverflowError "int too large to convert to float").
Proof. by vm_compute. Qed.

Example unsliceable_run :
  create_opportunity_digest campaign company
    [ {| Match.company_id := VStr "Acme";
         Match.opportunity_id := "Z";
         Match.relevance_score := NInt 1;
         Match.reasoning := VNone;
         Match.match_status := "pending";
         Match.created_at := None |} ] catalogue =
  Raise (TypeError "'NoneType' object is not subscriptable").
Proof. by vm_compute. Qed.

Lemma X1_witness :
  "retail tools" ∈ _parse_list_input " saas , ,retail tools," /\
  "retail tools" <> "" /\ Str.strip "retail tools" = "retail tools" /\
  ","%char ∉ Str.to_list "retail tools".
Proof.
  assert ("retail tools" ∈ _parse_list_input " saas , ,retail tools,") as H
    by decided.
  split; [exact H|].
  exact (ProfileFacts.parsed_items_clean " saas , ,retail tools," "retail tools" H).
Defined.

Lemma X2_witness :
  Forall (fun item => item <> "" /\ Str.strip item = item /\
                      ","%char ∉ Str.to_list item) ["saas"; "retail tools"] /\
  _parse_list_input (String.concat ", " ["saas"; "retail tools"]) =
  ["saas"; "retail tools"].
Proof.
  assert (Forall (fun item => item <> "" /\ Str.strip item = item /\
                              ","%char ∉ Str.to_list item) ["saas"; "retail tools"])
    as H by decided.
  split; [exact H|].
  exact (ProfileFacts.parse_join_round_trip ["saas"; "retail tools"] H).
Defined.

Lemma X4_witness :
  Str.is_ascii "Acme, Inc" = true /\
  "_"%char ∈ Str.to_list (profile_id "Acme, Inc") /\
  "_"%char <> " "%char /\ "_"%char <> ","%char /\
  Str.is_capital "_" = false /\ Str.is_ascii_char "_" = true.
Proof.
  assert (Str.is_ascii "Acme, Inc" = true) as Ha by reflexivity.
  assert ("_"%char ∈ Str.to_list (profile_id "Acme, Inc")) as H by decided.
  split; [exact Ha|]. split; [exact H|].
  exact (ProfileFacts.profile_id_characters "Acme, Inc" "_" Ha H).
Defined.

Lemma X5_witness :
  Str.is_ascii "Acme, Inc" = true /\
  profile_id "Acme, Inc" = "acme_inc" /\
  profile_id "ACME INC" = "acme_inc" /\
  profile_path "ACME INC" = profile_path "Acme, Inc".
Proof.
  assert (Str.is_ascii "Acme, Inc" = true) as Ha by reflexivity.
  split; [exact Ha|]. split; [reflexivity|]. split; [reflexivity|].
  destruct (ProfileFacts.profile_id_collisions "Acme, Inc" Ha)
    as (_ & _ & _ & _ & _ & Hsame).
  exact (Hsame "ACME INC" eq_refl eq_refl).
Defined.

Lemma X6_witness :
  Str.is_ascii "../up" = true /\
  Forall (fun c => c <> " "%char /\ c <> ","%char /\ Str.is_capital c = false)
    (Str.to_list "../up") /\
  profile_id "../up" = "../up" /\
  profile_path "../up" = "data/profiles/../up_profile.json".
Proof.
  assert (Str.is_ascii "../up" = true) as Ha by reflexivity.
  assert (Forall (fun c => c <> " "%char /\ c <> ","%char /\
                           Str.is_capital c = false)
            (Str.to_list "../up")) as H by decided.
  split; [exact Ha|]. split; [exact H|].
  destruct (ProfileFacts.profile_path_unsanitised "../up" Ha H) as (Hid & _ & Hrel).
  split; [exact Hid|]. exact (Hrel eq_refl).
Defined.

Lemma X7_witness :
  ge (NFloat v0_9) (NFloat v0_75) = true /\
  grade (_get_score_color (NFloat v0_75)) <= grade (_get_score_color (NFloat v0_9)).
Proof.
  assert (ge (NFloat v0_9) (NFloat v0_75) = true) as H by (by vm_compute).
  split; [exact H|].
  exact (CampaignFacts.score_color_monotone (NFloat v0_9) (NFloat v0_75) H).
Defined.

Lemma X8_witness :
  find_matches_for_company isolation 0 company [X; Y; Z'] default_min_score
    = Ok ranked /\
  ge (NFloat v0_9) default_min_score = true /\
  exists l2,
    find_matches_for_company isolation 0 company [X; Y; Z'] (NFloat v0_9) = Ok l2 /\
    l2 `prefix_of` ranked.
Proof.
  assert (find_matches_for_company isolation 0 company [X; Y; Z'] default_min_score
          = Ok ranked) as H by (by vm_compute).
  assert (ge (NFloat v0_9) default_min_score = true) as Hge by (by vm_compute).
  split; [exact H|]. split; [exact Hge|].
  destruct (RankFacts.higher_threshold_prefix isolation 0 company [X; Y; Z']
              default_min_score (NFloat v0_9) ranked H Hge) as (l2 & Hl2 & Hpre & _).
  exists l2. split; [exact Hl2|exact Hpre].
Defined.

Lemma X9_witness :
  find_matches_for_company isolation 0 company [X; Y; Z'] default_min_score
    = Ok ranked /\
  length ranked <= length [X; Y; Z'].
Proof.
  assert (find_matches_for_company isolation 0 company [X; Y; Z'] default_min_score
          = Ok ranked) as H by (by vm_compute).
  split; [exact H|].
  destruct (RankFacts.returned_matches_are_the_kept_ones isolation 0 company
              [X; Y; Z'] default_min_score ranked H)
    as (analysis & name & sc & _ & _ & _ & _ & _ & Hlen).
  exact Hlen.
Defined.


Lemma X11_witness :
  scoring_prompt overrating analysis_value X = Ok X_prompt /\
  oracle overrating 0 scoring_system X_prompt =
    Content (Some (score_text "1.5" "overrated")) /\
  score_opportunity_relevance overrating 0 analysis_value X = Ok overrated /\
  Match.relevance_score overrated = f1_0.
Proof.
  assert (scoring_prompt overrating analysis_value X = Ok X_prompt)
    as Hp by (by vm_compute).
  assert (oracle overrating 0 scoring_system X_prompt =
          Content (Some (score_text "1.5" "overrated"))) as Ho by reflexivity.
  assert (score_text "1.5" "overrated" <> "") as Hne by decided.
  assert (json_loads overrating (score_text "1.5" "overrated") =
          Ok (VDict [("relevance_score", VFloat v1_5);
                     ("reasoning", VStr "overrated")])) as Hl by (by vm_compute).
  assert (score_opportunity_relevance overrating 0 analysis_value X = Ok overrated)
    as Hm by (by vm_compute).
  split; [exact Hp|]. split; [exact Ho|]. split; [exact Hm|].
  refine (proj1 (RankFacts.score_of_number overrating 0 analysis_value X_prompt
                   (score_text "1.5" "overrated") X _ (VFloat v1_5) (NFloat v1_5)
                   overrated Hp Ho Hne Hl eq_refl eq_refl Hm) _).
  right. by vm_compute.
Defined.

Lemma X14_witness :
  "company_name" ∈ required_fields /\
  has_value [("company_name", VStr "Acme")] "company_name" = true /\
  lt (NFloat (_calculate_completeness_from_data
                [("company_name", VStr "Acme"); ("industry", VStr "retail")]))
     (NFloat (_calculate_completeness [("company_name", VStr "Acme")])) = true.
Proof.
  assert ("company_name" ∈ required_fields) as Hin by decided.
  assert (has_value [("company_name", VStr "Acme")] "company_name" = true)
    as Hv by reflexivity.
  split; [exact Hin|]. split; [exact Hv|].
  exact (ImportFacts.completeness_units_differ [("company_name", VStr "Acme")]
           [("company_name", VStr "Acme"); ("industry", VStr "retail")]
           "company_name" Hin Hv).
Defined.

Lemma X18_witness :
  Forall (fun m => is_nan (Match.relevance_score m) = false) seven /\
  exists rest,
    (top_five seven ++ rest)%list ≡ₚ seven /\ length (top_five seven) = 5.
Proof.
  assert (Forall (fun m => is_nan (Match.relevance_score m) = false) seven)
    as H by decided.
  split; [exact H|].
  destruct (CampaignFacts.digest_takes_best_five seven H)
    as (rest & Hperm & Hlen & _).
  exists rest. split; [exact Hperm|exact Hlen].
Defined.

Lemma X19_witness :
  seven <> [] /\
  Forall (fun m => is_nan (Match.relevance_score m) = false) seven /\
  getattr company "company_name" = Ok (VStr "Acme") /\
  getattr company "industry" = Ok (VStr "technology software") /\
  send_opportunity_campaign campaign company seven catalogue = Ok true.
Proof.
  assert (seven <> []) as Hne by done.
  assert (Forall (fun m => is_nan (Match.relevance_score m) = false) seven)
    as Hnan by decided.
  assert (getattr company "company_name" = Ok (VStr "Acme")) as Hn
    by (by vm_compute).
  assert (getattr company "industry" = Ok (VStr "technology software")) as Hi
    by (by vm_compute).
  split; [exact Hne|]. split; [exact Hnan|]. split; [exact Hn|]. split; [exact Hi|].
  destruct (CampaignFacts.digest_contents campaign company seven catalogue
              _ _ Hne Hnan Hn Hi) as (_ & Hwritten & _).
  apply Hwritten.
  assert (shown catalogue (top_five seven) =
          [ (scored "Z" v0_9 "strong fit" 2, Z');
            (scored "Y" v0_8 "good fit" 3, Y) ]) as -> by (by vm_compute).
  repeat (constructor; [by split|]). constructor.
Defined.

Lemma X20_witness :
  find_matches_for_company isolation 0 company [X; Y; Z'] default_min_score
    = Ok ranked /\
  top_five ranked = take 5 ranked.
Proof.
  assert (find_matches_for_company isolation 0 company [X; Y; Z'] default_min_score
          = Ok ranked) as H by (by vm_compute).
  split; [exact H|].
  exact (proj1 (CampaignFacts.digest_of_returned_matches isolation 0 company
                  [X; Y; Z'] default_min_score ranked H)).
Defined.

Lemma X21_witness :
  analyze_company_profile silent 0 company = Ok analysis_value /\
  ge f0_0 default_min_score = false /\
  find_matches_for_company silent 0 company [X; Y; Z'] default_min_score = Ok [] /\
  send_opportunity_campaign campaign company [] catalogue =
  Raise no_opportunities_email.
Proof.
  assert (analyze_company_profile silent 0 company = Ok analysis_value)
    as Ha by (by vm_compute).
  assert (ge f0_0 default_min_score = false) as Hmin by reflexivity.
  assert (forall i o prompt, [X; Y; Z'] !! i = Some o ->
            scoring_prompt silent analysis_value o = Ok prompt ->
            exists e, oracle silent (S 0 + i) scoring_system prompt = Raises e)
    as Hfail.
  { intros i o prompt Ho _. exists timeout.
    destruct i as [|[|[|i]]]; try reflexivity. discriminate Ho. }
  split; [exact Ha|]. split; [exact Hmin|].
  destruct (CampaignFacts.campaign_without_matches_raises campaign silent 0 company
              [X; Y; Z'] default_min_score _ catalogue Ha Hmin Hfail)
    as (Hnone & _ & Hsend).
  split; [exact Hnone|exact Hsend].
Defined.

End SampleRuns.
